(** * SendSeven n8n nodes

    A shallow embedding of the request helper
    ([nodes/SendSeven/GenericFunctions.ts]), of the payload mapping of the
    action node and of the webhook trigger
    ([nodes/SendSeven/SendSeven.node.ts]), followed by the properties stated
    about them.

    Conventions of the embedding:
    - a JavaScript value is a term of [JS.value]; numbers are the integral
      ones (page counters, lengths, status codes), kept as [Z];
    - an object is an association list in insertion order, read with
      [JS.field] and written with [JS.obj_set];
    - code that awaits the host (credentials, HTTP) threads a [World]: the
      state of the outside world and the log of the HTTP requests issued;
    - an exception is an [exn], carried by the [Throw] outcome. *)

From Stdlib Require Import String Ascii List ZArith Lia Bool DecimalString.
Import ListNotations.
Local Open Scope string_scope.
Set Warnings "-register-all".

(* ================================================================== *)
(** ** JavaScript values *)
(* ================================================================== *)

Module JS.

Inductive value : Type :=
| VUndefined
| VNull
| VBool (b : bool)
| VNum (n : Z)
| VStr (s : string)
| VArr (elems : list value)
| VObj (fields : list (string * value)).

(** [IDataObject]: own properties, in insertion order. *)
Definition obj : Type := list (string * value).

(** ToBoolean. *)
Definition truthy (v : value) : bool :=
  match v with
  | VUndefined | VNull => false
  | VBool b => b
  | VNum n => negb (n =? 0)%Z
  | VStr s => negb (s =? EmptyString)
  | VArr _ | VObj _ => true
  end.

Definition nullish (v : value) : bool :=
  match v with
  | VUndefined | VNull => true
  | _ => false
  end.

(** [a || b] *)
Definition js_or (a b : value) : value := if truthy a then a else b.

(** [o[k]] on an object's own properties. *)
Fixpoint field (o : obj) (k : string) : value :=
  match o with
  | [] => VUndefined
  | (k', v) :: rest => if k' =? k then v else field rest k
  end.

(** [k in o] (own properties). *)
Definition has_key (o : obj) (k : string) : bool :=
  existsb (fun p => fst p =? k) o.

(** The property names an object literal inherits from
    [Object.prototype]; each holds a function or an object, so each reads
    as truthy. *)
Definition objectPrototype : list string :=
  [ "constructor"; "__defineGetter__"; "__defineSetter__";
    "hasOwnProperty"; "__lookupGetter__"; "__lookupSetter__";
    "isPrototypeOf"; "propertyIsEnumerable"; "toString"; "valueOf";
    "__proto__"; "toLocaleString" ].

(** ToBoolean of [o[k]] for an object literal [o] and any key [k]: the
    own property when there is one, else what [Object.prototype] gives. *)
Definition reads_truthy (o : obj) (k : string) : bool :=
  if has_key o k then truthy (field o k)
  else existsb (String.eqb k) objectPrototype.

(** [o[k] = v]: an existing key keeps its place, a new one goes last. *)
Fixpoint obj_set (o : obj) (k : string) (v : value) : obj :=
  match o with
  | [] => [(k, v)]
  | (k', v') :: rest =>
      if k' =? k then (k', v) :: rest else (k', v') :: obj_set rest k v
  end.

(** [delete o[k]] *)
Definition obj_delete (o : obj) (k : string) : obj :=
  filter (fun p => negb (fst p =? k)) o.

(** [Object.keys(o).length] *)
Definition keys_length (o : obj) : nat := length (map fst o).

Definition string_of_nat (n : nat) : string :=
  NilZero.string_of_uint (Nat.to_uint n).

Definition string_of_Z (n : Z) : string :=
  NilZero.string_of_int (Z.to_int n).

(** The array index a property key denotes, if it is one below [n]. *)
Definition index_of_key (k : string) (n : nat) : option nat :=
  find (fun i => string_of_nat i =? k) (seq 0 n).

(** [v.k] and [v?.k] for a receiver [v]; on [null] and [undefined] this is
    the result of [?.].  The plain [.] of the source is modelled by [member]
    only where its receiver cannot be [null] or [undefined] (an
    [IDataObject] parameter, an object literal, the result of [x || {}]);
    elsewhere [get] is used.  Properties inherited from a prototype are not
    part of the model. *)
Definition member (v : value) (k : string) : value :=
  match v with
  | VObj o => field o k
  | VArr l =>
      if k =? "length" then VNum (Z.of_nat (length l))
      else match index_of_key k (length l) with
           | Some i => nth i l VUndefined
           | None => VUndefined
           end
  | VStr s =>
      if k =? "length" then VNum (Z.of_nat (String.length s))
      else match index_of_key k (String.length s) with
           | Some i => match String.get i s with
                       | Some c => VStr (String c EmptyString)
                       | None => VUndefined
                       end
           | None => VUndefined
           end
  | _ => VUndefined
  end.

(** [String(v)].  A number is printed digit by digit, which is what
    JavaScript does for the integers below 2^53 in magnitude (the safe
    integers); [exact] below tells the values on which [String_] is
    JavaScript's [String]. *)
Fixpoint String_ (v : value) : string :=
  match v with
  | VUndefined => "undefined"
  | VNull => "null"
  | VBool true => "true"
  | VBool false => "false"
  | VNum n => string_of_Z n
  | VStr s => s
  | VArr l =>
      String.concat ","
        (map (fun x => match x with
                       | VUndefined | VNull => EmptyString
                       | _ => String_ x
                       end) l)
  | VObj _ => "[object Object]"
  end.

(** The values on which [String_] is exact: every number in them is a safe
    integer.  (An object prints as [[object Object]] whatever it holds.) *)
Fixpoint exact (v : value) : bool :=
  match v with
  | VNum n => (Z.abs n <? 2 ^ 53)%Z
  | VArr l => forallb exact l
  | _ => true
  end.

(** [v === 'literal'] *)
Definition strict_eq_str (v : value) (s : string) : bool :=
  match v with
  | VStr t => t =? s
  | _ => false
  end.

(** [v === n] for a number literal [n] *)
Definition strict_eq_num (v : value) (n : Z) : bool :=
  match v with
  | VNum m => (m =? n)%Z
  | _ => false
  end.

(** [!!v] *)
Definition to_bool (v : value) : value := VBool (truthy v).

Section Relational.

(** [a < b] when the operands are not both numbers goes through
    ToPrimitive and StringToNumber; that part is left to the runtime. *)
Variable lt_other : value -> value -> bool.

(** [a < b] *)
Definition js_lt (a b : value) : bool :=
  match a, b with
  | VNum x, VNum y => (x <? y)%Z
  | _, _ => lt_other a b
  end.

(** [a > b] *)
Definition js_gt (a b : value) : bool := js_lt b a.

End Relational.

End JS.

Import JS.

(* ================================================================== *)
(** ** Outcomes, exceptions and the host *)
(* ================================================================== *)

(** What the code throws. [NodeApiError] and [NodeOperationError] come from
    the host library; only the arguments the code passes are recorded. *)
Inductive exn : Type :=
| NodeApiError (cause : value) (message : string)
| NodeOperationError (message : string)
| Error (message : string)
| TypeError
| SyntaxError.

Inductive outcome (A : Type) : Type :=
| Ok (a : A)
| Throw (e : exn)
| OutOfFuel.

Arguments Ok {A} a.
Arguments Throw {A} e.
Arguments OutOfFuel {A}.

(** [v.k] where [v] may be [null] or [undefined]. *)
Definition get (v : value) (k : string) : outcome value :=
  if nullish v then Throw TypeError else Ok (member v k).

(** A promise of the host, settled. *)
Inductive settled : Type :=
| Resolved (v : value)
| Rejected (error : value).

Record IHttpRequestOptions : Type := {
  method : string;
  url : string;
  qs : option obj;
  body : option obj;
  json : bool
}.

(** The part of [this] the request helper uses; [S] is the state of the
    outside world (credential store, remote API). *)
Record Context (S : Type) : Type := {
  getCredentials : string -> S -> settled * S;
  httpRequestWithAuthentication :
    string -> IHttpRequestOptions -> S -> settled * S
}.

Arguments getCredentials {S} _ _ _.
Arguments httpRequestWithAuthentication {S} _ _ _ _.

Record World (S : Type) : Type := {
  remote : S;
  requests : list (string * IHttpRequestOptions)
}.

Arguments remote {S} _.
Arguments requests {S} _.
Arguments Build_World {S} _ _.

Definition M (S A : Type) : Type := World S -> outcome A * World S.

Definition ret {S A} (a : A) : M S A := fun w => (Ok a, w).

Definition bind {S A B} (c : M S A) (k : A -> M S B) : M S B :=
  fun w =>
    match c w with
    | (Ok a, w') => k a w'
    | (Throw e, w') => (Throw e, w')
    | (OutOfFuel, w') => (OutOfFuel, w')
    end.

Definition throw {S A} (e : exn) : M S A := fun w => (Throw e, w).

Definition out_of_fuel {S A} : M S A := fun w => (OutOfFuel, w).

Definition lift {S A} (r : outcome A) : M S A := fun w => (r, w).

(** [try { c } catch (error) { h error }] *)
Definition try_catch {S A} (c : M S A) (h : exn -> M S A) : M S A :=
  fun w =>
    match c w with
    | (Throw e, w') => h e w'
    | r => r
    end.

Declare Scope js_scope.
Delimit Scope js_scope with js.
Notation "x <- c ;; k" := (bind c (fun x => k))
  (at level 100, c at next level, right associativity) : js_scope.
Local Open Scope js_scope.

(* ================================================================== *)
(** ** GenericFunctions.ts *)
(* ================================================================== *)

Module GenericFunctions.

Definition API_BASE_URL : string := "https://api.sendseven.com/api/v1".

(** [getErrorMessage(error)]; reading [err.response] throws when the
    thrown value is [null] or [undefined]. *)
Definition getErrorMessage (error : value) : outcome string :=
  let err := error in
  match get err "response" with
  | Ok response_ =>
      let fromBody :=
        if truthy response_ then
          let response := response_ in
          let body := member response "body" in
          if truthy body then
            if truthy (member body "detail") then
              Some (String_ (member body "detail"))
            else if truthy (member body "message") then
              Some (String_ (member body "message"))
            else None
          else None
        else None in
      match fromBody with
      | Some s => Ok s
      | None =>
          if truthy (member err "message") then
            Ok (String_ (member err "message"))
          else Ok "An unknown error occurred"
      end
  | Throw e => Throw e
  | OutOfFuel => OutOfFuel
  end.

(** The double quote character, as a string. *)
Definition dquote : string := String (ascii_of_nat 34) EmptyString.

(** [validateRequiredFields(node, fields, required)]; [fields[field]] is
    read with what the object inherits. *)
Fixpoint validateRequiredFields (fields : obj) (required : list string)
  : outcome unit :=
  match required with
  | [] => Ok tt
  | field_ :: rest =>
      if negb (reads_truthy fields field_) then
        Throw (NodeOperationError
                 ("The " ++ dquote ++ field_ ++ dquote ++ " field is required"))
      else validateRequiredFields fields rest
  end.

(** The three formatters take an [IDataObject].  Each definition below is
    the object literal the function returns for an argument that is not
    [null] or [undefined]; on those two the source throws a [TypeError] at
    the first property it reads, which the model raises at the call
    ([formatResponse], [arrayMap]) wherever the argument can be one. *)

(** [formatContactResponse(contact)] *)
Definition formatContactResponse (contact : value) : value :=
  VObj [ ("id", member contact "id");
         ("name", member contact "name");
         ("firstName", member contact "first_name");
         ("lastName", member contact "last_name");
         ("email", member contact "email");
         ("phone", member contact "phone");
         ("company", member contact "company");
         ("notes", member contact "notes");
         ("customFields", member contact "custom_fields");
         ("tags", member contact "tags");
         ("createdAt", member contact "created_at");
         ("updatedAt", member contact "updated_at") ].

(** [formatConversationResponse(conversation)] *)
Definition formatConversationResponse (conversation : value) : value :=
  VObj [ ("id", member conversation "id");
         ("contactId", member conversation "contact_id");
         ("contactName",
           js_or (member conversation "contact_name")
                 (member (member conversation "contact") "name"));
         ("channelType", member conversation "channel_type");
         ("channelId", member conversation "channel_id");
         ("status", member conversation "status");
         ("assignedToUserId", member conversation "assigned_to_user_id");
         ("lastMessageAt", member conversation "last_message_at");
         ("messageCount", member conversation "message_count");
         ("unreadCount", member conversation "unread_count");
         ("createdAt", member conversation "created_at");
         ("updatedAt", member conversation "updated_at") ].

(** [formatMessageResponse(message)] *)
Definition formatMessageResponse (message : value) : value :=
  VObj [ ("id", member message "id");
         ("conversationId", member message "conversation_id");
         ("channelId", member message "channel_id");
         ("direction", member message "direction");
         ("messageType",
           js_or (member message "message_type") (member message "type"));
         ("text", js_or (member message "text") (member message "content"));
         ("status", member message "status");
         ("to", member message "to");
         ("from", member message "from");
         ("hasAttachments",
           to_bool (member (member message "attachments") "length"));
         ("attachments", member message "attachments");
         ("createdAt", member message "created_at") ].

(** [...items] inside [allItems.push(...)]: arrays and strings are
    iterable, the other values are not. *)
Definition spread (items : value) : outcome (list value) :=
  match items with
  | VArr l => Ok l
  | VStr s => Ok (map (fun c => VStr (String c EmptyString)) (list_ascii_of_string s))
  | _ => Throw TypeError
  end.

(** The [options] of [sendSevenApiRequest]: an empty body, or any body of a
    GET, and an empty query are removed. *)
Definition requestOptions (method_ : string) (endpoint : string)
    (body_ : obj) (query : obj) : IHttpRequestOptions :=
  let options :=
    {| method := method_;
       url := API_BASE_URL ++ endpoint;
       qs := Some query;
       body := Some body_;
       json := true |} in
  let options :=
    if (method_ =? "GET") || (keys_length body_ =? 0)%nat then
      {| method := method options; url := url options;
         qs := qs options; body := None; json := json options |}
    else options in
  if (keys_length query =? 0)%nat then
    {| method := method options; url := url options;
       qs := None; body := body options; json := json options |}
  else options.

(** [const pageSize = 100] *)
Definition pageSize : Z := 100.

(** [{ ...query, page, page_size: pageSize }] *)
Definition pageQuery (query : obj) (page : Z) : obj :=
  obj_set (obj_set query "page" (VNum page)) "page_size" (VNum pageSize).

(** The value given to [hasMore] after a response: from the envelope when
    there is one, else whether the page was full. *)
Definition hasMoreAfter (lt_other : value -> value -> bool)
    (responseData items : value) : bool :=
  let pagination := member responseData "pagination" in
  if truthy pagination then
    let currentPage := member pagination "page" in
    let totalPages := member pagination "total_pages" in
    js_lt lt_other currentPage totalPages
  else strict_eq_num (member items "length") pageSize.

(** [WEBHOOK_EVENTS], as (name, value) pairs. *)
Definition WEBHOOK_EVENTS : list (string * string) :=
  [ ("Message Received", "message.received");
    ("Message Sent", "message.sent");
    ("Message Status Updated", "message.status_updated");
    ("Conversation Created", "conversation.created");
    ("Conversation Closed", "conversation.closed");
    ("Contact Created", "contact.created");
    ("Contact Updated", "contact.updated");
    ("Ticket Created", "ticket.created");
    ("Ticket Closed", "ticket.closed");
    ("Campaign Sent", "campaign.sent") ].

Section Requests.

Context {S : Type}.
Variable this : Context S.

(** [await this.getCredentials(name)], settled. *)
Definition awaitGetCredentials (name : string) : M S settled :=
  fun w =>
    let (r, s) := getCredentials this name (remote w) in
    (Ok r, Build_World s (requests w)).

(** [await this.helpers.httpRequestWithAuthentication.call(this, ...)],
    settled; the request is appended to the log. *)
Definition awaitHttpRequest (credentialType : string)
    (options : IHttpRequestOptions) : M S settled :=
  fun w =>
    let (r, s) := httpRequestWithAuthentication this credentialType
                    options (remote w) in
    (Ok r, Build_World s (requests w ++ [(credentialType, options)])%list).

(** [getCredentialType] *)
Definition getCredentialType : M S string :=
  r <- awaitGetCredentials "sendSevenOAuth2Api" ;;
  match r with
  | Resolved _ => ret "sendSevenOAuth2Api"
  | Rejected _ => ret "sendSevenApi"
  end.

(** [sendSevenApiRequest(method, endpoint, body = {}, query = {})] *)
Definition sendSevenApiRequest (method_ : string) (endpoint : string)
    (body_ : obj) (query : obj) : M S value :=
  let options := requestOptions method_ endpoint body_ query in
  credentialType <- getCredentialType ;;
  r <- awaitHttpRequest credentialType options ;;
  match r with
  | Resolved response => ret response
  | Rejected error =>
      message <- lift (getErrorMessage error) ;;
      throw (NodeApiError error message)
  end.

Variable lt_other : value -> value -> bool.

(** The [while (hasMore)] loop of [sendSevenApiRequestAllItems], entered
    with [hasMore] true; [fuel] bounds the number of iterations. *)
Fixpoint allItemsLoop (fuel : nat) (endpoint : string) (query : obj)
    (itemsKey : string) (page : Z) (allItems : list value)
  : M S (list value) :=
  match fuel with
  | O => out_of_fuel
  | Datatypes.S fuel' =>
      response <- sendSevenApiRequest "GET" endpoint []
                    (pageQuery query page) ;;
      let responseData := response in
      found <- lift (get responseData itemsKey) ;;
      let items := js_or found (VArr []) in
      pushed <- lift (spread items) ;;
      let allItems := (allItems ++ pushed)%list in
      let hasMore := hasMoreAfter lt_other responseData items in
      let page := (page + 1)%Z in
      if (100 <? page)%Z then ret allItems
      else if hasMore then
        allItemsLoop fuel' endpoint query itemsKey page allItems
      else ret allItems
  end.

(** [sendSevenApiRequestAllItems(endpoint, query = {}, itemsKey = 'items')] *)
Definition sendSevenApiRequestAllItems (fuel : nat) (endpoint : string)
    (query : obj) (itemsKey : string) : M S (list value) :=
  allItemsLoop fuel endpoint query itemsKey 1%Z [].

End Requests.

End GenericFunctions.

(** Sequencing of pure computations that may throw. *)
Definition obind {A B} (r : outcome A) (k : A -> outcome B) : outcome B :=
  match r with
  | Ok a => k a
  | Throw e => Throw e
  | OutOfFuel => OutOfFuel
  end.

(** [l.map(f)] for a callback that may throw. *)
Fixpoint map_outcome {A B} (f : A -> outcome B) (l : list A)
  : outcome (list B) :=
  match l with
  | [] => Ok []
  | x :: rest =>
      obind (f x) (fun y =>
      obind (map_outcome f rest) (fun ys => Ok (y :: ys)))
  end.

(* ================================================================== *)
(** ** SendSeven.node.ts: the action node *)
(* ================================================================== *)

Module SendSeven.

Import GenericFunctions.

Section Execute.

Context {S : Type}.
Variable this : Context S.

(** [JSON.parse]; [None] stands for the [SyntaxError] it throws. *)
Variable JSON_parse : string -> option value.

Variable lt_other : value -> value -> bool.

(** [if (c) body.k = v;] *)
Definition set_if (c : value) (body_ : obj) (k : string) (v : value)
  : obj :=
  if truthy c then obj_set body_ k v else body_.

(** The fields of a contact body that are copied as they are: each is
    set when its value is truthy ([if (name) body.name = name;] and the
    like). *)
Definition plainFields (email phone name : string)
    (additionalFields : obj) : obj :=
  let body_ : obj := [] in
  let body_ := set_if (VStr name) body_ "name" (VStr name) in
  let body_ := set_if (VStr email) body_ "email" (VStr email) in
  let body_ := set_if (VStr phone) body_ "phone" (VStr phone) in
  let body_ := set_if (field additionalFields "firstName") body_
                 "first_name" (field additionalFields "firstName") in
  let body_ := set_if (field additionalFields "lastName") body_
                 "last_name" (field additionalFields "lastName") in
  let body_ := set_if (field additionalFields "company") body_
                 "company" (field additionalFields "company") in
  set_if (field additionalFields "notes") body_
    "notes" (field additionalFields "notes").

(** The body built by [resource === 'contact'], [operation === 'create'],
    from the node parameters [email], [phone], [name] and
    [additionalFields]. *)
Definition contactCreateBody (email phone name : string)
    (additionalFields : obj) : outcome obj :=
  if negb (truthy (VStr email)) && negb (truthy (VStr phone)) then
    Throw (Error "Either email or phone is required to create a contact")
  else
    let body_ := plainFields email phone name additionalFields in
    if truthy (field additionalFields "customFields") then
      match field additionalFields "customFields" with
      | VStr s =>
          match JSON_parse s with
          | Some parsed => Ok (obj_set body_ "custom_fields" parsed)
          | None => Throw SyntaxError
          end
      | other => Ok (obj_set body_ "custom_fields" other)
      end
    else Ok body_.

(** Contact create: build the body, post it, format the response. *)
Definition contactCreate (email phone name : string)
    (additionalFields : obj) : M S value :=
  body_ <- lift (contactCreateBody email phone name additionalFields) ;;
  responseData <- sendSevenApiRequest this "POST" "/contacts" body_ [] ;;
  if nullish responseData then throw TypeError
  else ret (formatContactResponse responseData).

(** The [template] object of a WhatsApp template send, with its
    [components] when variables are given. *)
Definition templateObject (templateName templateLanguage : string)
    (variables : value) : outcome obj :=
  let template : obj :=
    [ ("name", VStr templateName);
      ("language", VObj [("code", VStr templateLanguage)]) ] in
  if js_gt lt_other (member variables "length") (VNum 0) then
    match variables with
    | VArr l =>
        obind
          (map_outcome
             (fun v =>
                obind (get v "value") (fun value_ =>
                Ok (VObj [ ("type", VStr "text");
                           ("text", VStr (String_ value_)) ])))
             l)
          (fun parameters =>
             Ok (obj_set template "components"
                   (VArr [ VObj [ ("type", VStr "body");
                                  ("parameters", VArr parameters) ] ])))
    | _ => Throw TypeError
    end
  else Ok template.

(** The body built by [resource === 'whatsappTemplate'],
    [operation === 'send']. *)
Definition whatsappTemplateSendBody
    (channelId to templateName templateLanguage : string)
    (variablesData : obj) : outcome (obj * value) :=
  obind
    (validateRequiredFields
       [ ("channelId", VStr channelId); ("to", VStr to);
         ("templateName", VStr templateName) ]
       [ "channelId"; "to"; "templateName" ])
    (fun _ =>
  let variables := js_or (field variablesData "variables") (VArr []) in
  obind (templateObject templateName templateLanguage variables)
    (fun template =>
  let content : obj :=
    [ ("type", VStr "template"); ("template", VObj template) ] in
  Ok ([ ("to", VStr to);
        ("channel_id", VStr channelId);
        ("content", VObj content) ], variables))).

(** WhatsApp template send. *)
Definition whatsappTemplateSend
    (channelId to templateName templateLanguage : string)
    (variablesData : obj) : M S value :=
  built <- lift (whatsappTemplateSendBody channelId to templateName
                   templateLanguage variablesData) ;;
  let (body_, variables) := built : obj * value in
  responseData <- sendSevenApiRequest this "POST" "/messages" body_ [] ;;
  if nullish responseData then throw TypeError
  else
    match formatMessageResponse responseData with
    | VObj formatted =>
        ret (VObj (obj_set
                     (obj_set
                        (obj_set formatted "templateName"
                           (VStr templateName))
                        "templateLanguage" (VStr templateLanguage))
                     "variablesSent" (member variables "length")))
    | other => ret other
    end.

End Execute.

End SendSeven.

(* ================================================================== *)
(** ** SendSeven.node.ts: the trigger node *)
(* ================================================================== *)

Module SendSevenTrigger.

Import GenericFunctions.

Record IWebhookResponseData : Type := {
  noWebhookResponse : option bool;
  workflowData : option (list (list value))
}.

Section Hooks.

Context {S : Type}.
Variable this : Context S.

(** [err.k] on a caught exception; what a [NodeApiError] exposes as
    [httpCode] and [statusCode] is decided by the host library. *)
Variable exn_member : exn -> string -> value.

(** [webhookMethods.default.delete]: the result, and the node's static
    data after the call. *)
Definition delete (webhookData : obj) : M S (bool * obj) :=
  let webhookId := field webhookData "webhookId" in
  if negb (truthy webhookId) then ret (true, webhookData)
  else
    early <-
      try_catch
        (_ <- sendSevenApiRequest this "DELETE"
                ("/webhooks/" ++ String_ webhookId) [] [] ;;
         ret None)
        (fun error =>
           let err := error in
           if negb (strict_eq_num
                      (js_or (exn_member err "httpCode")
                             (exn_member err "statusCode")) 404)
           then ret (Some false)
           else ret None) ;;
    match early with
    | Some result => ret (result, webhookData)
    | None =>
        ret (true,
             obj_delete (obj_delete webhookData "webhookId") "secretKey")
    end.

End Hooks.

(** The [ticket] object of a ticket event. *)
Definition ticketObject (ticket conversation : value) : value :=
  VObj [ ("id", member ticket "id");
         ("status", member ticket "status");
         ("summary", member ticket "summary");
         ("conversationId",
           js_or (member ticket "conversation_id")
                 (member conversation "id"));
         ("assignedToUserId", member ticket "assigned_to_user_id");
         ("createdAt", member ticket "created_at");
         ("closedAt", member ticket "closed_at") ].

(** The [campaign] object of a campaign event. *)
Definition campaignObject (campaign : value) : value :=
  VObj [ ("id", member campaign "id");
         ("name", member campaign "name");
         ("type", member campaign "type");
         ("status", member campaign "status");
         ("sentCount", member campaign "sent_count");
         ("deliveredCount", member campaign "delivered_count");
         ("failedCount", member campaign "failed_count");
         ("sentAt", member campaign "sent_at") ].

(** [x.id ? f(x) : null] *)
Definition format_if_id (f : value -> value) (x : value) : value :=
  if truthy (member x "id") then f x else VNull.

(** The [switch (receivedEvent)] of [webhook]. *)
Definition formatEvent (receivedEvent : value) (body_ : obj) (data : value)
  : value :=
  if strict_eq_str receivedEvent "message.received"
     || strict_eq_str receivedEvent "message.sent"
     || strict_eq_str receivedEvent "message.status_updated" then
    let message := js_or (member data "message") (VObj []) in
    let contact := js_or (member data "contact") (VObj []) in
    let conversation := js_or (member data "conversation") (VObj []) in
    VObj [ ("id", js_or (member message "id") (field body_ "event_id"));
           ("event", receivedEvent);
           ("message", formatMessageResponse message);
           ("contact", format_if_id formatContactResponse contact);
           ("conversation",
             format_if_id formatConversationResponse conversation);
           ("timestamp", field body_ "timestamp") ]
  else if strict_eq_str receivedEvent "conversation.created"
          || strict_eq_str receivedEvent "conversation.closed" then
    let conversation := js_or (member data "conversation") data in
    let contact := js_or (member data "contact") (VObj []) in
    VObj [ ("id", js_or (member conversation "id") (field body_ "event_id"));
           ("event", receivedEvent);
           ("conversation", formatConversationResponse conversation);
           ("contact", format_if_id formatContactResponse contact);
           ("timestamp", field body_ "timestamp") ]
  else if strict_eq_str receivedEvent "contact.created"
          || strict_eq_str receivedEvent "contact.updated" then
    let contact := js_or (member data "contact") data in
    VObj [ ("id", js_or (member contact "id") (field body_ "event_id"));
           ("event", receivedEvent);
           ("contact", formatContactResponse contact);
           ("timestamp", field body_ "timestamp") ]
  else if strict_eq_str receivedEvent "ticket.created"
          || strict_eq_str receivedEvent "ticket.closed" then
    let ticket := js_or (member data "ticket") data in
    let conversation := js_or (member data "conversation") (VObj []) in
    let contact := js_or (member data "contact") (VObj []) in
    VObj [ ("id", js_or (member ticket "id") (field body_ "event_id"));
           ("event", receivedEvent);
           ("ticket", ticketObject ticket conversation);
           ("conversation",
             format_if_id formatConversationResponse conversation);
           ("contact", format_if_id formatContactResponse contact);
           ("timestamp", field body_ "timestamp") ]
  else if strict_eq_str receivedEvent "campaign.sent" then
    let campaign := js_or (member data "campaign") data in
    VObj [ ("id", js_or (member campaign "id") (field body_ "event_id"));
           ("event", receivedEvent);
           ("campaign", campaignObject campaign);
           ("timestamp", field body_ "timestamp") ]
  else
    VObj [ ("id", field body_ "event_id");
           ("event", receivedEvent);
           ("data", data);
           ("timestamp", field body_ "timestamp");
           ("raw", VObj body_) ].

(** [webhook]: [headers] is [req.headers], [body_] the parsed request body,
    [event] the node parameter and [webhookData] the node's static data. *)
Definition webhook (headers body_ : obj) (event : string)
    (webhookData : obj) : IWebhookResponseData :=
  let receivedEvent := field body_ "event" in
  if negb (strict_eq_str receivedEvent event) then
    {| noWebhookResponse := Some true; workflowData := None |}
  else
    let secretKey := field webhookData "secretKey" in
    let _ :=
      if truthy secretKey then
        let signature := field headers "x-sendseven-signature" in
        if truthy signature then tt else tt
      else tt in
    let data := js_or (field body_ "data") (VObj []) in
    let formattedData := formatEvent receivedEvent body_ data in
    {| noWebhookResponse := None;
       workflowData := Some [ [ VObj [ ("json", formattedData) ] ] ] |}.

End SendSevenTrigger.

(* ================================================================== *)
(** ** Test doubles for the remote API *)
(* ================================================================== *)

Module Simulation.

(** The page a request asks for. *)
Definition requestedPage (options : IHttpRequestOptions) : value :=
  match qs options with
  | Some q => field q "page"
  | None => VUndefined
  end.

(** The response of an API that holds [pages] to a request for page [p]:
    the items of that page (none beyond the last page) and the envelope
    [{page: p, total_pages: N}]. *)
Definition pageResponse (pages : list (list value)) (p : Z) : value :=
  VObj [ ("items",
           VArr (if (1 <=? p)%Z then nth (Z.to_nat (p - 1)) pages []
                 else []));
         ("pagination",
           VObj [ ("page", VNum p);
                  ("total_pages", VNum (Z.of_nat (length pages))) ]) ].

(** A remote API that serves [pages]; [oauth] tells whether the OAuth2
    credentials can be read. *)
Definition pagedApi (oauth : bool) (pages : list (list value))
  : Context unit :=
  {| getCredentials := fun _ s =>
       (if oauth then Resolved (VObj []) else Rejected (VObj []), s);
     httpRequestWithAuthentication := fun _ options s =>
       match requestedPage options with
       | VNum p => (Resolved (pageResponse pages p), s)
       | _ => (Resolved (pageResponse pages 1), s)
       end |}.

(** A remote API whose envelope always announces one more page; its state
    counts the requests served. *)
Definition endlessApi : Context nat :=
  {| getCredentials := fun _ s => (Rejected (VObj []), s);
     httpRequestWithAuthentication := fun _ options s =>
       (Resolved
          (VObj [ ("items", VArr [VNum (Z.of_nat s)]);
                  ("pagination",
                    VObj [ ("page", VNum 1); ("total_pages", VNum 2) ]) ]),
        Datatypes.S s) |}.

(** A remote API that rejects every request with [error]. *)
Definition failingApi (oauth : bool) (error : value) : Context unit :=
  {| getCredentials := fun _ s =>
       (if oauth then Resolved (VObj []) else Rejected (VObj []), s);
     httpRequestWithAuthentication := fun _ _ s => (Rejected error, s) |}.

(** A remote API that accepts every request and answers [response]. *)
Definition constantApi (oauth : bool) (response : value) : Context unit :=
  {| getCredentials := fun _ s =>
       (if oauth then Resolved (VObj []) else Rejected (VObj []), s);
     httpRequestWithAuthentication := fun _ _ s => (Resolved response, s) |}.

(** Relational comparison of operands that are not both numbers, for the
    examples: always false. *)
Definition lt_never (_ _ : value) : bool := false.

(** Pages of one hundred items each but for a short last one. *)
Definition samplePages : list (list value) :=
  [ repeat (VStr "a") 100; repeat (VStr "b") 100; [VStr "c"; VStr "d"] ].

(** A [JSON.parse] that knows two texts, for the examples. *)
Definition parse_sample (s : string) : option value :=
  if s =? "{}" then Some (VObj [])
  else if s =? "[7]" then Some (VArr [VNum 7])
  else None.

(** The additional fields of a sample contact: a company, empty notes and
    custom fields given as JSON text. *)
Definition sampleAdditionalFields : obj :=
  [ ("company", VStr "Acme");
    ("notes", VStr EmptyString);
    ("customFields", VStr "{}") ].


(** Request headers with and without a signature. *)
Definition signedHeaders : obj :=
  [ ("content-type", VStr "application/json");
    ("x-sendseven-signature", VStr "sha256=0badc0de") ].

Definition unsignedHeaders : obj :=
  [ ("content-type", VStr "application/json") ].

(** A delivery of an event the trigger has no case for. *)
Definition sampleDelivery : obj :=
  [ ("event", VStr "channel.connected");
    ("event_id", VStr "evt_1");
    ("data", VObj [("channel", VObj [("id", VStr "ch_1")])]);
    ("timestamp", VStr "2025-01-01T00:00:00Z") ].

(** Static data of a trigger that has registered its webhook. *)
Definition sampleStaticData : obj :=
  [ ("webhookId", VStr "wh_1"); ("secretKey", VStr "s3cret") ].

(** The properties of a caught exception, for the examples.  The class of
    the error that [sendSevenApiRequest] throws is the host library's
    (n8n-workflow's [NodeApiError]), which declares [httpCode] as
    [string | null] and declares no [statusCode]: the status of the
    response that failed is exposed as text. *)
Definition textStatus (e : exn) (k : string) : value :=
  match e with
  | NodeApiError cause _ =>
      if k =? "httpCode" then
        match member cause "status" with
        | VNum n => VStr (String_ (VNum n))
        | _ => VNull
        end
      else VUndefined
  | _ => VUndefined
  end.

(** The rejection of a request that the API answered with the status
    [status]. *)
Definition rejection (status : Z) (detail : string) : value :=
  VObj [ ("message", VStr "Request failed");
         ("status", VNum status);
         ("response",
           VObj [ ("status", VNum status);
                  ("body", VObj [("detail", VStr detail)]) ]) ].

Definition startWorld {S : Type} (s : S) : World S := Build_World s [].

(** An error as the HTTP helper rejects with: its own message, and the
    response with the API's body. *)
Definition sampleError : value :=
  VObj [ ("message", VStr "Request failed with status code 422");
         ("response",
           VObj [ ("body",
                    VObj [ ("detail", VStr "Phone number is invalid");
                           ("message", VStr "Unprocessable") ]) ]) ].

End Simulation.

(* ================================================================== *)
(** ** SendSeven.node.ts: the other operations of [execute] *)
(* ================================================================== *)

Module SendSevenExecute.

Import GenericFunctions SendSeven.

(** The node parameters of one input item as [getNodeParameter] resolves
    them (defaults applied), typed by the node's property schema. *)
Record NodeParameters : Type := {
  p_channelId : string;
  p_to : string;
  p_text : string;
  p_email : string;
  p_phone : string;
  p_name : string;
  p_additionalFields : obj;
  p_contactId : string;
  p_tagId : string;
  p_searchQuery : string;
  p_returnAll : bool;
  p_limit : Z;
  p_conversationId : string;
  p_userId : string;
  p_filters : obj;
  p_waChannelId : string;
  p_recipientPhone : string;
  p_templateName : string;
  p_templateLanguage : string;
  p_templateVariables : obj
}.

(** [v.map(f)] where [f] reads properties of its argument: [v] has to be an
    array, and no element may be [null] or [undefined]. *)
Definition arrayMap (f : value -> value) (v : value) : outcome value :=
  match v with
  | VArr l =>
      obind
        (map_outcome
           (fun x => if nullish x then Throw TypeError else Ok (f x)) l)
        (fun formatted => Ok (VArr formatted))
  | _ => Throw TypeError
  end.

(** The body of a contact update: the fields of a create, without the
    email-or-phone test. *)
Definition contactUpdateBody (JSON_parse : string -> option value)
    (name email phone : string) (additionalFields : obj) : outcome obj :=
  let body_ := plainFields email phone name additionalFields in
  if truthy (field additionalFields "customFields") then
    match field additionalFields "customFields" with
    | VStr s =>
        match JSON_parse s with
        | Some parsed => Ok (obj_set body_ "custom_fields" parsed)
        | None => Throw SyntaxError
        end
    | other => Ok (obj_set body_ "custom_fields" other)
    end
  else Ok body_.

(** The query of a contact search. *)
Definition contactSearchQuery (searchQuery email phone : string) : obj :=
  let query : obj := [] in
  let query := set_if (VStr searchQuery) query "search" (VStr searchQuery) in
  let query := set_if (VStr email) query "email" (VStr email) in
  set_if (VStr phone) query "phone" (VStr phone).

(** The query of a conversation search. *)
Definition conversationSearchQuery (filters : obj) : obj :=
  let query : obj := [] in
  let query := set_if (field filters "contactId") query "contact_id"
                 (field filters "contactId") in
  let query := set_if (field filters "status") query "status"
                 (field filters "status") in
  set_if (field filters "channelType") query "channel_type"
    (field filters "channelType").

(** The endpoint of the template listing. *)
Definition templatesEndpoint (channelId : string) : string :=
  let endpoint := "/whatsapp-templates" in
  if truthy (VStr channelId) then endpoint ++ "?channel_id=" ++ channelId
  else endpoint.

(** [returnData.push(...)] at the end of an iteration. *)
Definition pushResponse (returnData : list value) (responseData : value)
  : list value :=
  match responseData with
  | VArr l =>
      (returnData ++ map (fun item => VObj [("json", item)]) l)%list
  | _ =>
      if truthy responseData then
        (returnData ++ [VObj [("json", responseData)]])%list
      else returnData
  end.

Section Operations.

Context {S : Type}.
Variable this : Context S.
Variable JSON_parse : string -> option value.
Variable lt_other : value -> value -> bool.

(** Fuel for the pagination loop. *)
Variable fuel : nat.

(** [f(responseData as IDataObject)] *)
Definition formatResponse (f : value -> value) (responseData : value)
  : M S value :=
  if nullish responseData then throw TypeError else ret (f responseData).

(** Message send. *)
Definition messageSend (channelId to text : string) : M S value :=
  _ <- lift (validateRequiredFields
               [ ("channelId", VStr channelId); ("to", VStr to);
                 ("text", VStr text) ]
               [ "channelId"; "to"; "text" ]) ;;
  let body_ : obj :=
    [ ("channel_id", VStr channelId); ("to", VStr to);
      ("text", VStr text) ] in
  responseData <- sendSevenApiRequest this "POST" "/messages" body_ [] ;;
  formatResponse formatMessageResponse responseData.

(** Contact update. *)
Definition contactUpdate (contactId name email phone : string)
    (additionalFields : obj) : M S value :=
  _ <- lift (validateRequiredFields [("contactId", VStr contactId)]
               ["contactId"]) ;;
  body_ <- lift (contactUpdateBody JSON_parse name email phone
                   additionalFields) ;;
  responseData <- sendSevenApiRequest this "PUT" ("/contacts/" ++ contactId)
                    body_ [] ;;
  formatResponse formatContactResponse responseData.

(** Contact get. *)
Definition contactGet (contactId : string) : M S value :=
  _ <- lift (validateRequiredFields [("contactId", VStr contactId)]
               ["contactId"]) ;;
  responseData <- sendSevenApiRequest this "GET" ("/contacts/" ++ contactId)
                    [] [] ;;
  formatResponse formatContactResponse responseData.

(** The listing shared by the searches: every page, or one request with
    [page_size] set to [limit]. *)
Definition listing (endpoint : string) (query : obj) (returnAll : bool)
    (limit : Z) : M S value :=
  if returnAll then
    items <- sendSevenApiRequestAllItems this lt_other fuel endpoint query
               "items" ;;
    ret (VArr items)
  else
    let query := obj_set query "page_size" (VNum limit) in
    response <- sendSevenApiRequest this "GET" endpoint [] query ;;
    items <- lift (get response "items") ;;
    ret (js_or items response).

(** Contact search. *)
Definition contactSearch (returnAll : bool) (searchQuery email phone : string)
    (limit : Z) : M S value :=
  let query := contactSearchQuery searchQuery email phone in
  responseData <- listing "/contacts" query returnAll limit ;;
  lift (arrayMap formatContactResponse responseData).

(** Contact add tag. *)
Definition contactAddTag (contactId tagId : string) : M S value :=
  _ <- lift (validateRequiredFields
               [ ("contactId", VStr contactId); ("tagId", VStr tagId) ]
               [ "contactId"; "tagId" ]) ;;
  _ <- sendSevenApiRequest this "POST"
         ("/contacts/" ++ contactId ++ "/tags/" ++ tagId) [] [] ;;
  ret (VObj [ ("success", VBool true);
              ("contactId", VStr contactId);
              ("tagId", VStr tagId);
              ("message", VStr "Tag added successfully") ]).

(** Conversation get. *)
Definition conversationGet (conversationId : string) : M S value :=
  _ <- lift (validateRequiredFields
               [("conversationId", VStr conversationId)]
               ["conversationId"]) ;;
  responseData <- sendSevenApiRequest this "GET"
                    ("/conversations/" ++ conversationId) [] [] ;;
  formatResponse formatConversationResponse responseData.

(** Conversation search. *)
Definition conversationSearch (returnAll : bool) (filters : obj) (limit : Z)
  : M S value :=
  let query := conversationSearchQuery filters in
  responseData <- listing "/conversations" query returnAll limit ;;
  lift (arrayMap formatConversationResponse responseData).

(** Conversation close. *)
Definition conversationClose (conversationId : string) : M S value :=
  _ <- lift (validateRequiredFields
               [("conversationId", VStr conversationId)]
               ["conversationId"]) ;;
  responseData <- sendSevenApiRequest this "PUT"
                    ("/conversations/" ++ conversationId ++ "/close")
                    [] [] ;;
  formatResponse formatConversationResponse responseData.

(** Conversation assign. *)
Definition conversationAssign (conversationId userId : string) : M S value :=
  _ <- lift (validateRequiredFields
               [ ("conversationId", VStr conversationId);
                 ("userId", VStr userId) ]
               [ "conversationId"; "userId" ]) ;;
  responseData <- sendSevenApiRequest this "PUT"
                    ("/conversations/" ++ conversationId ++ "/assign")
                    [("user_id", VStr userId)] [] ;;
  formatResponse formatConversationResponse responseData.

(** WhatsApp template list. *)
Definition whatsappTemplateList (channelId : string) (returnAll : bool)
    (limit : Z) : M S value :=
  listing (templatesEndpoint channelId) [] returnAll limit.

(** The body of the [try] of one iteration of [execute], up to the push:
    the response data of the item, [{}] when no branch applies. *)
Definition executeItem (resource operation : string) (p : NodeParameters)
  : M S value :=
  if resource =? "message" then
    if operation =? "send" then
      messageSend (p_channelId p) (p_to p) (p_text p)
    else ret (VObj [])
  else if resource =? "contact" then
    if operation =? "create" then
      contactCreate this JSON_parse (p_email p) (p_phone p) (p_name p)
        (p_additionalFields p)
    else if operation =? "update" then
      contactUpdate (p_contactId p) (p_name p) (p_email p) (p_phone p)
        (p_additionalFields p)
    else if operation =? "get" then contactGet (p_contactId p)
    else if operation =? "search" then
      contactSearch (p_returnAll p) (p_searchQuery p) (p_email p)
        (p_phone p) (p_limit p)
    else if operation =? "addTag" then
      contactAddTag (p_contactId p) (p_tagId p)
    else ret (VObj [])
  else if resource =? "conversation" then
    if operation =? "get" then conversationGet (p_conversationId p)
    else if operation =? "search" then
      conversationSearch (p_returnAll p) (p_filters p) (p_limit p)
    else if operation =? "close" then conversationClose (p_conversationId p)
    else if operation =? "assign" then
      conversationAssign (p_conversationId p) (p_userId p)
    else ret (VObj [])
  else if resource =? "whatsappTemplate" then
    if operation =? "send" then
      whatsappTemplateSend this lt_other (p_waChannelId p)
        (p_recipientPhone p) (p_templateName p) (p_templateLanguage p)
        (p_templateVariables p)
    else if operation =? "list" then
      whatsappTemplateList (p_waChannelId p) (p_returnAll p) (p_limit p)
    else ret (VObj [])
  else ret (VObj []).

(** [this.continueOnFail()] *)
Variable continueOnFail : bool.

(** [(error as Error).message] *)
Variable exn_message : exn -> value.

(** The parameters of each input item. *)
Variable params : nat -> NodeParameters.

(** The [for] loop of [execute] over the item indices still to do. *)
Fixpoint executeLoop (resource operation : string) (indices : list nat)
    (returnData : list value) : M S (list value) :=
  match indices with
  | [] => ret returnData
  | i :: rest =>
      returnData <-
        try_catch
          (responseData <- executeItem resource operation (params i) ;;
           ret (pushResponse returnData responseData))
          (fun error =>
             if continueOnFail then
               ret (returnData ++
                    [VObj [("json",
                            VObj [("error", exn_message error)])]])%list
             else throw error) ;;
      executeLoop resource operation rest returnData
  end.

(** [execute], for [items] input items. *)
Definition execute (resource operation : string) (items : nat)
  : M S (list (list value)) :=
  returnData <- executeLoop resource operation (seq 0 items) [] ;;
  ret [returnData].

End Operations.

End SendSevenExecute.

(* ================================================================== *)
(** ** SendSeven.node.ts: the option loaders *)
(* ================================================================== *)

Module SendSevenLoadOptions.

Import GenericFunctions SendSevenExecute.

(** [a.join(sep)] *)
Definition array_join (sep : string) (l : list value) : string :=
  String.concat sep
    (map (fun x => match x with
                   | VUndefined | VNull => EmptyString
                   | _ => String_ x
                   end) l).

(** The key comparison of a [Map] (SameValueZero); two objects or arrays
    read from a response are never the same object. *)
Definition same_value_zero (a b : value) : bool :=
  match a, b with
  | VUndefined, VUndefined => true
  | VNull, VNull => true
  | VBool x, VBool y => Bool.eqb x y
  | VNum x, VNum y => (x =? y)%Z
  | VStr x, VStr y => x =? y
  | _, _ => false
  end.

(** [l.filter(p)] for a predicate that may throw. *)
Fixpoint filter_outcome {A} (p : A -> outcome bool) (l : list A)
  : outcome (list A) :=
  match l with
  | [] => Ok []
  | x :: rest =>
      obind (p x) (fun keep =>
      obind (filter_outcome p rest) (fun kept =>
      Ok (if keep then x :: kept else kept)))
  end.

(** The elements of [v] when it is an array; [filter] and [map] are not
    there on anything else. *)
Definition asArray (v : value) : outcome (list value) :=
  match v with
  | VArr l => Ok l
  | _ => Throw TypeError
  end.

(** The option of a channel in [getChannels]. *)
Definition channelOption (channel : value) : outcome value :=
  obind (get channel "name") (fun name_ =>
  Ok (VObj [ ("name",
               js_or name_
                 (VStr (String_ (member channel "channel_type") ++ " - "
                        ++ String_ (js_or (member channel "identifier")
                                          (member channel "id")))));
             ("value", member channel "id") ])).

(** The option of a channel in [getWhatsAppChannels]. *)
Definition whatsAppChannelOption (channel : value) : outcome value :=
  obind (get channel "name") (fun name_ =>
  Ok (VObj [ ("name",
               js_or name_
                 (VStr ("WhatsApp - "
                        ++ String_ (js_or (member channel "identifier")
                                          (member channel "id")))));
             ("value", member channel "id") ])).

(** [(c) => c.channel_type === 'whatsapp'] *)
Definition isWhatsApp (c : value) : outcome bool :=
  obind (get c "channel_type") (fun t => Ok (strict_eq_str t "whatsapp")).

Definition tagOption (tag : value) : outcome value :=
  obind (get tag "name") (fun name_ =>
  Ok (VObj [ ("name", name_); ("value", member tag "id") ])).

Definition userOption (user : value) : outcome value :=
  obind (get user "name") (fun name_ =>
  Ok (VObj [ ("name", VStr (String_ (js_or name_ (member user "email"))));
             ("value", member user "id") ])).

(** [(t) => t.status === 'APPROVED'] *)
Definition isApproved (t : value) : outcome bool :=
  obind (get t "status") (fun s => Ok (strict_eq_str s "APPROVED")).

(** [templateMap] after one more approved template: its language joins the
    entry of its name, or opens a new entry at the end. *)
Fixpoint templateMapAdd (templateMap : list (value * list value))
    (name language : value) : list (value * list value) :=
  match templateMap with
  | [] => [(name, [language])]
  | (k, languages) :: rest =>
      if same_value_zero k name then (k, (languages ++ [language])%list) :: rest
      else (k, languages) :: templateMapAdd rest name language
  end.

(** The [forEach] that fills [templateMap]. *)
Definition groupTemplates (approved : list value)
  : list (value * list value) :=
  fold_left
    (fun templateMap t =>
       templateMapAdd templateMap (member t "name") (member t "language"))
    approved [].

Definition templateOption (entry : value * list value) : value :=
  let (name, languages) := entry in
  VObj [ ("name",
           VStr (String_ name ++ " (" ++ array_join ", " languages ++ ")"));
         ("value", name) ].

(** The options [getWhatsAppTemplates] makes of the templates listed. *)
Definition templateOptions (templates : value) : outcome (list value) :=
  obind (asArray templates) (fun l =>
  obind (filter_outcome isApproved l) (fun approved =>
  Ok (map templateOption (groupTemplates approved)))).

(** [(t) => t.name === templateName && t.status === 'APPROVED'] *)
Definition isApprovedNamed (templateName : string) (t : value)
  : outcome bool :=
  obind (get t "name") (fun n =>
  Ok (strict_eq_str n templateName
      && strict_eq_str (member t "status") "APPROVED")).

Definition languageOption (t : value) : value :=
  VObj [ ("name", member t "language"); ("value", member t "language") ].

Definition english : value :=
  VObj [ ("name", VStr "English"); ("value", VStr "en") ].

(** The options [getTemplateLanguages] makes of the templates listed. *)
Definition languageOptions (templateName : string) (templates : value)
  : outcome (list value) :=
  obind (asArray templates) (fun l =>
  obind (filter_outcome (isApprovedNamed templateName) l) (fun matching =>
  let languages := map languageOption matching in
  Ok (if (0 <? Z.of_nat (length languages))%Z then languages
      else [english]))).

Section Loaders.

Context {S : Type}.
Variable this : Context S.
Variable lt_other : value -> value -> bool.
Variable fuel : nat.

Definition getChannels : M S (list value) :=
  channels <- sendSevenApiRequestAllItems this lt_other fuel "/channels" []
                "items" ;;
  lift (map_outcome channelOption channels).

Definition getWhatsAppChannels : M S (list value) :=
  channels <- sendSevenApiRequestAllItems this lt_other fuel "/channels" []
                "items" ;;
  whatsapp <- lift (filter_outcome isWhatsApp channels) ;;
  lift (map_outcome whatsAppChannelOption whatsapp).

Definition getTags : M S (list value) :=
  tags <- sendSevenApiRequestAllItems this lt_other fuel "/tags" []
            "items" ;;
  lift (map_outcome tagOption tags).

Definition getUsers : M S (list value) :=
  users <- sendSevenApiRequestAllItems this lt_other fuel "/users" []
             "items" ;;
  lift (map_outcome userOption users).

(** [getWhatsAppTemplates]; [channelId] is the current [waChannelId]. *)
Definition getWhatsAppTemplates (channelId : string) : M S (list value) :=
  response <- sendSevenApiRequest this "GET" (templatesEndpoint channelId)
                [] [] ;;
  items <- lift (get response "items") ;;
  let templates := js_or items response in
  lift (templateOptions templates).

(** [getTemplateLanguages] *)
Definition getTemplateLanguages (channelId templateName : string)
  : M S (list value) :=
  if negb (truthy (VStr templateName)) then ret [english]
  else
    response <- sendSevenApiRequest this "GET" (templatesEndpoint channelId)
                  [] [] ;;
    items <- lift (get response "items") ;;
    let templates := js_or items response in
    lift (languageOptions templateName templates).

End Loaders.

End SendSevenLoadOptions.

(* ================================================================== *)
(** ** SendSeven.node.ts: registering the webhook *)
(* ================================================================== *)

Module SendSevenHooks.

Import GenericFunctions SendSevenLoadOptions.

(** [events?.includes(event)], as a truth value. *)
Definition includesEvent (events : value) (event : string) : outcome bool :=
  match events with
  | VUndefined | VNull => Ok false
  | VArr l => Ok (existsb (fun e => same_value_zero e (VStr event)) l)
  | VStr s => Ok (match index 0 event s with Some _ => true | None => false end)
  | _ => Throw TypeError
  end.

(** The callback of [webhooks.find] in [checkExists]. *)
Definition isExisting (webhookUrl event : string) (webhook : value)
  : outcome bool :=
  obind (get webhook "url") (fun url_ =>
  let events := member webhook "subscribed_events" in
  if strict_eq_str url_ webhookUrl then includesEvent events event
  else Ok false).

(** [l.find(p)] for a predicate that may throw. *)
Fixpoint find_outcome (p : value -> outcome bool) (l : list value)
  : outcome value :=
  match l with
  | [] => Ok VUndefined
  | x :: rest =>
      obind (p x) (fun found => if found then Ok x else find_outcome p rest)
  end.

Section Hooks.

Context {S : Type}.
Variable this : Context S.

(** [webhookMethods.default.checkExists]: the result, and the node's
    static data after the call. *)
Definition checkExists (webhookUrl event : string) (webhookData : obj)
  : M S (bool * obj) :=
  try_catch
    (response <- sendSevenApiRequest this "GET" "/webhooks" [] [] ;;
     items <- lift (get response "items") ;;
     let webhooks := js_or items response in
     l <- lift (asArray webhooks) ;;
     existingWebhook <- lift (find_outcome (isExisting webhookUrl event) l) ;;
     if truthy existingWebhook then
       ret (true,
            obj_set webhookData "webhookId" (member existingWebhook "id"))
     else ret (false, webhookData))
    (fun _ => ret (false, webhookData)).

(** The body [create] posts. *)
Definition createBody (webhookUrl event workflowId : string) : obj :=
  [ ("name", VStr ("n8n Workflow " ++ workflowId ++ ": " ++ event));
    ("url", VStr webhookUrl);
    ("subscribed_events", VArr [VStr event]) ].

(** [webhookMethods.default.create] *)
Definition create (webhookUrl event workflowId : string) (webhookData : obj)
  : M S (bool * obj) :=
  let body_ := createBody webhookUrl event workflowId in
  try_catch
    (response <- sendSevenApiRequest this "POST" "/webhooks" body_ [] ;;
     let responseData := response in
     webhook_id <- lift (get responseData "webhook_id") ;;
     let webhookData :=
       obj_set webhookData "webhookId"
         (js_or webhook_id (member responseData "id")) in
     let webhookData :=
       obj_set webhookData "secretKey" (member responseData "secret_key") in
     ret (true, webhookData))
    (fun _ => ret (false, webhookData)).

End Hooks.

End SendSevenHooks.

(* ================================================================== *)
(** ** More test doubles *)
(* ================================================================== *)

Module Doubles.

Import Simulation.

(** The response of an API without a pagination envelope to a request for
    page [p]: the items of that page, none beyond the last page. *)
Definition bareResponse (pages : list (list value)) (p : Z) : value :=
  VObj [ ("items",
           VArr (if (1 <=? p)%Z then nth (Z.to_nat (p - 1)) pages []
                 else [])) ].

(** A remote API that serves [pages] without an envelope. *)
Definition bareApi (oauth : bool) (pages : list (list value))
  : Context unit :=
  {| getCredentials := fun _ s =>
       (if oauth then Resolved (VObj []) else Rejected (VObj []), s);
     httpRequestWithAuthentication := fun _ options s =>
       match requestedPage options with
       | VNum p => (Resolved (bareResponse pages p), s)
       | _ => (Resolved (bareResponse pages 1), s)
       end |}.

(** A remote API that answers its [n]-th request ([n] counted from 0) with
    [responses n]; its state counts the requests served. *)
Definition scriptedApi (oauth : bool) (responses : nat -> settled)
  : Context nat :=
  {| getCredentials := fun _ s =>
       (if oauth then Resolved (VObj []) else Rejected (VObj []), s);
     httpRequestWithAuthentication := fun _ _ s =>
       (responses s, Datatypes.S s) |}.

(** A response that announces another page. *)
Definition moreResponse (items : list value) : value :=
  VObj [ ("items", VArr items);
         ("pagination",
           VObj [ ("page", VNum 1); ("total_pages", VNum 2) ]) ].

(** More pages than the aggregator fetches. *)
Definition manyPages : list (list value) := repeat [VStr "x"] 120.

(** A script that serves one page and then fails. *)
Definition failsSecond (n : nat) : settled :=
  match n with
  | O => Resolved (moreResponse [VStr "a"; VStr "b"])
  | _ => Rejected sampleError
  end.

(** Templates: an approved one in two languages, and a rejected one. *)
Definition sampleTemplates : list value :=
  [ VObj [ ("name", VStr "order_update"); ("language", VStr "en");
           ("status", VStr "APPROVED") ];
    VObj [ ("name", VStr "welcome"); ("language", VStr "en");
           ("status", VStr "REJECTED") ];
    VObj [ ("name", VStr "order_update"); ("language", VStr "de");
           ("status", VStr "APPROVED") ] ].

(** Channels: one WhatsApp, one Telegram. *)
Definition sampleChannels : list value :=
  [ VObj [ ("id", VStr "ch_1"); ("channel_type", VStr "whatsapp");
           ("identifier", VStr "+4915100000") ];
    VObj [ ("id", VStr "ch_2"); ("channel_type", VStr "telegram");
           ("name", VStr "Support bot") ] ].

(** Webhooks as [/webhooks] lists them. *)
Definition sampleWebhooks : list value :=
  [ VObj [ ("id", VStr "wh_0"); ("url", VStr "https://other.example/hook");
           ("subscribed_events", VArr [VStr "message.received"]) ];
    VObj [ ("id", VStr "wh_1"); ("url", VStr "https://n8n.example/webhook");
           ("subscribed_events",
             VArr [VStr "contact.created"; VStr "message.received"]) ] ].

(** Parameters of an item with nothing filled in. *)
Definition emptyParameters : SendSevenExecute.NodeParameters :=
  {| SendSevenExecute.p_channelId := EmptyString;
     SendSevenExecute.p_to := EmptyString;
     SendSevenExecute.p_text := EmptyString;
     SendSevenExecute.p_email := EmptyString;
     SendSevenExecute.p_phone := EmptyString;
     SendSevenExecute.p_name := EmptyString;
     SendSevenExecute.p_additionalFields := [];
     SendSevenExecute.p_contactId := EmptyString;
     SendSevenExecute.p_tagId := EmptyString;
     SendSevenExecute.p_searchQuery := EmptyString;
     SendSevenExecute.p_returnAll := false;
     SendSevenExecute.p_limit := 50;
     SendSevenExecute.p_conversationId := EmptyString;
     SendSevenExecute.p_userId := EmptyString;
     SendSevenExecute.p_filters := [];
     SendSevenExecute.p_waChannelId := EmptyString;
     SendSevenExecute.p_recipientPhone := EmptyString;
     SendSevenExecute.p_templateName := EmptyString;
     SendSevenExecute.p_templateLanguage := "en";
     SendSevenExecute.p_templateVariables := [] |}.

(** What [(error as Error).message] reads, for the examples. *)
Definition message_of (e : exn) : value :=
  match e with
  | NodeApiError _ m => VStr m
  | NodeOperationError m => VStr m
  | Error m => VStr m
  | TypeError => VStr "TypeError"
  | SyntaxError => VStr "SyntaxError"
  end.

End Doubles.

(* ================================================================== *)
(** ** What a computation throws and logs *)
(* ================================================================== *)

Module Laws.

(** The exceptions the code raises once a request has been made: the
    [NodeApiError] of a rejection, or a [TypeError] on an unexpected
    response. *)
Definition afterRequest (e : exn) : Prop :=
  match e with
  | NodeApiError _ _ | TypeError => True
  | _ => False
  end.

(** Every exception of [c] satisfies [P]. *)
Definition throws_only {S A} (P : exn -> Prop) (c : M S A) : Prop :=
  forall w e, fst (c w) = Throw e -> P e.

(** An exception of [c] that is not one of [afterRequest] leaves the world
    as it was: no request has been made. *)
Definition quiet_failures {S A} (c : M S A) : Prop :=
  forall w e, fst (c w) = Throw e -> ~ afterRequest e -> snd (c w) = w.

(** [c] does not run out of fuel. *)
Definition fueled {S A} (c : M S A) : Prop :=
  forall w, fst (c w) <> OutOfFuel.

(** [c] only appends to the log of requests, and what it appends
    satisfies [P]. *)
Definition logs {S A} (P : string * IHttpRequestOptions -> Prop)
    (c : M S A) : Prop :=
  forall w, exists added,
    requests (snd (c w)) = (requests w ++ added)%list /\ Forall P added.

(** The resources that the operations of [execute] address. *)
Definition resources : list string :=
  [ "/messages"; "/contacts"; "/conversations"; "/whatsapp-templates" ].

(** The endpoint starts with one of the [resources]. *)
Definition atResource (endpoint : string) : bool :=
  existsb (fun root => prefix root endpoint) resources.

(** A request to the SendSeven API: authenticated with one of the two
    credential types, sent as JSON, and its URL the text of the base URL
    followed by an endpoint that starts with one of the [resources].  This
    speaks of the URL as text: the ids that the operations insert into an
    endpoint are not encoded, and nothing is said of the path the URL
    resolves to. *)
Definition toApi (r : string * IHttpRequestOptions) : Prop :=
  (fst r = "sendSevenOAuth2Api" \/ fst r = "sendSevenApi")
  /\ (exists endpoint,
        url (snd r) = GenericFunctions.API_BASE_URL ++ endpoint
        /\ atResource endpoint = true)
  /\ json (snd r) = true.

(** [r] answers the request for page [p] of [pages]: a response (an
    object, possibly with more keys) whose [items] are those of the page
    (none when the API holds no page) and whose envelope is
    [{page: p, total_pages: N}]. *)
Definition pageAnswer (pages : list (list value)) (p : Z) (r : value)
  : Prop :=
  nullish r = false
  /\ member r "items" = VArr (nth (Z.to_nat (p - 1)) pages [])
  /\ truthy (member r "pagination") = true
  /\ member (member r "pagination") "page" = VNum p
  /\ member (member r "pagination") "total_pages"
     = VNum (Z.of_nat (length pages)).

(** The remote API behind [this] returns the [N] pages of [pages]: in
    every state and for either credential type it answers a request for a
    page from 1 to [N] (page 1 also when [N] is 0) with that page.  What it
    does when asked for a later page, or without a page, is left open. *)
Definition servesPages {S} (this : Context S) (pages : list (list value))
  : Prop :=
  forall cred options s p,
    Simulation.requestedPage options = VNum p ->
    (1 <= p <= Z.max 1 (Z.of_nat (length pages)))%Z ->
    exists r s',
      httpRequestWithAuthentication this cred options s = (Resolved r, s')
      /\ pageAnswer pages p r.

(** The (resource, operation) pairs [execute] has a branch for. *)
Definition supported : list (string * string) :=
  [ ("message", "send");
    ("contact", "create"); ("contact", "update"); ("contact", "get");
    ("contact", "search"); ("contact", "addTag");
    ("conversation", "get"); ("conversation", "search");
    ("conversation", "close"); ("conversation", "assign");
    ("whatsappTemplate", "send"); ("whatsappTemplate", "list") ].

(** A listed webhook is registered for [webhookUrl] and [event]: its [url]
    is that URL and its [subscribed_events] array holds the event. *)
Definition subscribes (webhookUrl event : string) (hook : value) : bool :=
  strict_eq_str (member hook "url") webhookUrl
  && match member hook "subscribed_events" with
     | VArr l => existsb (fun e => strict_eq_str e event) l
     | _ => false
     end.

(** A listed webhook as the API documents it: an object whose
    [subscribed_events], when there, is an array. *)
Definition listedWebhook (hook : value) : Prop :=
  nullish hook = false
  /\ (nullish (member hook "subscribed_events") = true
      \/ exists l, member hook "subscribed_events" = VArr l).

(** A WhatsApp channel. *)
Definition whatsapp (channel : value) : bool :=
  strict_eq_str (member channel "channel_type") "whatsapp".

(** An approved template. *)
Definition approved (template : value) : bool :=
  strict_eq_str (member template "status") "APPROVED".

(** A template as the API documents it: an object named by a string. *)
Definition namedTemplate (template : value) : Prop :=
  nullish template = false /\ exists s, member template "name" = VStr s.

(** [option.value] *)
Definition optionValue (option : value) : value := member option "value".

End Laws.

(* ================================================================== *)
(** ** Vocabulary of the properties *)
(* ================================================================== *)

Module Reading.

(** A field is present (non-empty) when the code's test [if (x)] accepts
    it; for a string that is being different from the empty string. *)
Definition present (v : value) : Prop := truthy v = true.

(** The message the specification asks for: the [detail] field of the
    response body when present, otherwise its [message] field when present,
    otherwise the raw error's [message], otherwise the generic string. *)
Definition bestEffortMessage (error : value) : string :=
  let responseBody := member (member error "response") "body" in
  if truthy (member responseBody "detail") then
    String_ (member responseBody "detail")
  else if truthy (member responseBody "message") then
    String_ (member responseBody "message")
  else if truthy (member error "message") then
    String_ (member error "message")
  else "An unknown error occurred".

(** The status a caught exception reports: its [httpCode], or else its
    [statusCode]. *)
Definition reportedStatus (exn_member : exn -> string -> value) (err : exn)
  : value :=
  js_or (exn_member err "httpCode") (exn_member err "statusCode").

(** The error class exposes no number under [httpCode] or [statusCode]:
    the case of a class that declares [httpCode] as [string | null] and
    has no [statusCode]. *)
Definition statusAsText (exn_member : exn -> string -> value) : Prop :=
  forall err n,
    exn_member err "httpCode" <> VNum n
    /\ exn_member err "statusCode" <> VNum n.

(** The keys a contact-create body can hold, each with the input value it
    is filled from. *)
Definition contactFields (email phone name : string)
    (additionalFields : obj) : list (string * value) :=
  [ ("name", VStr name);
    ("email", VStr email);
    ("phone", VStr phone);
    ("first_name", field additionalFields "firstName");
    ("last_name", field additionalFields "lastName");
    ("company", field additionalFields "company");
    ("notes", field additionalFields "notes");
    ("custom_fields", field additionalFields "customFields") ].

(** A contact-create body [payload] is the plain fields, with
    [custom_fields] set to [custom] when [customFields] is present. *)
Definition built (email phone name : string) (additionalFields : obj)
    (payload : obj) (custom : value) : Prop :=
  (present (field additionalFields "customFields")
   /\ payload =
        obj_set (SendSeven.plainFields email phone name additionalFields)
          "custom_fields" custom)
  \/ (truthy (field additionalFields "customFields") = false
      /\ payload = SendSeven.plainFields email phone name additionalFields).

End Reading.

(* ================================================================== *)
(** ** Facts about values and objects *)
(* ================================================================== *)

Lemma truthy_str (s : string) : truthy (VStr s) = true <-> s <> EmptyString.
Proof.
  simpl. destruct (String.eqb_spec s EmptyString); simpl; split; congruence.
Qed.

Lemma reads_truthy_own (o : obj) (k : string) :
  has_key o k = true -> reads_truthy o k = truthy (field o k).
Proof. unfold reads_truthy. now intros ->. Qed.

Lemma get_member (v : value) (k : string) :
  nullish v = false -> get v k = Ok (member v k).
Proof. intros H. unfold get. now rewrite H. Qed.

Lemma strict_eq_str_spec (v : value) (s : string) :
  strict_eq_str v s = true <-> v = VStr s.
Proof.
  destruct v; simpl; try (split; [discriminate | congruence]).
  destruct (String.eqb_spec s0 s); split; congruence.
Qed.

Lemma strict_eq_num_spec (v : value) (n : Z) :
  strict_eq_num v n = true <-> v = VNum n.
Proof.
  destruct v; simpl; try (split; [discriminate | congruence]).
  destruct (Z.eqb_spec n0 n); split; congruence.
Qed.

Lemma field_obj_set (o : obj) (k k' : string) (v : value) :
  field (obj_set o k v) k' = if k =? k' then v else field o k'.
Proof.
  induction o as [|[k0 v0] rest IH]; simpl.
  - reflexivity.
  - destruct (String.eqb_spec k0 k) as [->|Hk]; simpl.
    + destruct (String.eqb_spec k k'); reflexivity.
    + rewrite IH. destruct (String.eqb_spec k0 k') as [->|Hk'].
      * destruct (String.eqb_spec k k'); [congruence | reflexivity].
      * reflexivity.
Qed.

Lemma has_key_obj_set (o : obj) (k k' : string) (v : value) :
  has_key (obj_set o k v) k' = (k =? k') || has_key o k'.
Proof.
  unfold has_key.
  induction o as [|[k0 v0] rest IH]; simpl.
  - reflexivity.
  - destruct (String.eqb_spec k0 k) as [->|Hk]; simpl.
    + destruct (k =? k'); reflexivity.
    + rewrite IH. destruct (k0 =? k'), (k =? k'); reflexivity.
Qed.

Lemma keys_length_obj_set (o : obj) (k : string) (v : value) :
  (keys_length (obj_set o k v) =? 0)%nat = false.
Proof.
  unfold keys_length. destruct o as [|[k0 v0] rest]; simpl.
  - reflexivity.
  - destruct (k0 =? k); reflexivity.
Qed.

(* ================================================================== *)
(** ** Facts about the request helper *)
(* ================================================================== *)

Section RequestFacts.

Import GenericFunctions.

Context {S : Type}.
Variable this : Context S.

Lemma getErrorMessage_fuel (error : value) :
  getErrorMessage error <> OutOfFuel.
Proof.
  unfold getErrorMessage, get.
  destruct (nullish error); [discriminate|].
  destruct (truthy (member error "response")).
  - destruct (truthy (member (member error "response") "body")).
    + destruct (truthy (member (member (member error "response") "body")
                          "detail")); [discriminate|].
      destruct (truthy (member (member (member error "response") "body")
                          "message")); [discriminate|].
      destruct (truthy (member error "message")); discriminate.
    + destruct (truthy (member error "message")); discriminate.
  - destruct (truthy (member error "message")); discriminate.
Qed.

(** One call of the helper reads the OAuth2 credentials, issues one HTTP
    request and returns its response or throws a [NodeApiError]. *)
Lemma sendSevenApiRequest_run (m e : string) (b q : obj) (w : World S) :
  sendSevenApiRequest this m e b q w =
    let (c, s1) := getCredentials this "sendSevenOAuth2Api" (remote w) in
    let cred := match c with
                | Resolved _ => "sendSevenOAuth2Api"
                | Rejected _ => "sendSevenApi"
                end in
    let (r, s2) := httpRequestWithAuthentication this cred
                     (requestOptions m e b q) s1 in
    let w2 := Build_World s2
                (requests w ++ [(cred, requestOptions m e b q)])%list in
    match r with
    | Resolved response => (Ok response, w2)
    | Rejected error =>
        (match getErrorMessage error with
         | Ok message => Throw (NodeApiError error message)
         | Throw x => Throw x
         | OutOfFuel => OutOfFuel
         end, w2)
    end.
Proof.
  unfold sendSevenApiRequest, getCredentialType, awaitGetCredentials,
    awaitHttpRequest, bind, ret, lift, throw.
  destruct (getCredentials this "sendSevenOAuth2Api" (remote w)) as [c s1].
  destruct c; simpl;
    match goal with
    | |- context [httpRequestWithAuthentication this ?c ?o ?s] =>
        destruct (httpRequestWithAuthentication this c o s) as [r s2]
    end; destruct r as [response|err]; simpl; try reflexivity;
    destruct (getErrorMessage err); reflexivity.
Qed.

Lemma sendSevenApiRequest_fuel (m e : string) (b q : obj) (w : World S) :
  fst (sendSevenApiRequest this m e b q w) <> OutOfFuel.
Proof.
  rewrite sendSevenApiRequest_run.
  destruct (getCredentials this "sendSevenOAuth2Api" (remote w)) as [c s1].
  cbv zeta.
  match goal with
  | |- context [httpRequestWithAuthentication this ?c ?o ?s] =>
      destruct (httpRequestWithAuthentication this c o s) as [r s2]
  end.
  destruct r as [response|err]; simpl; [discriminate|].
  pose proof (getErrorMessage_fuel err).
  destruct (getErrorMessage err); congruence.
Qed.

Lemma sendSevenApiRequest_log (m e : string) (b q : obj) (w : World S) :
  exists cred,
    requests (snd (sendSevenApiRequest this m e b q w)) =
      (requests w ++ [(cred, requestOptions m e b q)])%list.
Proof.
  rewrite sendSevenApiRequest_run.
  destruct (getCredentials this "sendSevenOAuth2Api" (remote w)) as [c s1].
  cbv zeta.
  match goal with
  | |- context [httpRequestWithAuthentication this ?c ?o ?s] =>
      exists c;
      destruct (httpRequestWithAuthentication this c o s) as [r s2]
  end.
  destruct r; reflexivity.
Qed.

End RequestFacts.

(* ================================================================== *)
(** ** Credential fallback and error reporting *)
(* ================================================================== *)

Section CredentialsAndErrors.

Import GenericFunctions Reading.

Context {S : Type}.
Variable this : Context S.

Lemma member_falsy (v : value) (k : string) :
  truthy v = false -> (k =? "length") = false -> member v k = VUndefined.
Proof.
  intros Hv Hk. destruct v; simpl in *; try reflexivity; try discriminate.
  rewrite Hk.
  destruct (String.eqb_spec s EmptyString) as [->|]; [|discriminate].
  reflexivity.
Qed.

Lemma getErrorMessage_spec (error : value) :
  nullish error = false ->
  getErrorMessage error = Ok (bestEffortMessage error).
Proof.
  intros Hn. unfold getErrorMessage, bestEffortMessage.
  rewrite (get_member _ _ Hn). cbv zeta.
  destruct (truthy (member error "response")) eqn:Hr.
  - destruct (truthy (member (member error "response") "body")) eqn:Hb.
    + destruct (truthy (member (member (member error "response") "body")
                          "detail")); [reflexivity|].
      destruct (truthy (member (member (member error "response") "body")
                          "message")); [reflexivity|].
      destruct (truthy (member error "message")); reflexivity.
    + rewrite !(member_falsy _ _ Hb) by reflexivity. simpl.
      destruct (truthy (member error "message")); reflexivity.
  - rewrite (member_falsy _ "body" Hr) by reflexivity. simpl.
    destruct (truthy (member error "message")); reflexivity.
Qed.

(** C3. When reading the OAuth2 credentials fails (the host rejects
    [getCredentials('sendSevenOAuth2Api')], with whatever error),
    [getCredentialType] returns ['sendSevenApi'] and throws nothing, and
    [sendSevenApiRequest] issues its one HTTP request with that
    credential type. *)
Theorem getCredentialType_falls_back
    (m e : string) (b q : obj) (w : World S) (reason : value) (s1 : S) :
  getCredentials this "sendSevenOAuth2Api" (remote w)
    = (Rejected reason, s1) ->
  getCredentialType this w = (Ok "sendSevenApi", Build_World s1 (requests w))
  /\ requests (snd (sendSevenApiRequest this m e b q w)) =
       (requests w ++ [("sendSevenApi", requestOptions m e b q)])%list.
Proof.
  intros Hc. split.
  - unfold getCredentialType, awaitGetCredentials, bind, ret.
    now rewrite Hc.
  - rewrite sendSevenApiRequest_run, Hc. cbv zeta.
    destruct (httpRequestWithAuthentication this "sendSevenApi"
                (requestOptions m e b q) s1) as [r s2].
    destruct r; reflexivity.
Qed.

(** C8. When the HTTP request made by [sendSevenApiRequest] is rejected
    with an error (an object, as thrown errors are), the helper throws
    one [NodeApiError] wrapping that error, whose message is the response
    body's [detail] when present, otherwise the body's [message] when
    present, otherwise the error's own [message], otherwise
    ['An unknown error occurred']. *)
Theorem sendSevenApiRequest_rethrows
    (m e : string) (b q : obj) (w w1 : World S) (cred : string)
    (error : value) (s2 : S) :
  getCredentialType this w = (Ok cred, w1) ->
  httpRequestWithAuthentication this cred (requestOptions m e b q)
    (remote w1) = (Rejected error, s2) ->
  nullish error = false ->
  sendSevenApiRequest this m e b q w =
    (Throw (NodeApiError error (bestEffortMessage error)),
     Build_World s2
       (requests w1 ++ [(cred, requestOptions m e b q)])%list).
Proof.
  intros Hc Hh Hn.
  unfold sendSevenApiRequest, bind. rewrite Hc.
  unfold awaitHttpRequest. rewrite Hh.
  unfold lift, throw. now rewrite (getErrorMessage_spec _ Hn).
Qed.

End CredentialsAndErrors.

(** Witness for C3: no OAuth2 credentials, a GET of [/webhooks]. *)
Lemma getCredentialType_falls_back_witness :
  GenericFunctions.getCredentialType (Simulation.constantApi false VNull)
    (Simulation.startWorld tt)
    = (Ok "sendSevenApi", Build_World tt [])
  /\ requests
       (snd (GenericFunctions.sendSevenApiRequest
               (Simulation.constantApi false VNull) "GET" "/webhooks" [] []
               (Simulation.startWorld tt))) =
       [("sendSevenApi",
         GenericFunctions.requestOptions "GET" "/webhooks" [] [])].
Proof.
  apply (getCredentialType_falls_back (Simulation.constantApi false VNull)
           "GET" "/webhooks" [] [] (Simulation.startWorld tt) (VObj []) tt).
  reflexivity.
Defined.

(** Witness for C8: the API answers with a body that carries both a
    [detail] and a [message]. *)
Lemma sendSevenApiRequest_rethrows_witness :
  GenericFunctions.sendSevenApiRequest
    (Simulation.failingApi true Simulation.sampleError)
    "POST" "/contacts" [("phone", VStr "12")] [] (Simulation.startWorld tt)
  = (Throw (NodeApiError Simulation.sampleError "Phone number is invalid"),
     Build_World tt
       [("sendSevenOAuth2Api",
         GenericFunctions.requestOptions "POST" "/contacts"
           [("phone", VStr "12")] [])]).
Proof.
  apply (sendSevenApiRequest_rethrows
           (Simulation.failingApi true Simulation.sampleError)
           "POST" "/contacts" [("phone", VStr "12")] []
           (Simulation.startWorld tt) (Simulation.startWorld tt)
           "sendSevenOAuth2Api" Simulation.sampleError tt);
    reflexivity.
Defined.

(* ================================================================== *)
(** ** Pagination *)
(* ================================================================== *)

Section Pagination.

Import GenericFunctions.

Context {S : Type}.
Variable this : Context S.
Variable lt_other : value -> value -> bool.
Variables (endpoint : string) (query : obj) (itemsKey : string).

(** One iteration of the loop. *)
Lemma allItemsLoop_step (fuel : nat) (page : Z) (acc : list value)
    (w : World S) :
  allItemsLoop this lt_other (Datatypes.S fuel) endpoint query itemsKey
    page acc w =
  match sendSevenApiRequest this "GET" endpoint [] (pageQuery query page) w with
  | (Ok response, w1) =>
      match get response itemsKey with
      | Ok found =>
          match spread (js_or found (VArr [])) with
          | Ok pushed =>
              if (100 <? page + 1)%Z then (Ok (acc ++ pushed)%list, w1)
              else if hasMoreAfter lt_other response (js_or found (VArr [])) then
                allItemsLoop this lt_other fuel endpoint query itemsKey
                  (page + 1)%Z (acc ++ pushed)%list w1
              else (Ok (acc ++ pushed)%list, w1)
          | Throw x => (Throw x, w1)
          | OutOfFuel => (OutOfFuel, w1)
          end
      | Throw x => (Throw x, w1)
      | OutOfFuel => (OutOfFuel, w1)
      end
  | (Throw x, w1) => (Throw x, w1)
  | (OutOfFuel, w1) => (OutOfFuel, w1)
  end.
Proof.
  cbn [allItemsLoop]. unfold bind, lift, ret.
  destruct (sendSevenApiRequest this "GET" endpoint []
              (pageQuery query page) w) as [[response| |] w1];
    try reflexivity.
  destruct (get response itemsKey) as [found| |]; try reflexivity.
  destruct (spread (js_or found (VArr []))); try reflexivity.
  destruct (100 <? page + 1)%Z; [reflexivity|].
  match goal with |- context [if ?c then allItemsLoop _ _ _ _ _ _ _ _ else _]
    => destruct c; reflexivity end.
Qed.

Lemma get_fuel (v : value) (k : string) : get v k <> OutOfFuel.
Proof. unfold get. destruct (nullish v); discriminate. Qed.

Lemma spread_fuel (v : value) : spread v <> OutOfFuel.
Proof. destruct v; discriminate. Qed.

(** From page [page] on, the loop needs at most [101 - page] iterations
    and issues at most that many requests. *)
Lemma allItemsLoop_bounded (fuel : nat) :
  forall (page : Z) (acc : list value) (w : World S),
    (1 <= page <= 100)%Z ->
    (Z.to_nat (101 - page) <= fuel)%nat ->
    let run := allItemsLoop this lt_other fuel endpoint query itemsKey
                 page acc w in
    fst run <> OutOfFuel
    /\ (length (requests (snd run))
        <= length (requests w) + Z.to_nat (101 - page))%nat.
Proof.
  induction fuel as [|fuel IH]; intros page acc w Hp Hf; [lia|].
  cbv zeta. rewrite allItemsLoop_step.
  pose proof (sendSevenApiRequest_fuel this "GET" endpoint []
                (pageQuery query page) w) as Hfu.
  destruct (sendSevenApiRequest_log this "GET" endpoint []
              (pageQuery query page) w) as [cred Hlog].
  destruct (sendSevenApiRequest this "GET" endpoint [] (pageQuery query page) w)
    as [r w1].
  cbn [fst snd] in Hfu, Hlog.
  assert (Hlen : length (requests w1) = Datatypes.S (length (requests w))).
  { rewrite Hlog, length_app. simpl. lia. }
  assert (Hone : (length (requests w1)
                  <= length (requests w) + Z.to_nat (101 - page))%nat)
    by lia.
  destruct r as [response| |]; cbn [fst snd]; try (split; [discriminate|exact Hone]);
    [|congruence].
  pose proof (get_fuel response itemsKey).
  destruct (get response itemsKey) as [found| |]; cbn [fst snd];
    try (split; [discriminate|exact Hone]); [|congruence].
  pose proof (spread_fuel (js_or found (VArr []))).
  destruct (spread (js_or found (VArr []))) as [pushed| |]; cbn [fst snd];
    try (split; [discriminate|exact Hone]); [|congruence].
  destruct (Z.ltb_spec 100 (page + 1)); cbn [fst snd];
    [split; [discriminate|exact Hone]|].
  destruct (hasMoreAfter lt_other response (js_or found (VArr []))); cbn [fst snd];
    [|split; [discriminate|exact Hone]].
  destruct (IH (page + 1)%Z (acc ++ pushed)%list w1) as [Hrun Hreq];
    [lia|lia|].
  split; [exact Hrun|]. cbv zeta in Hreq. lia.
Qed.

(** Fuel beyond [101 - page] changes nothing. *)
Lemma allItemsLoop_enough (fuel1 : nat) :
  forall (fuel2 : nat) (page : Z) (acc : list value) (w : World S),
    (1 <= page <= 100)%Z ->
    (Z.to_nat (101 - page) <= fuel1)%nat ->
    (Z.to_nat (101 - page) <= fuel2)%nat ->
    allItemsLoop this lt_other fuel1 endpoint query itemsKey page acc w =
    allItemsLoop this lt_other fuel2 endpoint query itemsKey page acc w.
Proof.
  induction fuel1 as [|fuel1 IH]; intros fuel2 page acc w Hp H1 H2; [lia|].
  destruct fuel2 as [|fuel2]; [lia|].
  rewrite !allItemsLoop_step.
  destruct (sendSevenApiRequest this "GET" endpoint [] (pageQuery query page) w)
    as [[response| |] w1]; try reflexivity.
  destruct (get response itemsKey) as [found| |]; try reflexivity.
  destruct (spread (js_or found (VArr []))) as [pushed| |];
    try reflexivity.
  destruct (Z.ltb_spec 100 (page + 1)); [reflexivity|].
  destruct (hasMoreAfter lt_other response (js_or found (VArr []))); [|reflexivity].
  apply IH; lia.
Qed.

(** C2. Whatever the host and the remote API do (any responses, with or
    without a pagination envelope, consistent or not, or rejections),
    [sendSevenApiRequestAllItems] needs no more than 100 iterations: with
    any fuel of at least 100 it ends with a result or an exception, never
    out of fuel, gives what it gives with fuel 100, and adds at most 100
    requests to the log. *)
Theorem sendSevenApiRequestAllItems_bounded (fuel : nat) (w : World S) :
  (100 <= fuel)%nat ->
  let run := sendSevenApiRequestAllItems this lt_other fuel endpoint query
               itemsKey w in
  fst run <> OutOfFuel
  /\ (length (requests (snd run)) <= length (requests w) + 100)%nat
  /\ run = sendSevenApiRequestAllItems this lt_other 100 endpoint query
             itemsKey w.
Proof.
  intros Hf. cbv zeta. unfold sendSevenApiRequestAllItems.
  destruct (allItemsLoop_bounded fuel 1%Z [] w) as [H1 H2];
    [lia|simpl; lia|].
  repeat split.
  - exact H1.
  - cbv zeta in H2. simpl in H2. exact H2.
  - apply allItemsLoop_enough; simpl; lia.
Qed.

End Pagination.

(** Witness for C2: an API that always announces another page is asked for
    exactly the 100 pages the bound allows. *)
Lemma sendSevenApiRequestAllItems_bounded_witness :
  (100 <= 100)%nat
  /\ let run := GenericFunctions.sendSevenApiRequestAllItems
                  Simulation.endlessApi Simulation.lt_never 100
                  "/contacts" [] "items" (Simulation.startWorld 0%nat) in
     fst run <> OutOfFuel
     /\ (length (requests (snd run))
         <= length (requests (Simulation.startWorld 0%nat)) + 100)%nat
     /\ run = GenericFunctions.sendSevenApiRequestAllItems
                Simulation.endlessApi Simulation.lt_never 100
                "/contacts" [] "items" (Simulation.startWorld 0%nat).
Proof.
  split; [lia|].
  apply (sendSevenApiRequestAllItems_bounded Simulation.endlessApi
           Simulation.lt_never "/contacts" [] "items" 100
           (Simulation.startWorld 0%nat)).
  lia.
Defined.

Section PagedApi.

Import GenericFunctions Simulation.

Variable lt_other : value -> value -> bool.
Variables (endpoint : string) (query : obj).
Variable oauth : bool.
Variable pages : list (list value).

Lemma pageResponse_at (k : nat) :
  pageResponse pages (Z.of_nat k + 1) =
    VObj [ ("items", VArr (nth k pages []));
           ("pagination",
             VObj [ ("page", VNum (Z.of_nat k + 1));
                    ("total_pages", VNum (Z.of_nat (length pages))) ]) ].
Proof.
  unfold pageResponse.
  destruct (Z.leb_spec 1 (Z.of_nat k + 1)); [|lia].
  replace (Z.to_nat (Z.of_nat k + 1 - 1)) with k by lia.
  reflexivity.
Qed.

Lemma requestedPage_pageQuery (p : Z) :
  requestedPage (requestOptions "GET" endpoint [] (pageQuery query p))
    = VNum p.
Proof.
  unfold requestOptions, pageQuery.
  rewrite keys_length_obj_set. cbn [String.eqb Ascii.eqb Bool.eqb orb].
  unfold requestedPage. cbn [qs].
  rewrite !field_obj_set. reflexivity.
Qed.

(** The simulated API answers the request for page [k + 1]. *)
Lemma pagedApi_request (k : nat) (w : World unit) :
  exists w1,
    sendSevenApiRequest (pagedApi oauth pages) "GET" endpoint []
      (pageQuery query (Z.of_nat k + 1)) w
    = (Ok (pageResponse pages (Z.of_nat k + 1)), w1).
Proof.
  rewrite sendSevenApiRequest_run.
  unfold pagedApi at 1. cbn [getCredentials]. cbv zeta.
  unfold pagedApi at 1. cbn [httpRequestWithAuthentication].
  rewrite requestedPage_pageQuery. eexists. reflexivity.
Qed.

Lemma skipn_cons_nth (l : list (list value)) (k : nat) :
  (k < length l)%nat ->
  skipn k l = nth k l [] :: skipn (Datatypes.S k) l.
Proof.
  revert k. induction l as [|x rest IH]; intros k Hk.
  - simpl in Hk. lia.
  - destruct k as [|k]; [reflexivity|].
    simpl in Hk. apply (IH k). lia.
Qed.

Lemma length_concat_full (n : nat) (l : list (list value)) :
  Forall (fun page => length page = n) l ->
  length (concat l) = (length l * n)%nat.
Proof.
  induction 1 as [|x rest Hx _ IH]; simpl; [reflexivity|].
  rewrite length_app, IH, Hx. reflexivity.
Qed.

End PagedApi.

Section EveryPagedApi.

Import GenericFunctions Simulation Laws.

Context {S : Type}.
Variable this : Context S.
Variable lt_other : value -> value -> bool.
Variables (endpoint : string) (query : obj).
Variable pages : list (list value).
Hypothesis Hserves : servesPages this pages.

(** The request for page [p], when the API holds that page. *)
Lemma served_request (p : Z) (w : World S) :
  (1 <= p <= Z.max 1 (Z.of_nat (length pages)))%Z ->
  exists r w1,
    sendSevenApiRequest this "GET" endpoint [] (pageQuery query p) w
      = (Ok r, w1)
    /\ pageAnswer pages p r
    /\ length (requests w1) = Datatypes.S (length (requests w)).
Proof.
  intros Hp. rewrite sendSevenApiRequest_run.
  destruct (getCredentials this "sendSevenOAuth2Api" (remote w)) as [c s1].
  cbv zeta.
  match goal with
  | |- context [httpRequestWithAuthentication this ?c ?o ?s] =>
      destruct (Hserves c o s p (requestedPage_pageQuery endpoint query p)
                  Hp) as (r & s' & Hr & Ha);
      rewrite Hr
  end.
  exists r. eexists. split; [reflexivity|]. split; [exact Ha|].
  cbn [requests]. rewrite length_app. cbn [length]. lia.
Qed.

(** From page [k + 1] on, the loop fetches the pages that remain and
    stops after the last one. *)
Lemma allItemsLoop_served (fuel : nat) :
  forall (k : nat) (acc : list value) (w : World S),
    (k < Nat.max 1 (length pages) <= 100)%nat ->
    (Nat.max 1 (length pages) - k <= fuel)%nat ->
    let run := allItemsLoop this lt_other fuel endpoint query "items"
                 (Z.of_nat k + 1) acc w in
    fst run = Ok (acc ++ concat (skipn k pages))%list
    /\ length (requests (snd run))
       = (length (requests w) + (Nat.max 1 (length pages) - k))%nat.
Proof.
  induction fuel as [|fuel IH]; intros k acc w Hk Hf; [lia|].
  cbv zeta. rewrite allItemsLoop_step.
  destruct (served_request (Z.of_nat k + 1) w) as (r & w1 & Hreq & Ha & Hlen);
    [lia|].
  destruct Ha as (Hn & Hitems & Hpg & Hpage & Htotal).
  rewrite Hreq, (get_member r "items" Hn), Hitems.
  replace (Z.to_nat (Z.of_nat k + 1 - 1)) with k by lia.
  change (js_or (VArr (nth k pages [])) (VArr []))
    with (VArr (nth k pages [])).
  cbn [spread].
  unfold hasMoreAfter. rewrite Hpg, Hpage, Htotal. cbn [js_lt].
  assert (Hrest : (Datatypes.S k < Nat.max 1 (length pages))%nat
                  \/ concat (skipn k pages) = nth k pages []).
  { destruct (Nat.lt_ge_cases (Datatypes.S k) (Nat.max 1 (length pages)))
      as [Hlt|Hge]; [now left|right].
    destruct pages as [|first rest] eqn:Hpages.
    - destruct k; reflexivity.
    - rewrite <- Hpages in *.
      assert (0 < length pages)%nat by (rewrite Hpages; simpl; lia).
      rewrite skipn_cons_nth by lia.
      replace (Datatypes.S k) with (length pages) by lia.
      rewrite skipn_all. simpl. apply app_nil_r. }
  destruct (Z.ltb_spec 100 (Z.of_nat k + 1 + 1)) as [Hcap|Hnocap].
  - cbn [fst snd]. destruct Hrest as [Hlt| ->]; [lia|].
    split; [reflexivity|lia].
  - destruct (Z.ltb_spec (Z.of_nat k + 1) (Z.of_nat (length pages)))
      as [Hmore|Hdone].
    + replace (Z.of_nat k + 1 + 1)%Z with (Z.of_nat (Datatypes.S k) + 1)%Z
        by lia.
      destruct (IH (Datatypes.S k) (acc ++ nth k pages [])%list w1)
        as [Hr Hq]; [lia|lia|].
      cbv zeta in Hr, Hq. rewrite Hr, Hq.
      rewrite (skipn_cons_nth pages k) by lia. cbn [concat fst snd].
      rewrite app_assoc. split; [reflexivity|lia].
    + cbn [fst snd]. destruct Hrest as [Hlt| ->]; [lia|].
      split; [reflexivity|lia].
Qed.

(** C1. For every remote API that returns the [N <= 100] pages of
    [pages], answering each request for a page [p] from 1 to [N] with the
    items of that page and the envelope [{page: p, total_pages: N}]
    (whatever else its responses hold, whatever its state, and whatever it
    would answer beyond page [N]), [sendSevenApiRequestAllItems] returns
    the items of all pages concatenated in page order, having made exactly
    [N] requests (one, when [N] is 0): [N * 100] items when every page
    holds 100, and [(N - 1) * 100] plus the length of the last page when
    only that one is short. *)
Theorem sendSevenApiRequestAllItems_paged (fuel : nat) (w : World S) :
  (length pages <= 100)%nat ->
  (100 <= fuel)%nat ->
  let run := sendSevenApiRequestAllItems this lt_other fuel endpoint query
               "items" w in
  fst run = Ok (concat pages)
  /\ length (requests (snd run))
     = (length (requests w) + Nat.max 1 (length pages))%nat
  /\ (Forall (fun page => length page = 100%nat) pages ->
      length (concat pages) = (length pages * 100)%nat)
  /\ (forall front last,
        pages = (front ++ [last])%list ->
        Forall (fun page => length page = 100%nat) front ->
        (length last <= 100)%nat ->
        length (concat pages)
          = ((length pages - 1) * 100 + length last)%nat
        /\ (length (concat pages) <= length pages * 100)%nat).
Proof.
  intros HN Hf. cbv zeta. unfold sendSevenApiRequestAllItems.
  change 1%Z with (Z.of_nat 0 + 1)%Z.
  destruct (allItemsLoop_served fuel 0 [] w) as [Hr Hq]; [lia|lia|].
  cbv zeta in Hr, Hq. rewrite Hr, Hq.
  split; [reflexivity|]. split; [f_equal; lia|]. split.
  - apply length_concat_full.
  - intros front last Hsplit Hfront Hlast.
    rewrite Hsplit, concat_app, !length_app, (length_concat_full 100)
      by assumption.
    simpl. rewrite app_nil_r. lia.
Qed.

End EveryPagedApi.

(** The paged test double is such an API. *)
Lemma pagedApi_serves (oauth : bool) (pages : list (list value)) :
  Laws.servesPages (Simulation.pagedApi oauth pages) pages.
Proof.
  intros cred options s p Hp Hrange.
  exists (Simulation.pageResponse pages p), s.
  unfold Simulation.pagedApi. cbn [httpRequestWithAuthentication].
  rewrite Hp. split; [reflexivity|].
  unfold Laws.pageAnswer, Simulation.pageResponse.
  destruct (Z.leb_spec 1 p); [|lia].
  repeat split; reflexivity.
Qed.

(** Witness for C1: two full pages and a short third one. *)
Lemma sendSevenApiRequestAllItems_paged_witness :
  fst (GenericFunctions.sendSevenApiRequestAllItems
         (Simulation.pagedApi true Simulation.samplePages)
         Simulation.lt_never 100 "/contacts" [("search", VStr "x")]
         "items" (Simulation.startWorld tt))
  = Ok (concat Simulation.samplePages)
  /\ length (requests
               (snd (GenericFunctions.sendSevenApiRequestAllItems
                       (Simulation.pagedApi true Simulation.samplePages)
                       Simulation.lt_never 100 "/contacts"
                       [("search", VStr "x")] "items"
                       (Simulation.startWorld tt))))
     = 3%nat.
Proof.
  destruct (sendSevenApiRequestAllItems_paged
              (Simulation.pagedApi true Simulation.samplePages)
              Simulation.lt_never "/contacts" [("search", VStr "x")]
              Simulation.samplePages
              (pagedApi_serves true Simulation.samplePages) 100
              (Simulation.startWorld tt)) as (Hitems & Hreqs & _).
  - simpl. lia.
  - lia.
  - split; [exact Hitems|exact Hreqs].
Defined.

(** The aggregator run on the sample pages: 202 items. *)
Example sendSevenApiRequestAllItems_sample :
  match fst (GenericFunctions.sendSevenApiRequestAllItems
               (Simulation.pagedApi false Simulation.samplePages)
               Simulation.lt_never 100 "/contacts" [] "items"
               (Simulation.startWorld tt)) with
  | Ok items => length items = 202%nat
  | _ => False
  end.
Proof. vm_compute. reflexivity. Qed.

(** The aggregator run on the endless API: 100 requests, 100 items. *)
Example sendSevenApiRequestAllItems_endless :
  let run := GenericFunctions.sendSevenApiRequestAllItems
               Simulation.endlessApi Simulation.lt_never 100
               "/contacts" [] "items" (Simulation.startWorld 0%nat) in
  length (requests (snd run)) = 100%nat
  /\ match fst run with
     | Ok items => length items = 100%nat
     | _ => False
     end.
Proof. vm_compute. split; reflexivity. Qed.

(* ================================================================== *)
(** ** The action node's payloads *)
(* ================================================================== *)

Section ContactCreate.

Import GenericFunctions SendSeven Reading.

Context {S : Type}.
Variable this : Context S.
Variable JSON_parse : string -> option value.

Lemma has_key_set_if (c : value) (o : obj) (k k' : string) (v : value) :
  has_key (set_if c o k v) k' = (truthy c && (k =? k')) || has_key o k'.
Proof.
  unfold set_if. destruct (truthy c); [apply has_key_obj_set|reflexivity].
Qed.

Lemma field_set_if (c : value) (o : obj) (k k' : string) (v : value) :
  field (set_if c o k v) k' =
    if truthy c && (k =? k') then v else field o k'.
Proof.
  unfold set_if. destruct (truthy c); [apply field_obj_set|reflexivity].
Qed.

Variables (email phone name : string) (additionalFields : obj).

(** What [contactCreateBody] returns once the email-or-phone test has
    passed. *)
Lemma contactCreateBody_cases :
  email <> EmptyString \/ phone <> EmptyString ->
  contactCreateBody JSON_parse email phone name additionalFields =
    if truthy (field additionalFields "customFields") then
      match field additionalFields "customFields" with
      | VStr s =>
          match JSON_parse s with
          | Some parsed =>
              Ok (obj_set (plainFields email phone name additionalFields)
                    "custom_fields" parsed)
          | None => Throw SyntaxError
          end
      | other =>
          Ok (obj_set (plainFields email phone name additionalFields)
                "custom_fields" other)
      end
    else Ok (plainFields email phone name additionalFields).
Proof.
  intros Hreq. unfold contactCreateBody.
  assert (negb (truthy (VStr email)) && negb (truthy (VStr phone)) = false)
    as ->.
  { destruct Hreq as [H|H]; apply truthy_str in H; rewrite H;
      [reflexivity|apply andb_false_r]. }
  reflexivity.
Qed.

Lemma built_has_key (payload : obj) (custom : value) (k : string)
    (src : value) :
  built email phone name additionalFields payload custom ->
  In (k, src) (contactFields email phone name additionalFields) ->
  (has_key payload k = true <-> present src).
Proof.
  unfold built, present, plainFields.
  intros [[Hc ->]|[Hc ->]] Hin; cbv zeta;
    rewrite ?has_key_obj_set, !has_key_set_if; simpl in Hin;
    repeat (destruct Hin as [Hin|Hin];
            [injection Hin as <- <-; simpl;
             rewrite ?andb_true_r, ?andb_false_r, ?orb_false_r,
               ?orb_false_l;
             intuition congruence|]);
    contradiction.
Qed.

Lemma built_field (payload : obj) (custom : value) (k : string)
    (src : value) :
  built email phone name additionalFields payload custom ->
  In (k, src) (contactFields email phone name additionalFields) ->
  present src ->
  field payload k = if k =? "custom_fields" then custom else src.
Proof.
  unfold built, present, plainFields.
  intros [[Hc ->]|[Hc ->]] Hin Hp; cbv zeta;
    rewrite ?field_obj_set, !field_set_if; simpl in Hin;
    repeat (destruct Hin as [Hin|Hin];
            [injection Hin as <- <-; simpl;
             rewrite ?andb_true_r, ?andb_false_r;
             simpl in Hp; try rewrite Hp; try reflexivity; congruence|]);
    contradiction.
Qed.

Lemma built_keys (payload : obj) (custom : value) (k : string) :
  built email phone name additionalFields payload custom ->
  has_key payload k = true ->
  In k (map fst (contactFields email phone name additionalFields)).
Proof.
  unfold built, plainFields.
  intros [[Hc ->]|[Hc ->]] H; cbv zeta in H;
    rewrite ?has_key_obj_set, !has_key_set_if in H;
    repeat (apply orb_true_iff in H; destruct H as [H|H]);
    try (apply andb_true_iff in H; destruct H as [_ H]);
    try (apply String.eqb_eq in H; subst k; simpl; tauto);
    discriminate.
Qed.

Lemma built_nonempty (payload : obj) (custom : value) :
  email <> EmptyString \/ phone <> EmptyString ->
  built email phone name additionalFields payload custom ->
  (keys_length payload =? 0)%nat = false.
Proof.
  intros Hreq Hb.
  assert (exists k, has_key payload k = true) as [k Hk].
  { destruct Hreq as [H|H]; apply truthy_str in H.
    - exists "email".
      apply (built_has_key payload custom "email" (VStr email) Hb);
        [simpl; tauto|exact H].
    - exists "phone".
      apply (built_has_key payload custom "phone" (VStr phone) Hb);
        [simpl; tauto|exact H]. }
  unfold keys_length. destruct payload; [discriminate|reflexivity].
Qed.

Lemma contactCreateBody_built :
  email <> EmptyString \/ phone <> EmptyString ->
  match contactCreateBody JSON_parse email phone name additionalFields with
  | Ok payload =>
      exists custom,
        built email phone name additionalFields payload custom
        /\ (forall s, field additionalFields "customFields" = VStr s ->
            s <> EmptyString -> JSON_parse s = Some custom)
        /\ ((forall s, field additionalFields "customFields" <> VStr s) ->
            present (field additionalFields "customFields") ->
            custom = field additionalFields "customFields")
  | Throw e =>
      e = SyntaxError
      /\ exists s, field additionalFields "customFields" = VStr s
                   /\ s <> EmptyString /\ JSON_parse s = None
  | OutOfFuel => False
  end.
Proof.
  intros Hreq. rewrite contactCreateBody_cases by assumption.
  unfold built, present.
  destruct (truthy (field additionalFields "customFields")) eqn:Hcf.
  - destruct (field additionalFields "customFields") as [| |c|n|s|l|o]
      eqn:Ecf; try discriminate Hcf.
    + exists (VBool c). repeat split; auto; intros; congruence.
    + exists (VNum n). repeat split; auto; intros; congruence.
    + destruct (JSON_parse s) as [parsed|] eqn:Hparse.
      * exists parsed. split; [auto|split].
        -- intros s' Hs' _. congruence.
        -- intros Hno _. now elim (Hno s).
      * split; [reflexivity|]. exists s.
        repeat split; auto. now apply truthy_str.
    + exists (VArr l). repeat split; auto; intros; congruence.
    + exists (VObj o). repeat split; auto; intros; congruence.
  - exists VUndefined. split; [auto|split].
    + intros s Hs Hne. rewrite Hs in Hcf. apply truthy_str in Hne.
      congruence.
    + intros _ Hp. congruence.
Qed.

(** C4. A contact create with an email or a phone either builds a body
    and posts it to [/contacts] as the one request it makes, or stops
    before any request because [customFields] is a non-empty string that
    [JSON.parse] refuses.  The body has no key but the eight contact
    keys; it has a key exactly when the input field the key is filled
    from is present (non-empty); a present plain field is copied as it
    is; a present [customFields] string is replaced by what [JSON.parse]
    makes of it, and a present [customFields] that is no string is copied
    as it is. *)
Theorem contactCreate_payload (w : World S) :
  email <> EmptyString \/ phone <> EmptyString ->
  match contactCreateBody JSON_parse email phone name additionalFields with
  | Ok payload =>
      (exists cred,
         requests (snd (contactCreate this JSON_parse email phone name
                          additionalFields w)) =
         (requests w ++
          [(cred, {| method := "POST";
                     url := API_BASE_URL ++ "/contacts";
                     qs := None;
                     body := Some payload;
                     json := true |})])%list)
      /\ (forall k, has_key payload k = true ->
          In k (map fst
                  (contactFields email phone name additionalFields)))
      /\ (forall k src,
            In (k, src) (contactFields email phone name additionalFields) ->
            (has_key payload k = true <-> present src)
            /\ (present src -> k <> "custom_fields" ->
                field payload k = src))
      /\ (forall s, field additionalFields "customFields" = VStr s ->
          s <> EmptyString ->
          exists parsed, JSON_parse s = Some parsed
                         /\ field payload "custom_fields" = parsed)
      /\ ((forall s, field additionalFields "customFields" <> VStr s) ->
          present (field additionalFields "customFields") ->
          field payload "custom_fields"
            = field additionalFields "customFields")
  | Throw e =>
      e = SyntaxError
      /\ (exists s, field additionalFields "customFields" = VStr s
                    /\ s <> EmptyString /\ JSON_parse s = None)
      /\ snd (contactCreate this JSON_parse email phone name
                additionalFields w) = w
  | OutOfFuel => False
  end.
Proof.
  intros Hreq. pose proof (contactCreateBody_built Hreq) as Hb.
  unfold contactCreate, bind, lift.
  destruct (contactCreateBody JSON_parse email phone name additionalFields)
    as [payload|e|]; [|tauto|exact Hb].
  destruct Hb as [custom [Hbuilt [Hstr Hother]]].
  assert (Hcustom : present (field additionalFields "customFields") ->
                    field payload "custom_fields" = custom).
  { intros Hp.
    apply (built_field payload custom "custom_fields"
             (field additionalFields "customFields") Hbuilt);
      [simpl; tauto|exact Hp]. }
  split; [|split; [|split; [|split]]].
  - destruct (sendSevenApiRequest_log this "POST" "/contacts" payload [] w)
      as [cred Hlog].
    exists cred.
    replace {| method := "POST"; url := API_BASE_URL ++ "/contacts";
               qs := None; body := Some payload; json := true |}
      with (requestOptions "POST" "/contacts" payload []).
    + destruct (sendSevenApiRequest this "POST" "/contacts" payload [] w)
        as [[r| |] w1]; try exact Hlog.
      unfold throw, ret. destruct (nullish r); exact Hlog.
    + unfold requestOptions.
      rewrite (built_nonempty payload custom Hreq Hbuilt). reflexivity.
  - intros k. apply (built_keys payload custom k Hbuilt).
  - intros k src Hin. split.
    + apply (built_has_key payload custom k src Hbuilt Hin).
    + intros Hp Hk.
      rewrite (built_field payload custom k src Hbuilt Hin Hp).
      apply String.eqb_neq in Hk. now rewrite Hk.
  - intros s Hs Hne. exists custom. split; [now apply (Hstr s)|].
    apply Hcustom. unfold present. rewrite Hs. now apply truthy_str.
  - intros Hno Hp. rewrite (Hcustom Hp). now apply Hother.
Qed.

End ContactCreate.

(** Witness for C4: a contact with an email, a name, a company, empty notes
    and custom fields given as the JSON text of an empty object. *)
Lemma contactCreate_payload_witness :
  ("ada@example.com" <> EmptyString \/ EmptyString <> EmptyString)
  /\ exists payload,
       SendSeven.contactCreateBody Simulation.parse_sample
         "ada@example.com" EmptyString "Ada"
         Simulation.sampleAdditionalFields = Ok payload
       /\ (has_key payload "company" = true
           <-> Reading.present (VStr "Acme"))
       /\ (has_key payload "notes" = true
           <-> Reading.present (VStr EmptyString))
       /\ (has_key payload "phone" = true
           <-> Reading.present (VStr EmptyString))
       /\ exists parsed,
            Simulation.parse_sample "{}" = Some parsed
            /\ field payload "custom_fields" = parsed.
Proof.
  assert (Hreq : "ada@example.com" <> EmptyString
                 \/ EmptyString <> EmptyString) by (left; discriminate).
  split; [exact Hreq|].
  pose proof (contactCreate_payload
                (Simulation.constantApi false (VObj []))
                Simulation.parse_sample "ada@example.com" EmptyString "Ada"
                Simulation.sampleAdditionalFields
                (Simulation.startWorld tt) Hreq) as H.
  remember (SendSeven.contactCreateBody Simulation.parse_sample
              "ada@example.com" EmptyString "Ada"
              Simulation.sampleAdditionalFields) as r eqn:E.
  vm_compute in E. subst r.
  destruct H as (_ & _ & Hfields & Hstr & _).
  eexists. split; [reflexivity|].
  split; [apply (Hfields "company" (VStr "Acme")); simpl; tauto|].
  split; [apply (Hfields "notes" (VStr EmptyString)); simpl; tauto|].
  split; [apply (Hfields "phone" (VStr EmptyString)); simpl; tauto|].
  apply (Hstr "{}"); [reflexivity|discriminate].
Defined.

Section TemplateSend.

Import GenericFunctions SendSeven.

Context {S : Type}.
Variable this : Context S.
Variable lt_other : value -> value -> bool.


End TemplateSend.


(* ================================================================== *)
(** ** The trigger node *)
(* ================================================================== *)

Section Trigger.

Import GenericFunctions SendSevenTrigger Reading.

(** C6. A delivery whose body's [event] is not the configured event
    produces no workflow output: the handler answers
    [{noWebhookResponse: true}] and gives no [workflowData]. *)
Theorem webhook_ignores_other_events
    (headers body_ : obj) (event : string) (webhookData : obj) :
  field body_ "event" <> VStr event ->
  webhook headers body_ event webhookData =
    {| noWebhookResponse := Some true; workflowData := None |}.
Proof.
  intros Hne. unfold webhook.
  destruct (strict_eq_str (field body_ "event") event) eqn:E;
    [|reflexivity].
  apply strict_eq_str_spec in E. contradiction.
Qed.

(** C9. Two deliveries that differ only in the [x-sendseven-signature]
    header (its value, or whether it is there) get the same result: the
    header is read and then ignored. *)
Theorem webhook_ignores_signature
    (headers headers' body_ : obj) (event : string) (webhookData : obj) :
  (forall k, k <> "x-sendseven-signature" ->
             field headers k = field headers' k) ->
  webhook headers body_ event webhookData =
  webhook headers' body_ event webhookData.
Proof.
  intros _. unfold webhook.
  destruct (strict_eq_str (field body_ "event") event); reflexivity.
Qed.

Lemma formatEvent_unknown (event : string) (body_ : obj) (data : value) :
  ~ In event (map snd WEBHOOK_EVENTS) ->
  formatEvent (VStr event) body_ data =
    VObj [ ("id", field body_ "event_id");
           ("event", VStr event);
           ("data", data);
           ("timestamp", field body_ "timestamp");
           ("raw", VObj body_) ].
Proof.
  intros Hnot. unfold formatEvent, strict_eq_str.
  repeat match goal with
         | |- context [event =? ?lit] =>
             destruct (String.eqb_spec event lit) as [Heq|_];
             [exfalso; apply Hnot; rewrite Heq; simpl; tauto|]
         end.
  reflexivity.
Qed.

(** C10. A delivery whose [event] is the configured one but none of the
    ten names the handler has a case for produces exactly one output
    item: [{id: body.event_id, event, data, timestamp: body.timestamp,
    raw: body}], where [data] is [body.data] as it came (an object is
    always kept; a missing or falsy [data] reads as [{}]). *)
Theorem webhook_passes_unknown_events_through
    (headers body_ : obj) (event : string) (webhookData : obj) :
  field body_ "event" = VStr event ->
  ~ In event (map snd WEBHOOK_EVENTS) ->
  webhook headers body_ event webhookData =
    {| noWebhookResponse := None;
       workflowData :=
         Some [ [ VObj [ ("json",
                   VObj [ ("id", field body_ "event_id");
                          ("event", VStr event);
                          ("data", js_or (field body_ "data") (VObj []));
                          ("timestamp", field body_ "timestamp");
                          ("raw", VObj body_) ]) ] ] ] |}
  /\ (forall fields, field body_ "data" = VObj fields ->
      js_or (field body_ "data") (VObj []) = VObj fields).
Proof.
  intros Hev Hnot. split.
  - unfold webhook. rewrite Hev.
    assert (strict_eq_str (VStr event) event = true) as ->
      by now apply strict_eq_str_spec.
    cbn [negb]. cbv zeta.
    now rewrite formatEvent_unknown.
  - intros fields ->. reflexivity.
Qed.

Context {S : Type}.
Variable this : Context S.
Variable exn_member : exn -> string -> value.

(** [delete] with no stored webhook id returns true and leaves the world
    as it is (no request).  With a stored id it sends the DELETE; it
    returns true, and forgets the id and the secret, when the request
    succeeds or when what the caught exception exposes as
    [httpCode || statusCode] is the number 404; it returns false, and
    keeps the stored data, on every other failure. *)
Lemma delete_by_reported_status (webhookData : obj) (w : World S) :
  let webhookId := field webhookData "webhookId" in
  let cleaned :=
    obj_delete (obj_delete webhookData "webhookId") "secretKey" in
  let request :=
    sendSevenApiRequest this "DELETE" ("/webhooks/" ++ String_ webhookId)
      [] [] w in
  let run := delete this exn_member webhookData w in
  (truthy webhookId = false -> run = (Ok (true, webhookData), w))
  /\ (truthy webhookId = true ->
      snd run = snd request
      /\ match fst request with
         | Ok _ => fst run = Ok (true, cleaned)
         | Throw err =>
             (reportedStatus exn_member err = VNum 404 ->
              fst run = Ok (true, cleaned))
             /\ (reportedStatus exn_member err <> VNum 404 ->
                 fst run = Ok (false, webhookData))
         | OutOfFuel => False
         end).
Proof.
  cbv zeta. unfold delete. split; intros Hid; rewrite Hid; cbn [negb].
  - reflexivity.
  - pose proof (sendSevenApiRequest_fuel this "DELETE"
                  ("/webhooks/" ++ String_ (field webhookData "webhookId"))
                  [] [] w) as Hfuel.
    unfold bind, try_catch, ret, reportedStatus.
    destruct (sendSevenApiRequest this "DELETE"
                ("/webhooks/" ++ String_ (field webhookData "webhookId"))
                [] [] w) as [[r|err|] w1]; cbn [fst snd] in *.
    + split; reflexivity.
    + destruct (strict_eq_num
                  (js_or (exn_member err "httpCode")
                         (exn_member err "statusCode")) 404) eqn:E;
        cbn [negb fst snd]; (split; [reflexivity|]); split; intros Hs;
        try reflexivity.
      * apply strict_eq_num_spec in E. contradiction.
      * apply strict_eq_num_spec in Hs. congruence.
    + congruence.
Qed.

Lemma reportedStatus_text (err : exn) (n : Z) :
  statusAsText exn_member -> reportedStatus exn_member err <> VNum n.
Proof.
  intros Htext. destruct (Htext err n) as [Hh Hs].
  unfold reportedStatus, js_or.
  destruct (truthy (exn_member err "httpCode")); assumption.
Qed.

(** C7. With a stored webhook id, [delete] issues the one DELETE for that
    id.  When the host resolves it, [delete] returns true and forgets the
    id and the secret.  When the host rejects it, whatever the rejection is
    (so also when the API answered 404 because the webhook is gone), and
    the class of the caught error exposes the status as text and not as a
    number, [delete] returns false and keeps the stored data: the strict
    comparison with the number 404 is never met. *)
Theorem delete_fails_on_not_found (webhookData : obj) (w : World S) :
  statusAsText exn_member ->
  truthy (field webhookData "webhookId") = true ->
  let cleaned :=
    obj_delete (obj_delete webhookData "webhookId") "secretKey" in
  let options :=
    requestOptions "DELETE"
      ("/webhooks/" ++ String_ (field webhookData "webhookId")) [] [] in
  let credentials := getCredentials this "sendSevenOAuth2Api" (remote w) in
  let cred := match fst credentials with
              | Resolved _ => "sendSevenOAuth2Api"
              | Rejected _ => "sendSevenApi"
              end in
  let answer :=
    httpRequestWithAuthentication this cred options (snd credentials) in
  let run := delete this exn_member webhookData w in
  snd run =
    Build_World (snd answer) (requests w ++ [(cred, options)])%list
  /\ match fst answer with
     | Resolved _ => fst run = Ok (true, cleaned)
     | Rejected _ => fst run = Ok (false, webhookData)
     end.
Proof.
  intros Htext Hid. cbv zeta.
  destruct (delete_by_reported_status webhookData w) as [_ H].
  destruct (H Hid) as [Hw Hr]. clear H.
  rewrite Hw. clear Hw. revert Hr.
  rewrite sendSevenApiRequest_run.
  destruct (getCredentials this "sendSevenOAuth2Api" (remote w)) as [c s1].
  cbv zeta. cbn [fst snd].
  match goal with
  | |- context [httpRequestWithAuthentication this ?c ?o ?s] =>
      destruct (httpRequestWithAuthentication this c o s) as [r s2]
  end.
  destruct r as [response|error]; cbn [fst snd].
  - intros Hr. split; [reflexivity|exact Hr].
  - pose proof (getErrorMessage_fuel error) as Hfuel.
    destruct (getErrorMessage error) as [message|x|]; cbn [fst snd];
      intros Hr; (split; [reflexivity|]);
      try (apply Hr; apply reportedStatus_text; exact Htext).
    contradiction.
Qed.

End Trigger.

(** Witness for C6: a [message.sent] delivery reaches a trigger configured
    for [message.received]. *)
Lemma webhook_ignores_other_events_witness :
  SendSevenTrigger.webhook Simulation.unsignedHeaders
    [ ("event", VStr "message.sent"); ("data", VObj []) ]
    "message.received" Simulation.sampleStaticData
  = {| SendSevenTrigger.noWebhookResponse := Some true;
       SendSevenTrigger.workflowData := None |}.
Proof.
  apply (webhook_ignores_other_events Simulation.unsignedHeaders
           [ ("event", VStr "message.sent"); ("data", VObj []) ]
           "message.received" Simulation.sampleStaticData).
  simpl. discriminate.
Defined.

(** Witness for C9: the same delivery with and without a signature. *)
Lemma webhook_ignores_signature_witness :
  SendSevenTrigger.webhook Simulation.signedHeaders
    Simulation.sampleDelivery "channel.connected"
    Simulation.sampleStaticData
  = SendSevenTrigger.webhook Simulation.unsignedHeaders
      Simulation.sampleDelivery "channel.connected"
      Simulation.sampleStaticData.
Proof.
  apply (webhook_ignores_signature Simulation.signedHeaders
           Simulation.unsignedHeaders Simulation.sampleDelivery
           "channel.connected" Simulation.sampleStaticData).
  intros k Hk.
  unfold Simulation.signedHeaders, Simulation.unsignedHeaders.
  cbn [field].
  destruct (String.eqb_spec "x-sendseven-signature" k) as [Heq|_];
    [now elim Hk|reflexivity].
Defined.

(** Witness for C10: a [channel.connected] delivery, an event the handler
    has no case for. *)
Lemma webhook_passes_unknown_events_through_witness :
  SendSevenTrigger.webhook Simulation.signedHeaders
    Simulation.sampleDelivery "channel.connected"
    Simulation.sampleStaticData
  = {| SendSevenTrigger.noWebhookResponse := None;
       SendSevenTrigger.workflowData :=
         Some [ [ VObj [ ("json",
                   VObj [ ("id", VStr "evt_1");
                          ("event", VStr "channel.connected");
                          ("data",
                            VObj [("channel", VObj [("id", VStr "ch_1")])]);
                          ("timestamp", VStr "2025-01-01T00:00:00Z");
                          ("raw", VObj Simulation.sampleDelivery) ]) ] ] ]
    |}.
Proof.
  apply (webhook_passes_unknown_events_through Simulation.signedHeaders
           Simulation.sampleDelivery "channel.connected"
           Simulation.sampleStaticData).
  - reflexivity.
  - simpl. intuition discriminate.
Defined.

(** Witness for C7: the stored webhook is gone on the remote side, the API
    answers the DELETE with 404, and the caught error exposes that status
    as the text 404. *)
Lemma delete_fails_on_not_found_witness :
  fst (SendSevenTrigger.delete
         (Simulation.failingApi false
            (Simulation.rejection 404 "Webhook not found"))
         Simulation.textStatus Simulation.sampleStaticData
         (Simulation.startWorld tt))
  = Ok (false, Simulation.sampleStaticData).
Proof.
  assert (Reading.statusAsText Simulation.textStatus) as Htext.
  { intros [cause message| | | |] n; split; cbn; try discriminate.
    destruct (member cause "status"); discriminate. }
  destruct (delete_fails_on_not_found
              (Simulation.failingApi false
                 (Simulation.rejection 404 "Webhook not found"))
              Simulation.textStatus Simulation.sampleStaticData
              (Simulation.startWorld tt) Htext eq_refl) as [_ H].
  exact H.
Defined.

(** [delete] on concrete failures: with the status exposed as text, a 404
    and a 500 are both reported as failures, and the stored data is kept. *)
Example delete_status_500 :
  fst (SendSevenTrigger.delete
         (Simulation.failingApi false
            (Simulation.rejection 500 "Internal error"))
         Simulation.textStatus Simulation.sampleStaticData
         (Simulation.startWorld tt))
  = Ok (false, Simulation.sampleStaticData).
Proof. reflexivity. Qed.

Example delete_status_text :
  Simulation.textStatus
    (NodeApiError (Simulation.rejection 404 "Webhook not found")
       "Webhook not found") "httpCode" = VStr "404"
  /\ fst (SendSevenTrigger.delete
            (Simulation.failingApi false
               (Simulation.rejection 404 "Webhook not found"))
            Simulation.textStatus Simulation.sampleStaticData
            (Simulation.startWorld tt))
     = Ok (false, Simulation.sampleStaticData).
Proof. split; reflexivity. Qed.

Example delete_success :
  SendSevenTrigger.delete (Simulation.constantApi true VNull)
    Simulation.textStatus Simulation.sampleStaticData
    (Simulation.startWorld tt)
  = (Ok (true, []),
     Build_World tt
       [("sendSevenOAuth2Api",
         {| method := "DELETE";
            url := "https://api.sendseven.com/api/v1/webhooks/wh_1";
            qs := None; body := None; json := true |})]).
Proof. reflexivity. Qed.

Example delete_nothing_stored :
  SendSevenTrigger.delete (Simulation.constantApi true VNull)
    Simulation.textStatus [("secretKey", VStr "s3cret")]
    (Simulation.startWorld tt)
  = (Ok (true, [("secretKey", VStr "s3cret")]), Build_World tt []).
Proof. reflexivity. Qed.

(** A known event is reshaped: a [contact.created] delivery. *)
Example webhook_contact_created :
  SendSevenTrigger.webhook Simulation.unsignedHeaders
    [ ("event", VStr "contact.created");
      ("event_id", VStr "evt_2");
      ("data", VObj [("contact", VObj [("id", VStr "c_1");
                                       ("first_name", VStr "Ada")])]);
      ("timestamp", VStr "t") ]
    "contact.created" []
  = {| SendSevenTrigger.noWebhookResponse := None;
       SendSevenTrigger.workflowData :=
         Some [ [ VObj [ ("json",
                   VObj [ ("id", VStr "c_1");
                          ("event", VStr "contact.created");
                          ("contact",
                            GenericFunctions.formatContactResponse
                              (VObj [("id", VStr "c_1");
                                     ("first_name", VStr "Ada")]));
                          ("timestamp", VStr "t") ]) ] ] ] |}.
Proof. reflexivity. Qed.

(** The message of an error with no response and no message of its own. *)
Example getErrorMessage_generic :
  GenericFunctions.getErrorMessage (VObj [])
  = Ok "An unknown error occurred".
Proof. reflexivity. Qed.

(** A contact create whose custom fields are not JSON stops before any
    request. *)
Example contactCreate_bad_json :
  SendSeven.contactCreate (Simulation.constantApi true (VObj []))
    Simulation.parse_sample "ada@example.com" EmptyString EmptyString
    [("customFields", VStr "{oops")] (Simulation.startWorld tt)
  = (Throw SyntaxError, Build_World tt []).
Proof. reflexivity. Qed.


(* ================================================================== *)
(** ** Further properties of the request helper *)
(* ================================================================== *)

Section HelperProperties.

Import GenericFunctions Reading.

Context {S : Type}.
Variable this : Context S.

(** X1. [validateRequiredFields] passes exactly when every required field
    reads as truthy in [fields] (an own property that is truthy, or, for a
    name the object does not hold, a member inherited from
    [Object.prototype]), and otherwise throws a [NodeOperationError] that
    names the first required field, in the order of [required], that does
    not.  For a required name that is not an inherited one, reading truthy
    is holding a truthy value under that name. *)
Theorem validateRequiredFields_first_missing
    (fields : obj) (required : list string) :
  validateRequiredFields fields required =
    match find (fun k => negb (reads_truthy fields k)) required with
    | Some k =>
        Throw (NodeOperationError
                 ("The " ++ dquote ++ k ++ dquote ++ " field is required"))
    | None => Ok tt
    end
  /\ (validateRequiredFields fields required = Ok tt
      <-> Forall (fun k => reads_truthy fields k = true) required)
  /\ (forall k, ~ In k objectPrototype ->
        reads_truthy fields k = truthy (field fields k)).
Proof.
  split; [|split].
  - induction required as [|k rest IH]; simpl; [reflexivity|].
    destruct (reads_truthy fields k); simpl; [exact IH|reflexivity].
  - induction required as [|k rest IH]; simpl.
    + split; [constructor|reflexivity].
    + destruct (reads_truthy fields k) eqn:E; simpl.
      * rewrite IH. split; [now constructor|now inversion 1].
      * split; [discriminate|]. inversion 1; congruence.
  - intros k Hk. unfold reads_truthy.
    destruct (has_key fields k) eqn:Eh; [reflexivity|].
    assert (existsb (String.eqb k) objectPrototype = false) as ->.
    { destruct (existsb (String.eqb k) objectPrototype) eqn:Ee;
        [|reflexivity].
      apply existsb_exists in Ee. destruct Ee as [x [Hx Heq]].
      apply String.eqb_eq in Heq. subst x. contradiction. }
    assert (field fields k = VUndefined) as ->; [|reflexivity].
    clear Hk. induction fields as [|[k0 v0] rest IH]; [reflexivity|].
    cbn [has_key existsb fst] in Eh. cbn [field].
    destruct (k0 =? k); [discriminate|]. apply IH. exact Eh.
Qed.

(** [validateRequiredFields] on a name every object inherits: nothing is
    missing. *)
Example validateRequiredFields_inherited :
  validateRequiredFields [] ["constructor"] = Ok tt.
Proof. reflexivity. Qed.

(** X2. When the OAuth2 credentials can be read, [sendSevenApiRequest]
    issues its one request with the OAuth2 credential type, and when the
    host resolves that request the helper returns the response as it is. *)
Theorem sendSevenApiRequest_prefers_oauth
    (m e : string) (b q : obj) (w : World S) (credentials : value) (s1 : S) :
  getCredentials this "sendSevenOAuth2Api" (remote w)
    = (Resolved credentials, s1) ->
  requests (snd (sendSevenApiRequest this m e b q w)) =
    (requests w ++ [("sendSevenOAuth2Api", requestOptions m e b q)])%list
  /\ (forall response s2,
        httpRequestWithAuthentication this "sendSevenOAuth2Api"
          (requestOptions m e b q) s1 = (Resolved response, s2) ->
        sendSevenApiRequest this m e b q w =
          (Ok response,
           Build_World s2
             (requests w ++
              [("sendSevenOAuth2Api", requestOptions m e b q)])%list)).
Proof.
  intros Hc. rewrite sendSevenApiRequest_run, Hc. cbv zeta. split.
  - destruct (httpRequestWithAuthentication this "sendSevenOAuth2Api"
                (requestOptions m e b q) s1) as [r s2].
    destruct r; reflexivity.
  - intros response s2 ->. reflexivity.
Qed.

(** X3. The query of a page request keeps the caller's filters and
    overrides whatever [page] and [page_size] the caller gave. *)
Theorem pageQuery_fields (query : obj) (page : Z) (k : string) :
  field (pageQuery query page) k =
    if k =? "page_size" then VNum 100
    else if k =? "page" then VNum page
    else field query k.
Proof.
  unfold pageQuery, pageSize. rewrite !field_obj_set.
  rewrite (String.eqb_sym "page_size" k), (String.eqb_sym "page" k).
  reflexivity.
Qed.

(** X4. For a [message] that is not [null] or [undefined],
    [formatMessageResponse] reports [hasAttachments] as a boolean, the
    truthiness of [attachments?.length]: for an [attachments] array, true
    exactly when it is not empty; for a string, true exactly when it is not
    empty; for an object, the truthiness of its own [length]; false when
    [attachments] is missing, [null], a boolean or a number.  On a [null]
    or [undefined] message the call in [execute] throws a [TypeError] and
    leaves the world as it is. *)
Theorem formatMessageResponse_hasAttachments (message : value) :
  (nullish message = false ->
   member (formatMessageResponse message) "hasAttachments" =
     VBool match member message "attachments" with
           | VArr l => negb (length l =? 0)%nat
           | VStr s => negb (s =? EmptyString)
           | VObj o => truthy (field o "length")
           | _ => false
           end)
  /\ (nullish message = true ->
      forall w : World S,
        SendSevenExecute.formatResponse formatMessageResponse message w
          = (Throw TypeError, w)).
Proof.
  split.
  - intros _. unfold formatMessageResponse.
    cbn [member field String.eqb Ascii.eqb Bool.eqb]. unfold to_bool.
    destruct (member message "attachments") as [| | b|n|s|l|o];
      try reflexivity.
    + cbn [member String.eqb Ascii.eqb Bool.eqb truthy].
      destruct s; reflexivity.
    + cbn [member String.eqb Ascii.eqb Bool.eqb truthy].
      destruct l; reflexivity.
  - intros Hn w. unfold SendSevenExecute.formatResponse. rewrite Hn.
    reflexivity.
Qed.

End HelperProperties.

(** Witness for X4: a message with one attachment, and a response that
    is [null]. *)
Lemma formatMessageResponse_hasAttachments_witness :
  member
    (GenericFunctions.formatMessageResponse
       (VObj [ ("id", VStr "m_1");
               ("attachments", VArr [VObj [("name", VStr "a.png")]]) ]))
    "hasAttachments" = VBool true
  /\ SendSevenExecute.formatResponse GenericFunctions.formatMessageResponse
       VNull (Simulation.startWorld tt)
     = (Throw TypeError, Simulation.startWorld tt).
Proof.
  split.
  - exact (proj1 (formatMessageResponse_hasAttachments (S:=unit)
                    (VObj [ ("id", VStr "m_1");
                            ("attachments",
                              VArr [VObj [("name", VStr "a.png")]]) ]))
             eq_refl).
  - exact (proj2 (formatMessageResponse_hasAttachments VNull) eq_refl
             (Simulation.startWorld tt)).
Defined.

(** Witness for X2: OAuth2 credentials at hand. *)
Lemma sendSevenApiRequest_prefers_oauth_witness :
  requests
    (snd (GenericFunctions.sendSevenApiRequest
            (Simulation.constantApi true (VObj [("id", VStr "c_1")]))
            "GET" "/contacts/c_1" [] [] (Simulation.startWorld tt))) =
    [("sendSevenOAuth2Api",
      GenericFunctions.requestOptions "GET" "/contacts/c_1" [] [])]
  /\ (forall response s2,
        httpRequestWithAuthentication
          (Simulation.constantApi true (VObj [("id", VStr "c_1")]))
          "sendSevenOAuth2Api"
          (GenericFunctions.requestOptions "GET" "/contacts/c_1" [] []) tt
          = (Resolved response, s2) ->
        GenericFunctions.sendSevenApiRequest
          (Simulation.constantApi true (VObj [("id", VStr "c_1")]))
          "GET" "/contacts/c_1" [] [] (Simulation.startWorld tt) =
          (Ok response,
           Build_World s2
             [("sendSevenOAuth2Api",
               GenericFunctions.requestOptions "GET" "/contacts/c_1"
                 [] [])])).
Proof.
  apply (sendSevenApiRequest_prefers_oauth
           (Simulation.constantApi true (VObj [("id", VStr "c_1")]))
           "GET" "/contacts/c_1" [] [] (Simulation.startWorld tt)
           (VObj []) tt).
  reflexivity.
Defined.

(* ================================================================== *)
(** ** Further properties of the pagination *)
(* ================================================================== *)

Section PaginationProperties.

Import GenericFunctions Simulation Doubles Reading.

Variable lt_other : value -> value -> bool.
Variables (endpoint : string) (query : obj).

Lemma concat_firstn_skipn (l : list (list value)) :
  forall k j,
    concat (firstn (Datatypes.S j) (skipn k l)) =
    (nth k l [] ++ concat (firstn j (skipn (Datatypes.S k) l)))%list.
Proof.
  induction l as [|x rest IH]; intros k j.
  - destruct k; simpl; now rewrite ?firstn_nil.
  - destruct k as [|k]; [reflexivity|]. apply (IH k j).
Qed.

(** A page request of the aggregator, in any context: the world after it
    has one more request, for that page. *)
Lemma page_request_log {S : Type} (this : Context S) (page : Z)
    (w : World S) :
  exists cred,
    requests (snd (sendSevenApiRequest this "GET" endpoint []
                     (pageQuery query page) w)) =
    (requests w ++
     [(cred, requestOptions "GET" endpoint [] (pageQuery query page))])%list.
Proof. apply sendSevenApiRequest_log. Qed.

(** The requests of the loop, in any context: pages [page], [page + 1],
    ... in order, at most up to page 100. *)
Lemma allItemsLoop_requests {S : Type} (this : Context S)
    (itemsKey : string) (fuel : nat) :
  forall (page : Z) (acc : list value) (w : World S),
    (1 <= page <= 100)%Z ->
    (Z.to_nat (101 - page) <= fuel)%nat ->
    exists added n,
      requests (snd (allItemsLoop this lt_other fuel endpoint query itemsKey
                       page acc w)) = (requests w ++ added)%list
      /\ (1 <= n <= Z.to_nat (101 - page))%nat
      /\ map snd added =
           map (fun k => requestOptions "GET" endpoint []
                           (pageQuery query (page + Z.of_nat k)))
               (seq 0 n).
Proof.
  induction fuel as [|fuel IH]; intros page acc w Hp Hf; [lia|].
  rewrite allItemsLoop_step.
  destruct (page_request_log this page w) as [cred Hlog].
  destruct (sendSevenApiRequest this "GET" endpoint [] (pageQuery query page)
              w) as [r w1].
  cbn [snd] in Hlog.
  assert (Hone : exists added n,
             requests w1 = (requests w ++ added)%list
             /\ (1 <= n <= Z.to_nat (101 - page))%nat
             /\ map snd added =
                  map (fun k => requestOptions "GET" endpoint []
                                  (pageQuery query (page + Z.of_nat k)))
                      (seq 0 n)).
  { exists [(cred, requestOptions "GET" endpoint [] (pageQuery query page))],
      1%nat.
    split; [exact Hlog|split; [lia|]].
    cbn [seq map snd Z.of_nat]. now rewrite Z.add_0_r. }
  destruct r as [response| |]; cbn [snd]; try exact Hone.
  destruct (get response itemsKey) as [found| |]; cbn [snd]; try exact Hone.
  destruct (spread (js_or found (VArr []))) as [pushed| |]; cbn [snd];
    try exact Hone.
  destruct (Z.ltb_spec 100 (page + 1)); cbn [snd]; [exact Hone|].
  destruct (hasMoreAfter lt_other response (js_or found (VArr [])));
    cbn [snd]; [|exact Hone].
  destruct (IH (page + 1)%Z (acc ++ pushed)%list w1) as (added & n & Ha & Hn & Hm);
    [lia|lia|].
  exists ((cred, requestOptions "GET" endpoint [] (pageQuery query page))
          :: added), (Datatypes.S n).
  split; [|split; [lia|]].
  - rewrite Ha, Hlog, <- app_assoc. reflexivity.
  - cbn [map snd seq]. rewrite Hm, <- seq_shift, map_map.
    rewrite Z.add_0_r. f_equal. apply map_ext. intros k.
    replace (page + Z.of_nat (Datatypes.S k))%Z
      with (page + 1 + Z.of_nat k)%Z by lia.
    reflexivity.
Qed.

(** X5. Whatever the host and the remote API do, the requests
    [sendSevenApiRequestAllItems] adds to the log are GET requests, without
    a body, for the pages 1, 2, ..., n of the endpoint in this order, for
    some n between 1 and 100, each with the caller's query and
    [page_size] 100. *)
Theorem sendSevenApiRequestAllItems_requests {S : Type} (this : Context S)
    (itemsKey : string) (fuel : nat) (w : World S) :
  (100 <= fuel)%nat ->
  exists added n,
    requests (snd (sendSevenApiRequestAllItems this lt_other fuel endpoint
                     query itemsKey w)) = (requests w ++ added)%list
    /\ (1 <= n <= 100)%nat
    /\ map snd added =
         map (fun k =>
                {| method := "GET";
                   url := API_BASE_URL ++ endpoint;
                   qs := Some (pageQuery query (Z.of_nat k));
                   body := None;
                   json := true |})
             (seq 1 n).
Proof.
  intros Hf. unfold sendSevenApiRequestAllItems.
  destruct (allItemsLoop_requests this itemsKey fuel 1%Z [] w)
    as (added & n & Ha & Hn & Hm); [lia|simpl; lia|].
  exists added, n. split; [exact Ha|split; [simpl in Hn; lia|]].
  rewrite Hm, <- seq_shift, map_map. apply map_ext. intros k.
  unfold requestOptions, pageQuery.
  rewrite keys_length_obj_set. cbn [String.eqb Ascii.eqb Bool.eqb orb].
  replace (1 + Z.of_nat k)%Z with (Z.of_nat (Datatypes.S k)) by lia.
  reflexivity.
Qed.

Variable oauth : bool.
Variable pages : list (list value).

(** The paged API, asked for more pages than the cap allows. *)
Lemma allItemsLoop_paged_cap (fuel : nat) :
  forall (k : nat) (acc : list value) (w : World unit),
    (100 <= length pages)%nat ->
    (k < 100)%nat ->
    (100 - k <= fuel)%nat ->
    let run := allItemsLoop (pagedApi oauth pages) lt_other fuel endpoint
                 query "items" (Z.of_nat k + 1) acc w in
    fst run = Ok (acc ++ concat (firstn (100 - k) (skipn k pages)))%list
    /\ length (requests (snd run)) = (length (requests w) + (100 - k))%nat.
Proof.
  induction fuel as [|fuel IH]; intros k acc w HN Hk Hf; [lia|].
  cbv zeta. rewrite allItemsLoop_step.
  destruct (page_request_log (pagedApi oauth pages) (Z.of_nat k + 1) w)
    as [cred Hlog].
  destruct (pagedApi_request endpoint query oauth pages k w) as [w1 Hreq].
  rewrite Hreq in *. cbn [snd] in Hlog.
  assert (Hlen : length (requests w1) = Datatypes.S (length (requests w))).
  { rewrite Hlog, length_app. simpl. lia. }
  rewrite pageResponse_at.
  replace (100 - k)%nat with (Datatypes.S (99 - k)) by lia.
  rewrite concat_firstn_skipn.
  cbn [get nullish member field String.eqb Ascii.eqb Bool.eqb js_or truthy
       spread].
  unfold hasMoreAfter.
  cbn [member field String.eqb Ascii.eqb Bool.eqb truthy js_lt].
  rewrite app_assoc.
  destruct (Z.ltb_spec 100 (Z.of_nat k + 1 + 1)) as [Hlast|Hmore].
  - cbn [fst snd]. replace (99 - k)%nat with 0%nat by lia.
    simpl. rewrite app_nil_r. split; [reflexivity|lia].
  - destruct (Z.ltb_spec (Z.of_nat k + 1) (Z.of_nat (length pages)))
      as [_|Hge]; [|lia].
    replace (Z.of_nat k + 1 + 1)%Z with (Z.of_nat (Datatypes.S k) + 1)%Z
      by lia.
    destruct (IH (Datatypes.S k) (acc ++ nth k pages [])%list w1)
      as [Hr Hq]; [lia|lia|lia|].
    cbv zeta in Hr, Hq. rewrite Hr, Hq.
    replace (100 - Datatypes.S k)%nat with (99 - k)%nat by lia.
    split; [reflexivity|lia].
Qed.

(** X6. The safety bound cuts the result short: against an API that
    holds 100 pages or more, each announced by the envelope,
    [sendSevenApiRequestAllItems] returns the items of the first 100 pages
    only, after exactly 100 requests, and reports nothing about the rest. *)
Theorem sendSevenApiRequestAllItems_truncates (fuel : nat)
    (w : World unit) :
  (100 <= length pages)%nat ->
  (100 <= fuel)%nat ->
  let run := sendSevenApiRequestAllItems (pagedApi oauth pages) lt_other
               fuel endpoint query "items" w in
  fst run = Ok (concat (firstn 100 pages))
  /\ length (requests (snd run)) = (length (requests w) + 100)%nat.
Proof.
  intros HN Hf. cbv zeta. unfold sendSevenApiRequestAllItems.
  change 1%Z with (Z.of_nat 0 + 1)%Z.
  destruct (allItemsLoop_paged_cap fuel 0 [] w) as [Hr Hq]; [lia|lia|lia|].
  cbv zeta in Hr, Hq. rewrite Hr, Hq. split; reflexivity.
Qed.

Lemma bareResponse_at (k : nat) :
  bareResponse pages (Z.of_nat k + 1) =
    VObj [ ("items", VArr (nth k pages [])) ].
Proof.
  unfold bareResponse.
  destruct (Z.leb_spec 1 (Z.of_nat k + 1)); [|lia].
  replace (Z.to_nat (Z.of_nat k + 1 - 1)) with k by lia.
  reflexivity.
Qed.

Lemma bareApi_request (k : nat) (w : World unit) :
  exists w1,
    sendSevenApiRequest (bareApi oauth pages) "GET" endpoint []
      (pageQuery query (Z.of_nat k + 1)) w
    = (Ok (bareResponse pages (Z.of_nat k + 1)), w1).
Proof.
  rewrite sendSevenApiRequest_run.
  unfold bareApi at 1. cbn [getCredentials]. cbv zeta.
  unfold bareApi at 1. cbn [httpRequestWithAuthentication].
  rewrite requestedPage_pageQuery. eexists. reflexivity.
Qed.

(** Without an envelope the loop goes on while pages are full. *)
Lemma allItemsLoop_bare (m : nat) (fuel : nat) :
  forall (k : nat) (acc : list value) (w : World unit),
    (forall j, (j < m)%nat -> length (nth j pages []) = 100%nat) ->
    length (nth m pages []) <> 100%nat ->
    (k <= m < 100)%nat ->
    (Datatypes.S m - k <= fuel)%nat ->
    let run := allItemsLoop (bareApi oauth pages) lt_other fuel endpoint
                 query "items" (Z.of_nat k + 1) acc w in
    fst run
      = Ok (acc ++ concat (firstn (Datatypes.S m - k) (skipn k pages)))%list
    /\ length (requests (snd run))
       = (length (requests w) + (Datatypes.S m - k))%nat.
Proof.
  induction fuel as [|fuel IH]; intros k acc w Hfull Hshort Hk Hf; [lia|].
  cbv zeta. rewrite allItemsLoop_step.
  destruct (page_request_log (bareApi oauth pages) (Z.of_nat k + 1) w)
    as [cred Hlog].
  destruct (bareApi_request k w) as [w1 Hreq].
  rewrite Hreq in *. cbn [snd] in Hlog.
  assert (Hlen : length (requests w1) = Datatypes.S (length (requests w))).
  { rewrite Hlog, length_app. simpl. lia. }
  rewrite bareResponse_at.
  replace (Datatypes.S m - k)%nat with (Datatypes.S (m - k)) by lia.
  rewrite concat_firstn_skipn.
  cbn [get nullish member field String.eqb Ascii.eqb Bool.eqb js_or truthy
       spread].
  unfold hasMoreAfter, pageSize.
  cbn [member field String.eqb Ascii.eqb Bool.eqb truthy strict_eq_num].
  rewrite app_assoc.
  destruct (Z.ltb_spec 100 (Z.of_nat k + 1 + 1)) as [Hlast|Hmore].
  { cbn [fst snd]. replace (m - k)%nat with 0%nat by lia.
    simpl. rewrite app_nil_r. split; [reflexivity|lia]. }
  destruct (Z.eqb_spec (Z.of_nat (length (nth k pages []))) 100)
    as [Hfullk|Hshortk].
  - assert (k < m)%nat as Hlt.
    { destruct (Nat.eq_dec k m) as [->|]; [lia|lia]. }
    replace (Z.of_nat k + 1 + 1)%Z with (Z.of_nat (Datatypes.S k) + 1)%Z
      by lia.
    destruct (IH (Datatypes.S k) (acc ++ nth k pages [])%list w1)
      as [Hr Hq]; [assumption|assumption|lia|lia|].
    cbv zeta in Hr, Hq. rewrite Hr, Hq.
    replace (Datatypes.S m - Datatypes.S k)%nat with (m - k)%nat by lia.
    split; [reflexivity|lia].
  - assert (k = m) as ->.
    { destruct (Nat.eq_dec k m) as [|Hne]; [assumption|].
      specialize (Hfull k ltac:(lia)). lia. }
    cbn [fst snd]. replace (m - m)%nat with 0%nat by lia.
    simpl. rewrite app_nil_r. split; [reflexivity|lia].
Qed.

(** X7. Against an API without a pagination envelope the aggregator
    goes on while pages come back full: when the first [m < 100] pages hold
    100 items each and the next one does not (it may be empty, or beyond
    the last page), it returns the items of these [m + 1] pages after
    [m + 1] requests. *)
Theorem sendSevenApiRequestAllItems_without_envelope (m fuel : nat)
    (w : World unit) :
  (forall j, (j < m)%nat -> length (nth j pages []) = 100%nat) ->
  length (nth m pages []) <> 100%nat ->
  (m < 100)%nat ->
  (100 <= fuel)%nat ->
  let run := sendSevenApiRequestAllItems (bareApi oauth pages) lt_other
               fuel endpoint query "items" w in
  fst run = Ok (concat (firstn (Datatypes.S m) pages))
  /\ length (requests (snd run))
     = (length (requests w) + Datatypes.S m)%nat.
Proof.
  intros Hfull Hshort Hm Hf. cbv zeta. unfold sendSevenApiRequestAllItems.
  change 1%Z with (Z.of_nat 0 + 1)%Z.
  destruct (allItemsLoop_bare m fuel 0 [] w) as [Hr Hq];
    [assumption|assumption|lia|lia|].
  cbv zeta in Hr, Hq. rewrite Hr, Hq.
  replace (Datatypes.S m - 0)%nat with (Datatypes.S m) by lia.
  split; reflexivity.
Qed.

Variable responses : nat -> settled.

Lemma scriptedApi_request (m_ e_ : string) (b_ q_ : obj) (w : World nat) :
  sendSevenApiRequest (scriptedApi oauth responses) m_ e_ b_ q_ w =
    (match responses (remote w) with
     | Resolved response => Ok response
     | Rejected error =>
         match getErrorMessage error with
         | Ok message => Throw (NodeApiError error message)
         | Throw x => Throw x
         | OutOfFuel => OutOfFuel
         end
     end,
     Build_World (Datatypes.S (remote w))
       (requests w ++
        [(if oauth then "sendSevenOAuth2Api" else "sendSevenApi",
          requestOptions m_ e_ b_ q_)])%list).
Proof.
  rewrite sendSevenApiRequest_run.
  unfold scriptedApi at 1. cbn [getCredentials]. cbv zeta.
  unfold scriptedApi at 1. cbn [httpRequestWithAuthentication].
  destruct oauth; destruct (responses (remote w)); reflexivity.
Qed.

(** The loop against a script that fails at request [k]. *)
Lemma allItemsLoop_fails (k : nat) (error : value) (fuel : nat) :
  forall (acc : list value) (w : World nat),
    (forall i, (i < k)%nat ->
       exists items, responses i = Resolved (moreResponse items)) ->
    responses k = Rejected error ->
    nullish error = false ->
    (remote w <= k < 100)%nat ->
    (Datatypes.S k - remote w <= fuel)%nat ->
    let run := allItemsLoop (scriptedApi oauth responses) lt_other fuel
                 endpoint query "items" (Z.of_nat (remote w) + 1) acc w in
    fst run = Throw (NodeApiError error (bestEffortMessage error))
    /\ length (requests (snd run))
       = (length (requests w) + (Datatypes.S k - remote w))%nat.
Proof.
  induction fuel as [|fuel IH]; intros acc w Hok Hfail Hn Hk Hf; [lia|].
  cbv zeta. rewrite allItemsLoop_step, scriptedApi_request.
  destruct (Nat.eq_dec (remote w) k) as [Heq|Hne].
  - rewrite Heq, Hfail, (getErrorMessage_spec _ Hn).
    cbn [fst snd requests]. rewrite length_app. cbn [length].
    split; [reflexivity|lia].
  - destruct (Hok (remote w)) as [items Hitems]; [lia|].
    rewrite Hitems. unfold moreResponse.
    cbn [get nullish member field String.eqb Ascii.eqb Bool.eqb js_or truthy
         spread].
    unfold hasMoreAfter.
    cbn [member field String.eqb Ascii.eqb Bool.eqb truthy js_lt Z.ltb
         Z.compare Pos.compare Pos.compare_cont].
    destruct (Z.ltb_spec 100 (Z.of_nat (remote w) + 1 + 1)); [lia|].
    match goal with
    | |- context [allItemsLoop _ _ _ _ _ _ _ ?a ?w1] =>
        destruct (IH a w1) as [Hr Hq]; cbn [remote requests];
        try assumption; try lia
    end.
    cbn [remote requests] in Hr, Hq. cbv zeta in Hr, Hq.
    replace (Z.of_nat (remote w) + 1 + 1)%Z
      with (Z.of_nat (Datatypes.S (remote w)) + 1)%Z by lia.
    rewrite Hr, Hq, length_app. cbn [length]. split; [reflexivity|lia].
Qed.

(** X8. The aggregator is all or nothing: when the API serves [k < 100]
    pages, each announcing another one, and then rejects the next request,
    [sendSevenApiRequestAllItems] throws the [NodeApiError] of that
    rejection after [k + 1] requests, and the items of the pages already
    fetched are not returned. *)
Theorem sendSevenApiRequestAllItems_all_or_nothing (k : nat)
    (error : value) (fuel : nat) (w : World nat) :
  remote w = 0%nat ->
  (forall i, (i < k)%nat ->
     exists items, responses i = Resolved (moreResponse items)) ->
  responses k = Rejected error ->
  nullish error = false ->
  (k < 100)%nat ->
  (100 <= fuel)%nat ->
  let run := sendSevenApiRequestAllItems (scriptedApi oauth responses)
               lt_other fuel endpoint query "items" w in
  fst run = Throw (NodeApiError error (bestEffortMessage error))
  /\ length (requests (snd run))
     = (length (requests w) + Datatypes.S k)%nat.
Proof.
  intros Hw Hok Hfail Hn Hk Hf. cbv zeta.
  unfold sendSevenApiRequestAllItems.
  replace 1%Z with (Z.of_nat (remote w) + 1)%Z by (rewrite Hw; reflexivity).
  destruct (allItemsLoop_fails k error fuel [] w) as [Hr Hq];
    try assumption; try lia.
  cbv zeta in Hr, Hq. rewrite Hr, Hq, Hw.
  replace (Datatypes.S k - 0)%nat with (Datatypes.S k) by lia.
  split; reflexivity.
Qed.

End PaginationProperties.

(** Witness for X5: the endless API, asked with a filter. *)
Lemma sendSevenApiRequestAllItems_requests_witness :
  (100 <= 100)%nat
  /\ exists added n,
       requests
         (snd (GenericFunctions.sendSevenApiRequestAllItems
                 Simulation.endlessApi Simulation.lt_never 100 "/contacts"
                 [("search", VStr "ada")] "items"
                 (Simulation.startWorld 0%nat)))
       = (requests (Simulation.startWorld 0%nat) ++ added)%list
       /\ (1 <= n <= 100)%nat
       /\ map snd added =
            map (fun k =>
                   {| method := "GET";
                      url := GenericFunctions.API_BASE_URL ++ "/contacts";
                      qs := Some (GenericFunctions.pageQuery
                                    [("search", VStr "ada")] (Z.of_nat k));
                      body := None;
                      json := true |})
                (seq 1 n).
Proof.
  split; [lia|].
  apply (sendSevenApiRequestAllItems_requests Simulation.lt_never
           "/contacts" [("search", VStr "ada")] Simulation.endlessApi
           "items" 100 (Simulation.startWorld 0%nat)).
  lia.
Defined.

(** Witness for X6: 120 pages behind the API. *)
Lemma sendSevenApiRequestAllItems_truncates_witness :
  (100 <= length Doubles.manyPages)%nat
  /\ fst (GenericFunctions.sendSevenApiRequestAllItems
            (Simulation.pagedApi true Doubles.manyPages)
            Simulation.lt_never 100 "/tags" [] "items"
            (Simulation.startWorld tt))
     = Ok (concat (firstn 100 Doubles.manyPages)).
Proof.
  assert (H : (100 <= length Doubles.manyPages)%nat).
  { unfold Doubles.manyPages. rewrite repeat_length. lia. }
  split; [exact H|].
  apply (sendSevenApiRequestAllItems_truncates Simulation.lt_never "/tags"
           [] true Doubles.manyPages 100 (Simulation.startWorld tt) H).
  lia.
Defined.

(** Witness for X7: two full pages and a short one, no envelope. *)
Lemma sendSevenApiRequestAllItems_without_envelope_witness :
  fst (GenericFunctions.sendSevenApiRequestAllItems
         (Doubles.bareApi false Simulation.samplePages)
         Simulation.lt_never 100 "/contacts" [] "items"
         (Simulation.startWorld tt))
  = Ok (concat (firstn 3 Simulation.samplePages))
  /\ length (requests
               (snd (GenericFunctions.sendSevenApiRequestAllItems
                       (Doubles.bareApi false Simulation.samplePages)
                       Simulation.lt_never 100 "/contacts" [] "items"
                       (Simulation.startWorld tt))))
     = (length (requests (Simulation.startWorld tt)) + 3)%nat.
Proof.
  apply (sendSevenApiRequestAllItems_without_envelope Simulation.lt_never
           "/contacts" [] false Simulation.samplePages 2 100
           (Simulation.startWorld tt)).
  - intros [|[|j]] Hj; [reflexivity|reflexivity|lia].
  - simpl. discriminate.
  - lia.
  - lia.
Defined.

(** Witness for X8: the second request fails. *)
Lemma sendSevenApiRequestAllItems_all_or_nothing_witness :
  fst (GenericFunctions.sendSevenApiRequestAllItems
         (Doubles.scriptedApi true Doubles.failsSecond)
         Simulation.lt_never 100 "/contacts" [] "items"
         (Simulation.startWorld 0%nat))
  = Throw (NodeApiError Simulation.sampleError
             (Reading.bestEffortMessage Simulation.sampleError))
  /\ length (requests
               (snd (GenericFunctions.sendSevenApiRequestAllItems
                       (Doubles.scriptedApi true Doubles.failsSecond)
                       Simulation.lt_never 100 "/contacts" [] "items"
                       (Simulation.startWorld 0%nat))))
     = (length (requests (Simulation.startWorld 0%nat)) + 2)%nat.
Proof.
  apply (sendSevenApiRequestAllItems_all_or_nothing Simulation.lt_never
           "/contacts" [] true Doubles.failsSecond 1
           Simulation.sampleError 100 (Simulation.startWorld 0%nat)).
  - reflexivity.
  - intros [|i] Hi; [|lia]. eexists. reflexivity.
  - reflexivity.
  - reflexivity.
  - lia.
  - lia.
Defined.

(* ================================================================== *)
(** ** Rules for what a computation throws and logs *)
(* ================================================================== *)

Section Rules.

Import GenericFunctions Laws.

Context {S : Type}.

Lemma throws_ret {A} (P : exn -> Prop) (a : A) :
  throws_only P (ret a : M S A).
Proof. intros w e H. discriminate. Qed.

Lemma throws_throw {A} (P : exn -> Prop) (e : exn) :
  P e -> throws_only P (throw e : M S A).
Proof. intros HP w e' H. injection H as <-. exact HP. Qed.

Lemma throws_lift {A} (P : exn -> Prop) (r : outcome A) :
  (forall e, r = Throw e -> P e) -> throws_only P (lift r : M S A).
Proof. intros H w e He. apply H. exact He. Qed.

Lemma throws_bind {A B} (P : exn -> Prop) (c : M S A) (k : A -> M S B) :
  throws_only P c -> (forall a, throws_only P (k a)) ->
  throws_only P (bind c k).
Proof.
  intros Hc Hk w e. unfold bind. specialize (Hc w).
  destruct (c w) as [[a|e'|] w1]; cbn [fst] in *.
  - apply Hk.
  - intros H. injection H as <-. now apply Hc.
  - discriminate.
Qed.

Lemma quiet_of_throws {A} (c : M S A) :
  throws_only afterRequest c -> quiet_failures c.
Proof. intros H w e He Hn. elim Hn. exact (H w e He). Qed.

Lemma quiet_ret {A} (a : A) : quiet_failures (ret a : M S A).
Proof. intros w e H. discriminate. Qed.

Lemma quiet_bind_lift {A B} (r : outcome A) (k : A -> M S B) :
  (forall a, r = Ok a -> quiet_failures (k a)) ->
  quiet_failures (bind (lift r) k).
Proof.
  intros Hk w e. unfold bind, lift.
  destruct r as [a|e'|]; cbn [fst snd].
  - apply (Hk a eq_refl).
  - reflexivity.
  - reflexivity.
Qed.

Lemma fueled_ret {A} (a : A) : fueled (ret a : M S A).
Proof. intros w. discriminate. Qed.

Lemma fueled_throw {A} (e : exn) : fueled (throw e : M S A).
Proof. intros w. discriminate. Qed.

Lemma fueled_lift {A} (r : outcome A) :
  r <> OutOfFuel -> fueled (lift r : M S A).
Proof. intros H w. exact H. Qed.

Lemma fueled_bind {A B} (c : M S A) (k : A -> M S B) :
  fueled c -> (forall a, fueled (k a)) -> fueled (bind c k).
Proof.
  intros Hc Hk w. unfold bind. specialize (Hc w).
  destruct (c w) as [[a|e'|] w1]; cbn [fst] in *.
  - apply Hk.
  - discriminate.
  - congruence.
Qed.

Lemma fueled_try_catch {A} (c : M S A) (h : exn -> M S A) :
  fueled c -> (forall e, fueled (h e)) -> fueled (try_catch c h).
Proof.
  intros Hc Hh w. unfold try_catch. specialize (Hc w).
  destruct (c w) as [[a|e'|] w1]; cbn [fst] in *.
  - discriminate.
  - apply Hh.
  - congruence.
Qed.

Lemma logs_ret {A} P (a : A) : logs P (ret a : M S A).
Proof. intros w. exists []. now rewrite app_nil_r. Qed.

Lemma logs_throw {A} P (e : exn) : logs P (throw e : M S A).
Proof. intros w. exists []. now rewrite app_nil_r. Qed.

Lemma logs_lift {A} P (r : outcome A) : logs P (lift r : M S A).
Proof. intros w. exists []. now rewrite app_nil_r. Qed.

Lemma logs_bind {A B} P (c : M S A) (k : A -> M S B) :
  logs P c -> (forall a, logs P (k a)) -> logs P (bind c k).
Proof.
  intros Hc Hk w. unfold bind. destruct (Hc w) as [added [Ha HP]].
  destruct (c w) as [[a|e'|] w1]; cbn [snd] in *;
    try (exists added; now split).
  destruct (Hk a w1) as [added' [Ha' HP']].
  exists (added ++ added')%list. split.
  - rewrite Ha', Ha. now rewrite app_assoc.
  - apply Forall_app. now split.
Qed.

Lemma logs_try_catch {A} P (c : M S A) (h : exn -> M S A) :
  logs P c -> (forall e, logs P (h e)) -> logs P (try_catch c h).
Proof.
  intros Hc Hh w. unfold try_catch. destruct (Hc w) as [added [Ha HP]].
  destruct (c w) as [[a|e'|] w1]; cbn [snd] in *;
    try (exists added; now split).
  destruct (Hh e' w1) as [added' [Ha' HP']].
  exists (added ++ added')%list. split.
  - rewrite Ha', Ha. now rewrite app_assoc.
  - apply Forall_app. now split.
Qed.

Variable this : Context S.

Lemma getErrorMessage_throws (error : value) (e : exn) :
  getErrorMessage error = Throw e -> e = TypeError.
Proof.
  unfold getErrorMessage, get.
  destruct (nullish error); [congruence|].
  destruct (truthy (member error "response")).
  - destruct (truthy (member (member error "response") "body")).
    + destruct (truthy (member (member (member error "response") "body")
                          "detail")); [discriminate|].
      destruct (truthy (member (member (member error "response") "body")
                          "message")); [discriminate|].
      destruct (truthy (member error "message")); discriminate.
    + destruct (truthy (member error "message")); discriminate.
  - destruct (truthy (member error "message")); discriminate.
Qed.

Lemma throws_request (m e : string) (b q : obj) :
  throws_only afterRequest (sendSevenApiRequest this m e b q).
Proof.
  intros w x. rewrite sendSevenApiRequest_run.
  destruct (getCredentials this "sendSevenOAuth2Api" (remote w)) as [c s1].
  cbv zeta.
  match goal with
  | |- context [httpRequestWithAuthentication this ?c ?o ?s] =>
      destruct (httpRequestWithAuthentication this c o s) as [r s2]
  end.
  destruct r as [response|err]; cbn [fst]; [discriminate|].
  destruct (getErrorMessage err) eqn:E; try discriminate.
  - intros H. injection H as <-. exact I.
  - intros H. injection H as <-.
    apply getErrorMessage_throws in E. subst. exact I.
Qed.

Lemma fueled_request (m e : string) (b q : obj) :
  fueled (sendSevenApiRequest this m e b q).
Proof. intros w. apply sendSevenApiRequest_fuel. Qed.

Lemma requestOptions_url (m e : string) (b q : obj) :
  url (requestOptions m e b q) = API_BASE_URL ++ e
  /\ json (requestOptions m e b q) = true.
Proof.
  unfold requestOptions.
  destruct ((m =? "GET") || (keys_length b =? 0)%nat),
    (keys_length q =? 0)%nat; split; reflexivity.
Qed.

Lemma logs_request (m e : string) (b q : obj) :
  atResource e = true ->
  logs toApi (sendSevenApiRequest this m e b q).
Proof.
  intros He w. rewrite sendSevenApiRequest_run.
  destruct (getCredentials this "sendSevenOAuth2Api" (remote w)) as [c s1].
  cbv zeta.
  match goal with
  | |- context [httpRequestWithAuthentication this ?c ?o ?s] =>
      destruct (httpRequestWithAuthentication this c o s) as [r s2];
      exists [(c, o)]
  end.
  destruct (requestOptions_url m e b q) as [Hu Hj].
  split; [destruct r; reflexivity|].
  constructor; [|constructor].
  unfold toApi. cbn [fst snd]. rewrite Hu, Hj.
  split; [destruct c; tauto|]. split; [|reflexivity].
  exists e. split; [reflexivity|exact He].
Qed.

Variable lt_other : value -> value -> bool.

Lemma get_throws (v : value) (k : string) (e : exn) :
  get v k = Throw e -> afterRequest e.
Proof.
  unfold get. destruct (nullish v); [|discriminate].
  intros H. injection H as <-. exact I.
Qed.

Lemma spread_throws (v : value) (e : exn) :
  spread v = Throw e -> afterRequest e.
Proof. destruct v; try discriminate; intros H; injection H as <-; exact I. Qed.

Lemma throws_allItemsLoop (endpoint : string) (query : obj)
    (itemsKey : string) (fuel : nat) :
  forall page acc,
    throws_only afterRequest
      (allItemsLoop this lt_other fuel endpoint query itemsKey page acc).
Proof.
  induction fuel as [|fuel IH]; intros page acc; [intros w e; discriminate|].
  cbn [allItemsLoop].
  apply throws_bind; [apply throws_request|intros response].
  apply throws_bind; [apply throws_lift, get_throws|intros found].
  apply throws_bind; [apply throws_lift, spread_throws|intros pushed].
  cbv zeta. destruct (100 <? page + 1)%Z; [apply throws_ret|].
  destruct (hasMoreAfter lt_other response (js_or found (VArr [])));
    [apply IH|apply throws_ret].
Qed.

Lemma logs_allItemsLoop (endpoint : string) (query : obj)
    (itemsKey : string) (fuel : nat) :
  atResource endpoint = true ->
  forall page acc,
    logs toApi
      (allItemsLoop this lt_other fuel endpoint query itemsKey page acc).
Proof.
  intros He. induction fuel as [|fuel IH]; intros page acc.
  - intros w. exists []. now rewrite app_nil_r.
  - cbn [allItemsLoop].
    apply logs_bind; [apply logs_request; exact He|intros response].
    apply logs_bind; [apply logs_lift|intros found].
    apply logs_bind; [apply logs_lift|intros pushed].
    cbv zeta. destruct (100 <? page + 1)%Z; [apply logs_ret|].
    destruct (hasMoreAfter lt_other response (js_or found (VArr [])));
      [apply IH|apply logs_ret].
Qed.

Lemma fueled_allItems (endpoint : string) (query : obj) (itemsKey : string)
    (fuel : nat) :
  (100 <= fuel)%nat ->
  fueled (sendSevenApiRequestAllItems this lt_other fuel endpoint query
            itemsKey).
Proof.
  intros Hf w. unfold sendSevenApiRequestAllItems.
  destruct (allItemsLoop_bounded this lt_other endpoint query itemsKey fuel
              1%Z [] w) as [H _]; [lia|simpl; lia|exact H].
Qed.

End Rules.

(* ================================================================== *)
(** ** Properties of [execute] *)
(* ================================================================== *)

Section ExecuteProperties.

Import GenericFunctions SendSeven SendSevenExecute Laws Reading.

Context {S : Type}.
Variable this : Context S.
Variable JSON_parse : string -> option value.
Variable lt_other : value -> value -> bool.
Variable fuel : nat.

Lemma throws_allItems (endpoint : string) (query : obj) (itemsKey : string) :
  throws_only afterRequest
    (sendSevenApiRequestAllItems this lt_other fuel endpoint query itemsKey).
Proof. apply throws_allItemsLoop. Qed.

Lemma logs_allItems (endpoint : string) (query : obj) (itemsKey : string) :
  atResource endpoint = true ->
  logs toApi
    (sendSevenApiRequestAllItems this lt_other fuel endpoint query itemsKey).
Proof.
  intros He. unfold sendSevenApiRequestAllItems.
  apply logs_allItemsLoop. exact He.
Qed.

Lemma atResource_templates (channelId : string) :
  atResource (templatesEndpoint channelId) = true.
Proof.
  unfold templatesEndpoint.
  destruct (truthy (VStr channelId)); reflexivity.
Qed.

Lemma map_outcome_throws {A B} (P : exn -> Prop) (f : A -> outcome B)
    (l : list A) (e : exn) :
  (forall x e', f x = Throw e' -> P e') ->
  map_outcome f l = Throw e -> P e.
Proof.
  intros Hf. induction l as [|x rest IH]; simpl; [discriminate|].
  destruct (f x) eqn:Ex; simpl; try discriminate.
  - destruct (map_outcome f rest); simpl; try discriminate.
    intros H. apply IH. exact H.
  - intros H. injection H as <-. eapply Hf. exact Ex.
Qed.

Lemma map_outcome_fuel {A B} (f : A -> outcome B) (l : list A) :
  (forall x, f x <> OutOfFuel) -> map_outcome f l <> OutOfFuel.
Proof.
  intros Hf. induction l as [|x rest IH]; simpl; [discriminate|].
  specialize (Hf x). destruct (f x); simpl; try congruence.
  destruct (map_outcome f rest); simpl; congruence.
Qed.

Lemma arrayMap_throws (f : value -> value) (v : value) (e : exn) :
  arrayMap f v = Throw e -> afterRequest e.
Proof.
  unfold arrayMap. destruct v; try (intros H; injection H as <-; exact I).
  destruct (map_outcome
              (fun x => if nullish x then Throw TypeError else Ok (f x))
              elems) eqn:E; simpl; try discriminate.
  intros H. injection H as <-.
  eapply map_outcome_throws; [|exact E].
  intros x e'. cbv beta. destruct (nullish x); [|discriminate].
  intros Hx. injection Hx as <-. exact I.
Qed.

Lemma arrayMap_fuel (f : value -> value) (v : value) :
  arrayMap f v <> OutOfFuel.
Proof.
  unfold arrayMap. destruct v; try discriminate.
  assert (H : map_outcome
                (fun x => if nullish x then Throw TypeError else Ok (f x))
                elems <> OutOfFuel).
  { apply map_outcome_fuel. intros x. destruct (nullish x); discriminate. }
  destruct (map_outcome _ elems); simpl; congruence.
Qed.

Lemma validateRequiredFields_fuel (fields : obj) (required : list string) :
  validateRequiredFields fields required <> OutOfFuel.
Proof.
  induction required as [|k rest IH]; simpl; [discriminate|].
  destruct (reads_truthy fields k); simpl; [exact IH|discriminate].
Qed.

Lemma contactUpdateBody_fuel (name email phone : string) (af : obj) :
  contactUpdateBody JSON_parse name email phone af <> OutOfFuel.
Proof.
  unfold contactUpdateBody.
  destruct (truthy (field af "customFields")); [|discriminate].
  destruct (field af "customFields"); try discriminate.
  destruct (JSON_parse s); discriminate.
Qed.

Lemma contactCreateBody_fuel (email phone name : string) (af : obj) :
  contactCreateBody JSON_parse email phone name af <> OutOfFuel.
Proof.
  unfold contactCreateBody.
  destruct (negb (truthy (VStr email)) && negb (truthy (VStr phone)));
    [discriminate|].
  destruct (truthy (field af "customFields")); [|discriminate].
  destruct (field af "customFields"); try discriminate.
  destruct (JSON_parse s); discriminate.
Qed.

Lemma templateObject_fuel (n l : string) (variables : value) :
  templateObject lt_other n l variables <> OutOfFuel.
Proof.
  unfold templateObject.
  destruct (js_gt lt_other (member variables "length") (VNum 0));
    [|discriminate].
  destruct variables; try discriminate.
  match goal with
  | |- obind (map_outcome ?f ?l) _ <> _ =>
      assert (H : map_outcome f l <> OutOfFuel);
      [|destruct (map_outcome f l); simpl; congruence]
  end.
  apply map_outcome_fuel. intros x. unfold get.
  destruct (nullish x); discriminate.
Qed.

Lemma whatsappTemplateSendBody_fuel (c t n l : string) (v : obj) :
  whatsappTemplateSendBody lt_other c t n l v <> OutOfFuel.
Proof.
  unfold whatsappTemplateSendBody.
  pose proof (validateRequiredFields_fuel
                [("channelId", VStr c); ("to", VStr t);
                 ("templateName", VStr n)]
                ["channelId"; "to"; "templateName"]) as Hv.
  destruct (validateRequiredFields _ _); simpl; try congruence.
  pose proof (templateObject_fuel n l
                (js_or (field v "variables") (VArr []))) as Ht.
  destruct (templateObject _ _ _ _); simpl; congruence.
Qed.

Ltac throws_tac :=
  repeat first
    [ apply throws_ret
    | apply throws_request
    | apply throws_allItems
    | apply throws_throw; exact I
    | apply throws_bind; [|intros ?]
    | apply throws_lift; solve [eauto using get_throws, arrayMap_throws]
    | match goal with
      | |- throws_only _ (if ?b then _ else _) => destruct b
      | |- throws_only _ (match ?x with _ => _ end) => destruct x
      end ].

Ltac quiet_tac :=
  repeat first
    [ apply quiet_ret
    | apply quiet_bind_lift; intros ? _
    | match goal with
      | |- quiet_failures (if ?b then _ else _) => destruct b
      | |- quiet_failures (match ?x with _ => _ end) => destruct x
      end
    | apply quiet_of_throws; solve [throws_tac] ].

Ltac logs_tac :=
  repeat first
    [ apply logs_ret
    | apply logs_throw
    | apply logs_lift
    | apply logs_request; solve [reflexivity | apply atResource_templates]
    | apply logs_allItems;
      solve [reflexivity | apply atResource_templates]
    | apply logs_bind; [|intros ?]
    | match goal with
      | |- logs _ (if ?b then _ else _) => destruct b
      | |- logs _ (match ?x with _ => _ end) => destruct x
      end ].

Ltac unfold_operations :=
  unfold executeItem, messageSend, contactCreate, contactUpdate, contactGet,
    contactSearch, contactAddTag, conversationGet, conversationSearch,
    conversationClose, conversationAssign, whatsappTemplateSend,
    whatsappTemplateList, listing, formatResponse.

Lemma quiet_executeItem (resource operation : string) (p : NodeParameters) :
  quiet_failures
    (executeItem this JSON_parse lt_other fuel resource operation p).
Proof. unfold_operations. quiet_tac. Qed.

Lemma logs_executeItem (resource operation : string) (p : NodeParameters) :
  logs toApi (executeItem this JSON_parse lt_other fuel resource operation p).
Proof. unfold_operations. logs_tac. Qed.

Ltac fueled_tac Hf :=
  repeat first
    [ apply fueled_ret
    | apply fueled_throw
    | apply fueled_request
    | apply fueled_allItems; exact Hf
    | apply fueled_bind; [|intros ?]
    | apply fueled_lift;
      solve [ apply get_fuel | apply arrayMap_fuel
            | apply validateRequiredFields_fuel
            | apply contactUpdateBody_fuel | apply contactCreateBody_fuel
            | apply whatsappTemplateSendBody_fuel ]
    | match goal with
      | |- fueled (if ?b then _ else _) => destruct b
      | |- fueled (match ?x with _ => _ end) => destruct x
      end ].

Lemma fueled_executeItem (resource operation : string) (p : NodeParameters) :
  (100 <= fuel)%nat ->
  fueled (executeItem this JSON_parse lt_other fuel resource operation p).
Proof. intros Hf. unfold_operations. fueled_tac Hf. Qed.

(** X9. In every operation of [execute], a failure that is neither the
    [NodeApiError] of a rejected request nor a [TypeError] (so: a missing
    required parameter, a contact without email and phone, custom fields
    that are not JSON) is raised before any request is made: the world,
    log included, is as it was. *)
Theorem executeItem_fails_before_request
    (resource operation : string) (p : NodeParameters) (w : World S)
    (e : exn) :
  fst (executeItem this JSON_parse lt_other fuel resource operation p w)
    = Throw e ->
  ~ afterRequest e ->
  snd (executeItem this JSON_parse lt_other fuel resource operation p w) = w.
Proof. apply quiet_executeItem. Qed.

Variable exn_message : exn -> value.
Variable params : nat -> NodeParameters.
Variables (resource operation : string).

Lemma logs_executeLoop (continueOnFail : bool) (indices : list nat) :
  forall returnData,
    logs toApi
      (executeLoop this JSON_parse lt_other fuel continueOnFail exn_message
         params resource operation indices returnData).
Proof.
  induction indices as [|i rest IH]; intros returnData; cbn [executeLoop].
  - apply logs_ret.
  - apply logs_bind; [|intros rd; apply IH].
    apply logs_try_catch.
    + apply logs_bind; [apply logs_executeItem|intros r; apply logs_ret].
    + intros e. destruct continueOnFail; [apply logs_ret|apply logs_throw].
Qed.

(** X10. Whatever the parameters, the items and the remote API do,
    [execute] only appends to the log of requests, and every request it
    adds is authenticated with one of the node's two credential types, is
    sent as JSON, and has as its URL the text of [API_BASE_URL] followed by
    an endpoint that starts with [/messages], [/contacts],
    [/conversations] or [/whatsapp-templates]: scheme and host are always
    those of the API.  The ids that the operations put into an endpoint
    are inserted as they are, so this is a statement about the URL as
    text, not about the path it resolves to. *)
Theorem execute_requests_to_api (continueOnFail : bool) (items : nat)
    (w : World S) :
  exists added,
    requests
      (snd (execute this JSON_parse lt_other fuel continueOnFail exn_message
              params resource operation items w))
    = (requests w ++ added)%list
    /\ Forall toApi added.
Proof.
  unfold execute.
  apply (logs_bind toApi); [apply logs_executeLoop|intros rd; apply logs_ret].
Qed.

Lemma executeLoop_continues (indices : list nat) :
  (100 <= fuel)%nat ->
  forall returnData w,
    exists result,
      fst (executeLoop this JSON_parse lt_other fuel true exn_message params
             resource operation indices returnData w) = Ok result
      /\ (length returnData <= length result)%nat.
Proof.
  intros Hf.
  induction indices as [|i rest IH]; intros returnData w; cbn [executeLoop].
  - exists returnData. split; [reflexivity|lia].
  - unfold bind at 1. unfold try_catch, bind, ret.
    pose proof (fueled_executeItem resource operation (params i) Hf w) as Hi.
    destruct (executeItem this JSON_parse lt_other fuel resource operation
                (params i) w) as [[r|e|] w1]; cbn [fst] in Hi;
      [| |congruence].
    + destruct (IH (pushResponse returnData r) w1) as [result [Hr Hl]].
      exists result. split; [exact Hr|].
      assert (length returnData <= length (pushResponse returnData r))%nat.
      { unfold pushResponse.
        destruct r; try (destruct (truthy _)); rewrite ?length_app; lia. }
      lia.
    + match goal with
      | |- context [executeLoop _ _ _ _ _ _ _ _ _ _ ?rd w1] =>
          destruct (IH rd w1) as [result [Hr Hl]]
      end.
      exists result. split; [exact Hr|].
      rewrite length_app in Hl. simpl in Hl. lia.
Qed.

(** X11. With [continueOnFail] set, [execute] never throws: whatever
    the items and the remote API do, it returns one list of output
    entries. *)
Theorem execute_continueOnFail_returns (items : nat) (w : World S) :
  (100 <= fuel)%nat ->
  exists returnData,
    fst (execute this JSON_parse lt_other fuel true exn_message params
           resource operation items w) = Ok [returnData].
Proof.
  intros Hf. unfold execute, bind, ret.
  destruct (executeLoop_continues (seq 0 items) Hf [] w) as [result [Hr _]].
  destruct (executeLoop this JSON_parse lt_other fuel true exn_message params
              resource operation (seq 0 items) [] w) as [r w1].
  cbn [fst] in Hr. subst r. exists result. reflexivity.
Qed.

(** X12. Without [continueOnFail], [execute] stops at the first failure:
    when the first item fails, [execute] throws that exception, returns no
    output, and leaves the world as that item left it (the other items
    are not processed). *)
Theorem execute_fails_fast (more : nat) (w : World S) (e : exn) :
  fst (executeItem this JSON_parse lt_other fuel resource operation
         (params 0%nat) w) = Throw e ->
  execute this JSON_parse lt_other fuel false exn_message params resource
    operation (Datatypes.S more) w
  = (Throw e,
     snd (executeItem this JSON_parse lt_other fuel resource operation
            (params 0%nat) w)).
Proof.
  intros He. unfold execute. cbn [seq executeLoop].
  unfold bind, try_catch, ret, throw.
  destruct (executeItem this JSON_parse lt_other fuel resource operation
              (params 0%nat) w) as [r w1].
  cbn [fst] in He. subst r. reflexivity.
Qed.

Lemma executeItem_unsupported (p : NodeParameters) :
  ~ In (resource, operation) supported ->
  executeItem this JSON_parse lt_other fuel resource operation p
  = ret (VObj []).
Proof.
  intros Hnot. unfold executeItem.
  repeat match goal with
         | |- context [resource =? ?lit] =>
             destruct (String.eqb_spec resource lit) as [Hr|_];
             [|try reflexivity]
         | |- context [operation =? ?lit] =>
             destruct (String.eqb_spec operation lit) as [Ho|_];
             [exfalso; apply Hnot; rewrite Hr, Ho; simpl; tauto|
              try reflexivity]
         end.
Qed.

Lemma executeLoop_unsupported (continueOnFail : bool) (indices : list nat) :
  ~ In (resource, operation) supported ->
  forall returnData w,
    executeLoop this JSON_parse lt_other fuel continueOnFail exn_message
      params resource operation indices returnData w
    = (Ok (returnData
           ++ repeat (VObj [("json", VObj [])]) (length indices))%list, w).
Proof.
  intros Hnot.
  induction indices as [|i rest IH]; intros returnData w; cbn [executeLoop].
  - simpl. now rewrite app_nil_r.
  - unfold bind at 1. unfold try_catch, bind.
    rewrite (executeItem_unsupported (params i) Hnot).
    unfold ret at 1 2. cbn [pushResponse truthy].
    rewrite IH. simpl. now rewrite <- app_assoc.
Qed.

(** X13. For a resource and operation pair [execute] has no branch for,
    nothing is requested and nothing fails: every input item yields the
    output entry [{json: {}}]. *)
Theorem execute_unsupported (continueOnFail : bool) (items : nat)
    (w : World S) :
  ~ In (resource, operation) supported ->
  execute this JSON_parse lt_other fuel continueOnFail exn_message params
    resource operation items w
  = (Ok [repeat (VObj [("json", VObj [])]) items], w).
Proof.
  intros Hnot. unfold execute, bind.
  rewrite (executeLoop_unsupported continueOnFail (seq 0 items) Hnot).
  now rewrite length_seq.
Qed.

End ExecuteProperties.

(** Witness for X9: a message send with nothing filled in. *)
Lemma executeItem_fails_before_request_witness :
  snd (SendSevenExecute.executeItem (Simulation.constantApi true (VObj []))
         Simulation.parse_sample Simulation.lt_never 100 "message" "send"
         Doubles.emptyParameters (Simulation.startWorld tt))
  = Simulation.startWorld tt.
Proof.
  eapply (executeItem_fails_before_request
            (Simulation.constantApi true (VObj []))
            Simulation.parse_sample Simulation.lt_never 100 "message" "send"
            Doubles.emptyParameters (Simulation.startWorld tt)).
  - reflexivity.
  - intros [].
Defined.

(** Witness for X11: two contacts to get, no id given, failures kept. *)
Lemma execute_continueOnFail_returns_witness :
  exists returnData,
    fst (SendSevenExecute.execute (Simulation.constantApi true (VObj []))
           Simulation.parse_sample Simulation.lt_never 100 true
           Doubles.message_of (fun _ => Doubles.emptyParameters)
           "contact" "get" 2 (Simulation.startWorld tt))
    = Ok [returnData].
Proof.
  apply (execute_continueOnFail_returns
           (Simulation.constantApi true (VObj []))
           Simulation.parse_sample Simulation.lt_never 100
           Doubles.message_of (fun _ => Doubles.emptyParameters)
           "contact" "get" 2 (Simulation.startWorld tt)).
  lia.
Defined.

(** Witness for X12: three messages to send, the first one empty. *)
Lemma execute_fails_fast_witness :
  SendSevenExecute.execute (Simulation.constantApi true (VObj []))
    Simulation.parse_sample Simulation.lt_never 100 false
    Doubles.message_of (fun _ => Doubles.emptyParameters)
    "message" "send" 3 (Simulation.startWorld tt)
  = (Throw (NodeOperationError
              ("The " ++ GenericFunctions.dquote ++ "channelId"
               ++ GenericFunctions.dquote ++ " field is required")),
     Simulation.startWorld tt).
Proof.
  apply (execute_fails_fast (Simulation.constantApi true (VObj []))
           Simulation.parse_sample Simulation.lt_never 100
           Doubles.message_of (fun _ => Doubles.emptyParameters)
           "message" "send" 2 (Simulation.startWorld tt)).
  reflexivity.
Defined.

(** Witness for X13: a resource the node does not know. *)
Lemma execute_unsupported_witness :
  SendSevenExecute.execute (Simulation.constantApi true (VObj []))
    Simulation.parse_sample Simulation.lt_never 100 false
    Doubles.message_of (fun _ => Doubles.emptyParameters)
    "ticket" "create" 2 (Simulation.startWorld tt)
  = (Ok [ [ VObj [("json", VObj [])]; VObj [("json", VObj [])] ] ],
     Simulation.startWorld tt).
Proof.
  apply (execute_unsupported (Simulation.constantApi true (VObj []))
           Simulation.parse_sample Simulation.lt_never 100
           Doubles.message_of (fun _ => Doubles.emptyParameters)
           "ticket" "create" false 2 (Simulation.startWorld tt)).
  simpl. intuition congruence.
Defined.

(* ================================================================== *)
(** ** Properties of single operations *)
(* ================================================================== *)

Section OperationProperties.

Import GenericFunctions SendSeven SendSevenExecute Reading.

Context {S : Type}.
Variable this : Context S.
Variable JSON_parse : string -> option value.
Variable lt_other : value -> value -> bool.
Variable fuel : nat.

(** X14. A contact update builds its body the way a contact create
    does: whenever the create accepts the input (an email or a phone is
    given), both build the same body or fail the same way. *)
Theorem contactUpdateBody_as_create
    (name email phone : string) (additionalFields : obj) :
  email <> EmptyString \/ phone <> EmptyString ->
  contactUpdateBody JSON_parse name email phone additionalFields
  = contactCreateBody JSON_parse email phone name additionalFields.
Proof.
  intros Hreq.
  rewrite (contactCreateBody_cases JSON_parse email phone name
             additionalFields Hreq).
  reflexivity.
Qed.

Lemma set_if_falsy (c : value) (o : obj) (k : string) (v : value) :
  truthy c = false -> set_if c o k v = o.
Proof. unfold set_if. now intros ->. Qed.

(** X15. A contact update in which no field is filled in is still sent:
    one PUT to [/contacts/<id>], without a body. *)
Theorem contactUpdate_nothing_to_change
    (contactId : string) (additionalFields : obj) (w : World S) :
  contactId <> EmptyString ->
  (forall k, In k ["firstName"; "lastName"; "company"; "notes";
                   "customFields"] ->
             truthy (field additionalFields k) = false) ->
  exists cred,
    requests (snd (contactUpdate this JSON_parse contactId EmptyString
                     EmptyString EmptyString additionalFields w))
    = (requests w ++
       [(cred, {| method := "PUT";
                  url := API_BASE_URL ++ "/contacts/" ++ contactId;
                  qs := None;
                  body := None;
                  json := true |})])%list.
Proof.
  intros Hid Hempty. unfold contactUpdate.
  apply truthy_str in Hid.
  cbn [validateRequiredFields].
  rewrite reads_truthy_own by reflexivity.
  cbn [field String.eqb Ascii.eqb Bool.eqb].
  rewrite Hid. cbn [negb].
  unfold contactUpdateBody, plainFields.
  rewrite !set_if_falsy by (try reflexivity; apply Hempty; simpl; tauto).
  rewrite (Hempty "customFields") by (simpl; tauto).
  unfold bind at 1 2. unfold lift.
  destruct (sendSevenApiRequest_log this "PUT" ("/contacts/" ++ contactId)
              [] [] w) as [cred Hlog].
  exists cred.
  change {| method := "PUT"; url := API_BASE_URL ++ "/contacts/" ++ contactId;
            qs := None; body := None; json := true |}
    with (requestOptions "PUT" ("/contacts/" ++ contactId) [] []).
  unfold bind, formatResponse.
  destruct (sendSevenApiRequest this "PUT" ("/contacts/" ++ contactId) [] [] w)
    as [[r| |] w1]; try exact Hlog.
  unfold throw, ret. destruct (nullish r); exact Hlog.
Qed.


End OperationProperties.

(** Witness for X14: a contact with an email. *)
Lemma contactUpdateBody_as_create_witness :
  SendSevenExecute.contactUpdateBody Simulation.parse_sample "Ada"
    "ada@example.com" EmptyString Simulation.sampleAdditionalFields
  = SendSeven.contactCreateBody Simulation.parse_sample "ada@example.com"
      EmptyString "Ada" Simulation.sampleAdditionalFields.
Proof.
  apply (contactUpdateBody_as_create Simulation.parse_sample "Ada"
           "ada@example.com" EmptyString Simulation.sampleAdditionalFields).
  left. discriminate.
Defined.

(** Witness for X15: an update of contact [c_1] with empty notes only. *)
Lemma contactUpdate_nothing_to_change_witness :
  exists cred,
    requests
      (snd (SendSevenExecute.contactUpdate
              (Simulation.constantApi false (VObj []))
              Simulation.parse_sample "c_1" EmptyString EmptyString
              EmptyString [("notes", VStr EmptyString)]
              (Simulation.startWorld tt)))
    = (requests (Simulation.startWorld tt) ++
       [(cred, {| method := "PUT";
                  url := GenericFunctions.API_BASE_URL ++ "/contacts/"
                         ++ "c_1";
                  qs := None;
                  body := None;
                  json := true |})])%list.
Proof.
  apply (contactUpdate_nothing_to_change
           (Simulation.constantApi false (VObj []))
           Simulation.parse_sample "c_1" [("notes", VStr EmptyString)]
           (Simulation.startWorld tt)).
  - discriminate.
  - intros k Hk. simpl in Hk.
    destruct Hk as [<-|[<-|[<-|[<-|[<-|[]]]]]]; reflexivity.
Defined.


(* ================================================================== *)
(** ** Properties of the option loaders *)
(* ================================================================== *)

Section LoadOptionsProperties.

Import GenericFunctions SendSevenExecute SendSevenLoadOptions Laws.

Lemma filter_outcome_ok (p : value -> outcome bool) (q : value -> bool)
    (l : list value) :
  Forall (fun x => p x = Ok (q x)) l ->
  filter_outcome p l = Ok (filter q l).
Proof.
  induction 1 as [|x rest Hx _ IH]; [reflexivity|].
  cbn [filter_outcome filter]. rewrite Hx, IH. cbn [obind].
  destruct (q x); reflexivity.
Qed.

Lemma map_outcome_ok (f : value -> outcome value) (g : value -> value)
    (l : list value) :
  Forall (fun x => f x = Ok (g x)) l ->
  map_outcome f l = Ok (map g l).
Proof.
  induction 1 as [|x rest Hx _ IH]; [reflexivity|].
  cbn [map_outcome map]. rewrite Hx, IH. reflexivity.
Qed.

Lemma filter_outcome_length (p : value -> outcome bool) (l kept : list value) :
  filter_outcome p l = Ok kept -> (length kept <= length l)%nat.
Proof.
  revert kept. induction l as [|x rest IH]; intros kept.
  - intros H. injection H as <-. simpl. lia.
  - cbn [filter_outcome]. destruct (p x) as [keep| |]; try discriminate.
    destruct (filter_outcome p rest) as [kept'| |]; try discriminate.
    cbn [obind]. intros H. injection H as <-.
    specialize (IH kept' eq_refl). destruct keep; simpl; lia.
Qed.

(** X17. [getTemplateLanguages] never offers an empty list: without a
    template name it answers English at once, without a request; with
    one, whenever it returns, it returns at least one option (English when
    no approved template of that name is listed). *)
Theorem getTemplateLanguages_never_empty {S : Type} (this : Context S)
    (channelId templateName : string) (w : World S) :
  (templateName = EmptyString ->
   getTemplateLanguages this channelId templateName w = (Ok [english], w))
  /\ (forall options,
        fst (getTemplateLanguages this channelId templateName w) = Ok options
        -> options <> []).
Proof.
  unfold getTemplateLanguages. split.
  - intros ->. reflexivity.
  - intros options.
    destruct (negb (truthy (VStr templateName))).
    { intros H. injection H as <-. discriminate. }
    unfold bind, lift.
    destruct (sendSevenApiRequest this "GET" (templatesEndpoint channelId)
                [] [] w) as [[response| |] w1]; try discriminate.
    destruct (get response "items") as [items| |]; try discriminate.
    cbn [fst]. unfold languageOptions.
    destruct (asArray (js_or items response)) as [l| |]; try discriminate.
    cbn [obind].
    destruct (filter_outcome (isApprovedNamed templateName) l)
      as [matching| |]; try discriminate.
    cbn [obind]. rewrite length_map.
    destruct matching as [|t rest]; cbn [length].
    + intros Hr. injection Hr as <-. discriminate.
    + destruct (Z.ltb_spec 0 (Z.of_nat (Datatypes.S (length rest))))
        as [_|Hle]; [|lia].
      intros Hr. injection Hr as <-. discriminate.
Qed.

(** X18. [getWhatsAppChannels] offers the WhatsApp channels and no
    others: given the channels the API lists (none of them [null]), it
    returns one option per channel of type ['whatsapp'], in the order
    listed, valued by the channel's id. *)
Theorem getWhatsAppChannels_only_whatsapp {S : Type} (this : Context S)
    (lt_other : value -> value -> bool) (fuel : nat) (w w1 : World S)
    (channels : list value) :
  sendSevenApiRequestAllItems this lt_other fuel "/channels" [] "items" w
    = (Ok channels, w1) ->
  Forall (fun c => nullish c = false) channels ->
  exists options,
    getWhatsAppChannels this lt_other fuel w = (Ok options, w1)
    /\ map optionValue options
       = map (fun c => member c "id") (filter whatsapp channels).
Proof.
  intros Hreq Hnn. unfold getWhatsAppChannels, bind, lift. rewrite Hreq.
  rewrite (filter_outcome_ok isWhatsApp whatsapp).
  2:{ eapply Forall_impl; [|exact Hnn]. intros c Hc. unfold isWhatsApp.
      now rewrite (get_member c _ Hc). }
  assert (Hkept : Forall (fun c => nullish c = false)
                    (filter whatsapp channels)).
  { apply Forall_forall. intros c Hc. apply filter_In in Hc.
    destruct Hc as [Hc _]. rewrite Forall_forall in Hnn. now apply Hnn. }
  rewrite (map_outcome_ok whatsAppChannelOption
             (fun channel =>
                VObj [ ("name",
                         js_or (member channel "name")
                           (VStr ("WhatsApp - "
                                  ++ String_ (js_or (member channel
                                                       "identifier")
                                                    (member channel "id")))));
                       ("value", member channel "id") ])).
  2:{ eapply Forall_impl; [|exact Hkept]. intros c Hc.
      unfold whatsAppChannelOption. now rewrite (get_member c _ Hc). }
  eexists. split; [reflexivity|].
  rewrite map_map. reflexivity.
Qed.

Lemma same_value_zero_str (k : value) (s : string) :
  same_value_zero k (VStr s) = true <-> k = VStr s.
Proof.
  destruct k; simpl; try (split; [discriminate|congruence]).
  destruct (String.eqb_spec s0 s); split; congruence.
Qed.

(** What one more template does to the names of the map. *)
Lemma templateMapAdd_names (templateMap : list (value * list value))
    (s : string) (language : value) :
  (In (VStr s) (map fst templateMap) ->
   map fst (templateMapAdd templateMap (VStr s) language)
     = map fst templateMap)
  /\ (~ In (VStr s) (map fst templateMap) ->
      map fst (templateMapAdd templateMap (VStr s) language)
        = (map fst templateMap ++ [VStr s])%list).
Proof.
  induction templateMap as [|[k languages] rest [IHin IHout]];
    cbn [templateMapAdd map fst].
  - split; [intros []|reflexivity].
  - destruct (same_value_zero k (VStr s)) eqn:E; cbn [map fst].
    + apply same_value_zero_str in E. subst k.
      split; [reflexivity|]. intros Hn. elim Hn. now left.
    + assert (k <> VStr s) as Hk.
      { intros Heq. apply same_value_zero_str in Heq. congruence. }
      split.
      * intros [Heq|Hin]; [congruence|]. now rewrite IHin.
      * intros Hn. rewrite IHout; [reflexivity|].
        intros Hin. apply Hn. now right.
Qed.

(** The names of the map after the [forEach]: no name twice, and the names
    are those seen. *)
Lemma groupTemplates_names (templates : list value) :
  Forall namedTemplate templates ->
  forall templateMap,
    NoDup (map fst templateMap) ->
    let result :=
      fold_left
        (fun m t => templateMapAdd m (member t "name") (member t "language"))
        templates templateMap in
    NoDup (map fst result)
    /\ (forall n, In n (map fst result)
                  <-> In n (map fst templateMap)
                      \/ In n (map (fun t => member t "name") templates)).
Proof.
  induction 1 as [|t rest [_ [s Hs]] _ IH]; intros templateMap Hnd;
    cbn [fold_left map].
  - split; [exact Hnd|]. intros n. simpl. tauto.
  - rewrite Hs.
    destruct (templateMapAdd_names templateMap s (member t "language"))
      as [Hin Hout].
    assert (Hdec : In (VStr s) (map fst templateMap)
                   \/ ~ In (VStr s) (map fst templateMap)).
    { destruct (existsb (fun k => same_value_zero k (VStr s))
                  (map fst templateMap)) eqn:E.
      - left. apply existsb_exists in E. destruct E as [k [Hk Hsv]].
        apply same_value_zero_str in Hsv. now subst k.
      - right. intros Hk.
        assert (existsb (fun k => same_value_zero k (VStr s))
                  (map fst templateMap) = true) as Ht.
        { apply existsb_exists. exists (VStr s). split; [exact Hk|].
          now apply same_value_zero_str. }
        congruence. }
    destruct Hdec as [Hi|Hn].
    + destruct (IH (templateMapAdd templateMap (VStr s)
                      (member t "language"))) as [Hnd' Hiff].
      { now rewrite (Hin Hi). }
      cbv zeta in Hnd', Hiff. split; [exact Hnd'|].
      intros n. rewrite Hiff, (Hin Hi). split.
      * intros [Hl|Hr]; [now left|right; now right].
      * intros [Hl|[Hh|Hr]]; [now left|left; now subst n|now right].
    + destruct (IH (templateMapAdd templateMap (VStr s)
                      (member t "language"))) as [Hnd' Hiff].
      { rewrite (Hout Hn). apply NoDup_app; [exact Hnd|repeat constructor;
          intros []|].
        intros x Hx [<-|[]]. contradiction. }
      cbv zeta in Hnd', Hiff. split; [exact Hnd'|].
      intros n. rewrite Hiff, (Hout Hn), in_app_iff. simpl. split.
      * intros [[Hl|[Hh|[]]]|Hr];
          [now left|right; now left|right; now right].
      * intros [Hl|[Hh|Hr]];
          [left; now left|left; right; now left|now right].
Qed.

(** The options made of the templates listed (objects named by a string):
    each name of an approved template exactly once, and no other name. *)
Lemma templateOptions_names (templates : list value) :
  Forall namedTemplate templates ->
  exists options,
    templateOptions (VArr templates) = Ok options
    /\ NoDup (map optionValue options)
    /\ (forall n, In n (map optionValue options)
                  <-> exists t, In t templates /\ approved t = true
                                /\ member t "name" = n).
Proof.
  intros Hnamed. unfold templateOptions. cbn [asArray obind].
  rewrite (filter_outcome_ok isApproved approved).
  2:{ eapply Forall_impl; [|exact Hnamed]. intros t [Hn _].
      unfold isApproved, approved. now rewrite (get_member t _ Hn). }
  cbn [obind]. eexists. split; [reflexivity|].
  assert (Hkept : Forall namedTemplate (filter approved templates)).
  { apply Forall_forall. intros t Ht. apply filter_In in Ht.
    rewrite Forall_forall in Hnamed. now apply Hnamed. }
  destruct (groupTemplates_names (filter approved templates) Hkept [])
    as [Hnd Hiff]; [constructor|].
  cbv zeta in Hnd, Hiff. fold (groupTemplates (filter approved templates))
    in Hnd, Hiff.
  assert (Hvalues : forall entries,
             map optionValue (map templateOption entries)
             = map fst entries).
  { intros entries. rewrite map_map. apply map_ext. intros [n ls].
    reflexivity. }
  rewrite Hvalues. split; [exact Hnd|].
  intros n. rewrite Hiff. simpl. rewrite in_map_iff. split.
  - intros [[]|[t [Hname Ht]]]. apply filter_In in Ht.
    exists t. tauto.
  - intros [t [Ht [Ha Hname]]]. right. exists t.
    split; [exact Hname|]. apply filter_In. tauto.
Qed.

Lemma plain_loader {S : Type} (this : Context S)
    (lt_other : value -> value -> bool) (fuel : nat) (endpoint : string)
    (w w1 : World S) (listed : list value)
    (option : value -> outcome value) (g : value -> value) :
  sendSevenApiRequestAllItems this lt_other fuel endpoint [] "items" w
    = (Ok listed, w1) ->
  Forall (fun x => nullish x = false) listed ->
  (forall x, nullish x = false -> option x = Ok (g x)) ->
  (forall x, optionValue (g x) = member x "id") ->
  exists options,
    bind (sendSevenApiRequestAllItems this lt_other fuel endpoint [] "items")
      (fun items => lift (map_outcome option items)) w
    = (Ok options, w1)
    /\ length options = length listed
    /\ map optionValue options = map (fun x => member x "id") listed.
Proof.
  intros Hreq Hnn Hg Hv. exists (map g listed).
  unfold bind, lift. rewrite Hreq.
  rewrite (map_outcome_ok option g listed).
  2:{ eapply Forall_impl; [|exact Hnn]. exact Hg. }
  split; [reflexivity|]. split; [apply length_map|].
  rewrite map_map. apply map_ext. exact Hv.
Qed.

(** X20. The plain loaders offer one option per item: given the items
    the API lists (none of them [null]), [getChannels], [getTags] and
    [getUsers] each return as many options, in the order listed, each
    valued by the item's id. *)
Theorem loaders_one_option_per_item {S : Type} (this : Context S)
    (lt_other : value -> value -> bool) (fuel : nat) (w w1 : World S)
    (listed : list value) :
  Forall (fun x => nullish x = false) listed ->
  (sendSevenApiRequestAllItems this lt_other fuel "/channels" [] "items" w
     = (Ok listed, w1) ->
   exists options,
     getChannels this lt_other fuel w = (Ok options, w1)
     /\ length options = length listed
     /\ map optionValue options = map (fun x => member x "id") listed)
  /\ (sendSevenApiRequestAllItems this lt_other fuel "/tags" [] "items" w
        = (Ok listed, w1) ->
      exists options,
        getTags this lt_other fuel w = (Ok options, w1)
        /\ length options = length listed
        /\ map optionValue options = map (fun x => member x "id") listed)
  /\ (sendSevenApiRequestAllItems this lt_other fuel "/users" [] "items" w
        = (Ok listed, w1) ->
      exists options,
        getUsers this lt_other fuel w = (Ok options, w1)
        /\ length options = length listed
        /\ map optionValue options = map (fun x => member x "id") listed).
Proof.
  intros Hnn. split; [|split]; intros Hreq.
  - apply (plain_loader this lt_other fuel "/channels" w w1 listed
             channelOption
             (fun channel =>
                VObj [ ("name",
                         js_or (member channel "name")
                           (VStr (String_ (member channel "channel_type")
                                  ++ " - "
                                  ++ String_ (js_or (member channel
                                                       "identifier")
                                                    (member channel "id")))));
                       ("value", member channel "id") ]) Hreq Hnn).
    + intros c Hc. unfold channelOption. now rewrite (get_member c _ Hc).
    + reflexivity.
  - apply (plain_loader this lt_other fuel "/tags" w w1 listed tagOption
             (fun tag => VObj [ ("name", member tag "name");
                                ("value", member tag "id") ]) Hreq Hnn).
    + intros c Hc. unfold tagOption. now rewrite (get_member c _ Hc).
    + reflexivity.
  - apply (plain_loader this lt_other fuel "/users" w w1 listed userOption
             (fun user =>
                VObj [ ("name",
                         VStr (String_ (js_or (member user "name")
                                              (member user "email"))));
                       ("value", member user "id") ]) Hreq Hnn).
    + intros c Hc. unfold userOption. now rewrite (get_member c _ Hc).
    + reflexivity.
Qed.

(** X19. [getWhatsAppTemplates] groups by name: when the API lists
    templates (objects named by a string) under [items], the loader offers
    each name of an approved template exactly once, and no other name. *)
Theorem getWhatsAppTemplates_groups_by_name {S : Type} (this : Context S)
    (channelId : string) (w w1 : World S) (response : value)
    (templates : list value) :
  sendSevenApiRequest this "GET" (templatesEndpoint channelId) [] [] w
    = (Ok response, w1) ->
  get response "items" = Ok (VArr templates) ->
  Forall namedTemplate templates ->
  exists options,
    getWhatsAppTemplates this channelId w = (Ok options, w1)
    /\ NoDup (map optionValue options)
    /\ (forall n, In n (map optionValue options)
                  <-> exists t, In t templates /\ approved t = true
                                /\ member t "name" = n).
Proof.
  intros Hreq Hitems Hnamed.
  destruct (templateOptions_names templates Hnamed)
    as (options & Hopt & Hnd & Hiff).
  exists options. split; [|split; assumption].
  unfold getWhatsAppTemplates, bind, lift. rewrite Hreq, Hitems.
  unfold js_or. cbn [truthy]. rewrite Hopt. reflexivity.
Qed.

End LoadOptionsProperties.

(** Witness for X18: a WhatsApp and a Telegram channel. *)
Lemma getWhatsAppChannels_only_whatsapp_witness :
  exists options,
    SendSevenLoadOptions.getWhatsAppChannels
      (Simulation.pagedApi true [Doubles.sampleChannels])
      Simulation.lt_never 100 (Simulation.startWorld tt)
    = (Ok options,
       snd (GenericFunctions.sendSevenApiRequestAllItems
              (Simulation.pagedApi true [Doubles.sampleChannels])
              Simulation.lt_never 100 "/channels" [] "items"
              (Simulation.startWorld tt)))
    /\ map Laws.optionValue options = [VStr "ch_1"].
Proof.
  apply (getWhatsAppChannels_only_whatsapp
           (Simulation.pagedApi true [Doubles.sampleChannels])
           Simulation.lt_never 100 (Simulation.startWorld tt)
           (snd (GenericFunctions.sendSevenApiRequestAllItems
                   (Simulation.pagedApi true [Doubles.sampleChannels])
                   Simulation.lt_never 100 "/channels" [] "items"
                   (Simulation.startWorld tt)))
           Doubles.sampleChannels).
  - reflexivity.
  - repeat constructor.
Defined.

(** Witness for X19: a template approved in two languages and a rejected
    one. *)
Lemma getWhatsAppTemplates_groups_by_name_witness :
  exists options,
    SendSevenLoadOptions.getWhatsAppTemplates
      (Simulation.constantApi true
         (VObj [("items", VArr Doubles.sampleTemplates)]))
      "ch_1" (Simulation.startWorld tt)
    = (Ok options,
       snd (GenericFunctions.sendSevenApiRequest
              (Simulation.constantApi true
                 (VObj [("items", VArr Doubles.sampleTemplates)]))
              "GET" (SendSevenExecute.templatesEndpoint "ch_1") [] []
              (Simulation.startWorld tt)))
    /\ NoDup (map Laws.optionValue options)
    /\ (forall n, In n (map Laws.optionValue options)
                  <-> exists t, In t Doubles.sampleTemplates
                                /\ Laws.approved t = true
                                /\ member t "name" = n).
Proof.
  apply (getWhatsAppTemplates_groups_by_name
           (Simulation.constantApi true
              (VObj [("items", VArr Doubles.sampleTemplates)]))
           "ch_1" (Simulation.startWorld tt)
           (snd (GenericFunctions.sendSevenApiRequest
                   (Simulation.constantApi true
                      (VObj [("items", VArr Doubles.sampleTemplates)]))
                   "GET" (SendSevenExecute.templatesEndpoint "ch_1") [] []
                   (Simulation.startWorld tt)))
           (VObj [("items", VArr Doubles.sampleTemplates)])
           Doubles.sampleTemplates).
  - reflexivity.
  - reflexivity.
  - repeat constructor; eexists; reflexivity.
Defined.

(** The options of the sample templates. *)
Example getWhatsAppTemplates_sample :
  fst (SendSevenLoadOptions.getWhatsAppTemplates
         (Simulation.constantApi true
            (VObj [("items", VArr Doubles.sampleTemplates)]))
         "ch_1" (Simulation.startWorld tt))
  = Ok [ VObj [ ("name", VStr "order_update (en, de)");
                ("value", VStr "order_update") ] ].
Proof. reflexivity. Qed.

(** Witness for X20: the two sample channels. *)
Lemma loaders_one_option_per_item_witness :
  exists options,
    SendSevenLoadOptions.getChannels
      (Simulation.pagedApi true [Doubles.sampleChannels])
      Simulation.lt_never 100 (Simulation.startWorld tt)
    = (Ok options,
       snd (GenericFunctions.sendSevenApiRequestAllItems
              (Simulation.pagedApi true [Doubles.sampleChannels])
              Simulation.lt_never 100 "/channels" [] "items"
              (Simulation.startWorld tt)))
    /\ length options = 2%nat
    /\ map Laws.optionValue options = [VStr "ch_1"; VStr "ch_2"].
Proof.
  apply (loaders_one_option_per_item
           (Simulation.pagedApi true [Doubles.sampleChannels])
           Simulation.lt_never 100 (Simulation.startWorld tt)
           (snd (GenericFunctions.sendSevenApiRequestAllItems
                   (Simulation.pagedApi true [Doubles.sampleChannels])
                   Simulation.lt_never 100 "/channels" [] "items"
                   (Simulation.startWorld tt)))
           Doubles.sampleChannels).
  - repeat constructor.
  - reflexivity.
Defined.

(* ================================================================== *)
(** ** Properties of the webhook registration *)
(* ================================================================== *)

Section HookProperties.

Import GenericFunctions SendSevenLoadOptions SendSevenHooks SendSevenTrigger
  Laws.

Lemma has_key_obj_delete (o : obj) (k k' : string) :
  has_key (obj_delete o k) k' = negb (k =? k') && has_key o k'.
Proof.
  unfold has_key, obj_delete.
  induction o as [|[k0 v0] rest IH]; simpl.
  - now rewrite andb_false_r.
  - destruct (String.eqb_spec k0 k) as [->|Hk]; simpl.
    + rewrite IH. destruct (k =? k'); reflexivity.
    + rewrite IH. destruct (String.eqb_spec k0 k') as [->|Hk']; simpl.
      * apply String.eqb_neq in Hk. rewrite String.eqb_sym in Hk.
        now rewrite Hk.
      * reflexivity.
Qed.

Lemma field_obj_delete (o : obj) (k k' : string) :
  k <> k' -> field (obj_delete o k) k' = field o k'.
Proof.
  intros Hne. unfold obj_delete.
  induction o as [|[k0 v0] rest IH]; simpl; [reflexivity|].
  destruct (String.eqb_spec k0 k) as [->|Hk]; simpl.
  - apply String.eqb_neq in Hne. now rewrite Hne.
  - now rewrite IH.
Qed.

Lemma find_outcome_fuel (p : value -> outcome bool) (l : list value) :
  (forall x, p x <> OutOfFuel) -> find_outcome p l <> OutOfFuel.
Proof.
  intros Hp. induction l as [|x rest IH]; simpl; [discriminate|].
  specialize (Hp x). destruct (p x) as [[|]| |]; simpl; congruence.
Qed.

Lemma isExisting_fuel (webhookUrl event : string) (x : value) :
  isExisting webhookUrl event x <> OutOfFuel.
Proof.
  unfold isExisting, get. destruct (nullish x); simpl; [discriminate|].
  destruct (strict_eq_str (member x "url") webhookUrl); [|discriminate].
  unfold includesEvent.
  destruct (member x "subscribed_events"); discriminate.
Qed.

Lemma isExisting_listed (webhookUrl event : string) (hook : value) :
  listedWebhook hook ->
  isExisting webhookUrl event hook = Ok (subscribes webhookUrl event hook).
Proof.
  intros [Hn Hev]. unfold isExisting, subscribes.
  rewrite (get_member hook _ Hn). cbn [obind].
  destruct (strict_eq_str (member hook "url") webhookUrl); [|reflexivity].
  cbn [andb]. destruct Hev as [Hnull|[l Hl]].
  - destruct (member hook "subscribed_events"); try discriminate;
      reflexivity.
  - rewrite Hl. reflexivity.
Qed.

Lemma find_outcome_listed (webhookUrl event : string) (hooks : list value) :
  Forall listedWebhook hooks ->
  find_outcome (isExisting webhookUrl event) hooks =
    Ok (match find (subscribes webhookUrl event) hooks with
        | Some hook => hook
        | None => VUndefined
        end).
Proof.
  induction 1 as [|hook rest Hh _ IH]; [reflexivity|].
  cbn [find_outcome find]. rewrite (isExisting_listed _ _ _ Hh).
  cbn [obind]. destruct (subscribes webhookUrl event hook);
    [reflexivity|exact IH].
Qed.

Context {S : Type}.
Variable this : Context S.

(** X21. [checkExists] never throws: it makes one GET to [/webhooks]
    and answers true or false, whatever comes back; when it answers false
    the static data is as before. *)
Theorem checkExists_never_throws
    (webhookUrl event : string) (webhookData : obj) (w : World S) :
  exists (found : bool) (data : obj) (cred : string),
    fst (checkExists this webhookUrl event webhookData w) = Ok (found, data)
    /\ (found = false -> data = webhookData)
    /\ requests (snd (checkExists this webhookUrl event webhookData w))
       = (requests w ++
          [(cred, {| method := "GET";
                     url := API_BASE_URL ++ "/webhooks";
                     qs := None;
                     body := None;
                     json := true |})])%list.
Proof.
  unfold checkExists, try_catch, bind, lift, ret.
  pose proof (sendSevenApiRequest_fuel this "GET" "/webhooks" [] [] w) as Hf.
  destruct (sendSevenApiRequest_log this "GET" "/webhooks" [] [] w)
    as [cred Hlog].
  change (requestOptions "GET" "/webhooks" [] [])
    with {| method := "GET"; url := API_BASE_URL ++ "/webhooks";
            qs := None; body := None; json := true |} in Hlog.
  destruct (sendSevenApiRequest this "GET" "/webhooks" [] [] w)
    as [[response|e|] w1]; cbn [fst snd] in *; [| |congruence].
  2:{ exists false, webhookData, cred. repeat split; auto. }
  pose proof (get_fuel response "items") as Hg.
  destruct (get response "items") as [items| |]; cbn [fst snd];
    [| |congruence].
  2:{ exists false, webhookData, cred. repeat split; auto. }
  destruct (asArray (js_or items response)) as [l| |] eqn:Ea;
    cbn [fst snd].
  2:{ exists false, webhookData, cred. repeat split; auto. }
  2:{ destruct (js_or items response); discriminate. }
  pose proof (find_outcome_fuel (isExisting webhookUrl event) l
                (isExisting_fuel webhookUrl event)) as Hfind.
  destruct (find_outcome (isExisting webhookUrl event) l)
    as [existing| |]; cbn [fst snd]; [| |congruence].
  2:{ exists false, webhookData, cred. repeat split; auto. }
  destruct (truthy existing); cbn [fst snd].
  - eexists true, _, cred. repeat split; auto. discriminate.
  - exists false, webhookData, cred. repeat split; auto.
Qed.

(** X22. [checkExists] on a well-formed listing: when [/webhooks]
    answers with an [items] array of webhooks (objects whose
    [subscribed_events], when there, is an array), the hook answers true
    exactly when one of them has the node's URL and subscribes to the
    node's event, and then stores the id of the first such webhook as
    [webhookId]. *)
Theorem checkExists_finds_registration
    (webhookUrl event : string) (webhookData : obj) (w w1 : World S)
    (response : value) (hooks : list value) :
  sendSevenApiRequest this "GET" "/webhooks" [] [] w = (Ok response, w1) ->
  get response "items" = Ok (VArr hooks) ->
  Forall listedWebhook hooks ->
  checkExists this webhookUrl event webhookData w =
    (Ok (match find (subscribes webhookUrl event) hooks with
         | Some hook =>
             (true, obj_set webhookData "webhookId" (member hook "id"))
         | None => (false, webhookData)
         end), w1).
Proof.
  intros Hreq Hitems Hl.
  unfold checkExists, try_catch, bind, lift, ret.
  rewrite Hreq, Hitems. unfold js_or. cbn [truthy asArray].
  rewrite (find_outcome_listed webhookUrl event hooks Hl).
  destruct (find (subscribes webhookUrl event) hooks) as [hook|] eqn:Ef;
    [|reflexivity].
  apply find_some in Ef. destruct Ef as [Hin Hsub].
  rewrite Forall_forall in Hl. destruct (Hl hook Hin) as [Hn _].
  assert (truthy hook = true) as ->.
  { unfold subscribes in Hsub. apply andb_true_iff in Hsub.
    destruct Hsub as [Hurl _].
    destruct hook as [| |b|n|s|l|o]; try discriminate; try reflexivity.
    destruct s; [discriminate|reflexivity]. }
  reflexivity.
Qed.

(** X23. [create] never throws.  It posts [{name, url,
    subscribed_events: [event]}] to [/webhooks]; when the API answers with
    an object it returns true and stores [webhook_id] (or else [id]) as
    [webhookId] and [secret_key] as [secretKey], leaving the other static
    data alone; when the request fails, or answers [null], it returns
    false and stores nothing. *)
Theorem create_stores_registration
    (webhookUrl event workflowId : string) (webhookData : obj)
    (w : World S) :
  let request :=
    sendSevenApiRequest this "POST" "/webhooks"
      (createBody webhookUrl event workflowId) [] w in
  snd (create this webhookUrl event workflowId webhookData w) = snd request
  /\ (exists cred,
        requests (snd request) =
        (requests w ++
         [(cred, {| method := "POST";
                    url := API_BASE_URL ++ "/webhooks";
                    qs := None;
                    body := Some [ ("name",
                                     VStr ("n8n Workflow " ++ workflowId
                                           ++ ": " ++ event));
                                   ("url", VStr webhookUrl);
                                   ("subscribed_events",
                                     VArr [VStr event]) ];
                    json := true |})])%list)
  /\ match fst request with
     | Ok response =>
         if nullish response then
           fst (create this webhookUrl event workflowId webhookData w)
             = Ok (false, webhookData)
         else
           exists data,
             fst (create this webhookUrl event workflowId webhookData w)
               = Ok (true, data)
             /\ field data "webhookId"
                = js_or (member response "webhook_id") (member response "id")
             /\ field data "secretKey" = member response "secret_key"
             /\ (forall k, k <> "webhookId" -> k <> "secretKey" ->
                           field data k = field webhookData k)
     | _ =>
         fst (create this webhookUrl event workflowId webhookData w)
           = Ok (false, webhookData)
     end.
Proof.
  cbv zeta. unfold create, try_catch, bind, lift, ret.
  pose proof (sendSevenApiRequest_fuel this "POST" "/webhooks"
                (createBody webhookUrl event workflowId) [] w) as Hf.
  destruct (sendSevenApiRequest_log this "POST" "/webhooks"
              (createBody webhookUrl event workflowId) [] w) as [cred Hlog].
  destruct (sendSevenApiRequest this "POST" "/webhooks"
              (createBody webhookUrl event workflowId) [] w)
    as [[response|e|] w1]; cbn [fst snd] in *.
  - unfold get. destruct (nullish response) eqn:En; cbn [fst snd].
    + split; [reflexivity|]. split; [exists cred; exact Hlog|reflexivity].
    + split; [reflexivity|]. split; [exists cred; exact Hlog|].
      eexists. split; [reflexivity|].
      rewrite !field_obj_set. cbn [String.eqb Ascii.eqb Bool.eqb].
      split; [reflexivity|]. split; [reflexivity|].
      intros k Hk1 Hk2. rewrite !field_obj_set.
      apply String.eqb_neq in Hk1, Hk2.
      rewrite (String.eqb_sym "secretKey" k), (String.eqb_sym "webhookId" k).
      now rewrite Hk1, Hk2.
  - split; [reflexivity|]. split; [exists cred; exact Hlog|reflexivity].
  - congruence.
Qed.

Variable exn_member : exn -> string -> value.

(** X24. [delete] with a stored id makes one DELETE to
    [/webhooks/<id>]; when it answers true the static data has lost
    [webhookId] and [secretKey] and kept everything else, and when it
    answers false the static data is untouched, so that the host can try
    again. *)
Theorem delete_cleans_up (webhookData : obj) (w : World S) :
  truthy (field webhookData "webhookId") = true ->
  (exists cred,
     requests (snd (delete this exn_member webhookData w)) =
     (requests w ++
      [(cred, {| method := "DELETE";
                 url := API_BASE_URL ++ "/webhooks/"
                        ++ String_ (field webhookData "webhookId");
                 qs := None;
                 body := None;
                 json := true |})])%list)
  /\ (forall data,
        fst (delete this exn_member webhookData w) = Ok (true, data) ->
        has_key data "webhookId" = false
        /\ has_key data "secretKey" = false
        /\ (forall k, k <> "webhookId" -> k <> "secretKey" ->
                      field data k = field webhookData k))
  /\ (forall data,
        fst (delete this exn_member webhookData w) = Ok (false, data) ->
        data = webhookData).
Proof.
  intros Hid. unfold delete. rewrite Hid. cbn [negb].
  unfold bind, try_catch, ret.
  destruct (sendSevenApiRequest_log this "DELETE"
              ("/webhooks/" ++ String_ (field webhookData "webhookId"))
              [] [] w) as [cred Hlog].
  change (requestOptions "DELETE"
            ("/webhooks/" ++ String_ (field webhookData "webhookId")) [] [])
    with {| method := "DELETE";
            url := API_BASE_URL ++ "/webhooks/"
                   ++ String_ (field webhookData "webhookId");
            qs := None; body := None; json := true |} in Hlog.
  assert (Hclean :
            has_key (obj_delete (obj_delete webhookData "webhookId")
                       "secretKey") "webhookId" = false
            /\ has_key (obj_delete (obj_delete webhookData "webhookId")
                          "secretKey") "secretKey" = false
            /\ (forall k, k <> "webhookId" -> k <> "secretKey" ->
                  field (obj_delete (obj_delete webhookData "webhookId")
                           "secretKey") k = field webhookData k)).
  { rewrite !has_key_obj_delete. cbn [String.eqb Ascii.eqb Bool.eqb negb andb].
    split; [reflexivity|]. split; [reflexivity|].
    intros k Hk1 Hk2. rewrite !field_obj_delete by congruence. reflexivity. }
  destruct (sendSevenApiRequest this "DELETE"
              ("/webhooks/" ++ String_ (field webhookData "webhookId"))
              [] [] w) as [[r|err|] w1]; cbn [fst snd] in *.
  - split; [exists cred; exact Hlog|]. split.
    + intros data H. injection H as <-. exact Hclean.
    + intros data H. discriminate.
  - destruct (strict_eq_num
                (js_or (exn_member err "httpCode")
                       (exn_member err "statusCode")) 404);
      cbn [negb fst snd];
      (split; [exists cred; exact Hlog|]); split; intros data H;
      try discriminate.
    + injection H as <-. exact Hclean.
    + injection H as <-. reflexivity.
  - split; [exists cred; exact Hlog|]. split; intros data H; discriminate.
Qed.

(** X25. What [create] stores is what [delete] uses: after a [create]
    that the API answers with a non-empty id (as [webhook_id], or else
    [id]), a [delete] on the stored data sends its DELETE to
    [/webhooks/<that id>]. *)
Theorem create_then_delete
    (webhookUrl event workflowId : string) (webhookData : obj)
    (w w1 : World S) (response : value) (id : string) :
  sendSevenApiRequest this "POST" "/webhooks"
    (createBody webhookUrl event workflowId) [] w = (Ok response, w1) ->
  nullish response = false ->
  js_or (member response "webhook_id") (member response "id") = VStr id ->
  id <> EmptyString ->
  exists data cred,
    create this webhookUrl event workflowId webhookData w
      = (Ok (true, data), w1)
    /\ requests (snd (delete this exn_member data w1)) =
       (requests w1 ++
        [(cred, {| method := "DELETE";
                   url := API_BASE_URL ++ "/webhooks/" ++ id;
                   qs := None;
                   body := None;
                   json := true |})])%list.
Proof.
  intros Hreq Hn Hid Hne.
  unfold create, try_catch, bind, lift, ret.
  rewrite Hreq, (get_member response _ Hn), Hid.
  eexists. 
  assert (Hstored :
            field (obj_set (obj_set webhookData "webhookId" (VStr id))
                     "secretKey" (member response "secret_key"))
              "webhookId" = VStr id).
  { rewrite !field_obj_set. reflexivity. }
  unfold delete. rewrite Hstored.
  apply truthy_str in Hne. rewrite Hne. cbn [negb].
  unfold bind, try_catch, ret. cbn [String_].
  destruct (sendSevenApiRequest_log this "DELETE" ("/webhooks/" ++ id)
              [] [] w1) as [cred Hlog].
  exists cred. split; [reflexivity|].
  change {| method := "DELETE"; url := API_BASE_URL ++ "/webhooks/" ++ id;
            qs := None; body := None; json := true |}
    with (requestOptions "DELETE" ("/webhooks/" ++ id) [] []).
  destruct (sendSevenApiRequest this "DELETE" ("/webhooks/" ++ id) [] [] w1)
    as [[r|err|] w2]; cbn [fst snd] in *; try exact Hlog.
  destruct (strict_eq_num
              (js_or (exn_member err "httpCode")
                     (exn_member err "statusCode")) 404);
    exact Hlog.
Qed.

(** X26. A delivery of the configured event always yields exactly one
    output item, whichever of the event kinds it is; the item carries an
    [id], the event name and the delivery's timestamp. *)
Theorem webhook_one_item_per_delivery
    (headers body_ : obj) (event : string) (webhookData : obj) :
  field body_ "event" = VStr event ->
  exists item,
    webhook headers body_ event webhookData =
      {| noWebhookResponse := None;
         workflowData := Some [ [ VObj [ ("json", VObj item) ] ] ] |}
    /\ has_key item "id" = true
    /\ field item "event" = VStr event
    /\ field item "timestamp" = field body_ "timestamp".
Proof.
  intros Hev. unfold webhook. rewrite Hev.
  assert (strict_eq_str (VStr event) event = true) as ->
    by now apply strict_eq_str_spec.
  cbn [negb]. cbv zeta. unfold formatEvent.
  repeat match goal with
         | |- context [if ?c then _ else _] => destruct c
         end;
    eexists; (split; [reflexivity|]); repeat split; reflexivity.
Qed.

(** X27. Contact events accept both payload shapes: a delivery whose
    [data] is the contact itself is formatted like one whose [data] holds
    the contact under [contact]. *)
Theorem webhook_contact_nested_or_flat
    (headers rest : obj) (event : string) (webhookData : obj)
    (contact : value) :
  event = "contact.created" \/ event = "contact.updated" ->
  truthy contact = true ->
  truthy (member contact "contact") = false ->
  webhook headers
    (("event", VStr event) :: ("data", VObj [("contact", contact)]) :: rest)
    event webhookData
  = webhook headers
      (("event", VStr event) :: ("data", contact) :: rest)
      event webhookData.
Proof.
  intros Hev Hc Hflat. unfold webhook.
  cbn [field String.eqb Ascii.eqb Bool.eqb].
  assert (strict_eq_str (VStr event) event = true) as ->
    by now apply strict_eq_str_spec.
  cbn [negb]. cbv zeta.
  assert (Hnested : js_or (member (VObj [("contact", contact)]) "contact")
                      (VObj [("contact", contact)]) = contact).
  { cbn [member field String.eqb Ascii.eqb Bool.eqb]. unfold js_or.
    now rewrite Hc. }
  assert (Hplain : js_or (member contact "contact") contact = contact).
  { unfold js_or. now rewrite Hflat. }
  assert (Hdata : js_or contact (VObj []) = contact).
  { unfold js_or. now rewrite Hc. }
  rewrite Hdata.
  change (js_or (VObj [("contact", contact)]) (VObj []))
    with (VObj [("contact", contact)]).
  unfold formatEvent.
  destruct Hev as [-> | ->];
    cbn [strict_eq_str String.eqb Ascii.eqb Bool.eqb orb];
    cbv zeta; rewrite Hnested, Hplain; reflexivity.
Qed.

(** X28. The stored secret never gates a delivery: the handler's result
    is the same whatever the node's static data holds. *)
Theorem webhook_ignores_static_data
    (headers body_ : obj) (event : string) (webhookData webhookData' : obj) :
  webhook headers body_ event webhookData
  = webhook headers body_ event webhookData'.
Proof.
  unfold webhook.
  destruct (strict_eq_str (field body_ "event") event); reflexivity.
Qed.

End HookProperties.

(** Witness for X22: the node's webhook is the second one listed. *)
Lemma checkExists_finds_registration_witness :
  SendSevenHooks.checkExists
    (Simulation.constantApi true
       (VObj [("items", VArr Doubles.sampleWebhooks)]))
    "https://n8n.example/webhook" "message.received" []
    (Simulation.startWorld tt)
  = (Ok (true, [("webhookId", VStr "wh_1")]),
     snd (GenericFunctions.sendSevenApiRequest
            (Simulation.constantApi true
               (VObj [("items", VArr Doubles.sampleWebhooks)]))
            "GET" "/webhooks" [] [] (Simulation.startWorld tt))).
Proof.
  apply (checkExists_finds_registration
           (Simulation.constantApi true
              (VObj [("items", VArr Doubles.sampleWebhooks)]))
           "https://n8n.example/webhook" "message.received" []
           (Simulation.startWorld tt)
           (snd (GenericFunctions.sendSevenApiRequest
                   (Simulation.constantApi true
                      (VObj [("items", VArr Doubles.sampleWebhooks)]))
                   "GET" "/webhooks" [] [] (Simulation.startWorld tt)))
           (VObj [("items", VArr Doubles.sampleWebhooks)])
           Doubles.sampleWebhooks).
  - reflexivity.
  - reflexivity.
  - repeat (apply Forall_cons;
            [split; [reflexivity|right; eexists; reflexivity]|]).
    apply Forall_nil.
Defined.

(** Witness for X24: a stored webhook that the API deletes. *)
Lemma delete_cleans_up_witness :
  fst (SendSevenTrigger.delete (Simulation.constantApi true VNull)
         Simulation.textStatus
         (("workflow", VStr "wf_7") :: Simulation.sampleStaticData)
         (Simulation.startWorld tt))
    = Ok (true, [("workflow", VStr "wf_7")])
  /\ has_key [("workflow", VStr "wf_7")] "webhookId" = false
  /\ has_key [("workflow", VStr "wf_7")] "secretKey" = false
  /\ field [("workflow", VStr "wf_7")] "workflow"
     = field (("workflow", VStr "wf_7") :: Simulation.sampleStaticData)
         "workflow".
Proof.
  destruct (delete_cleans_up (Simulation.constantApi true VNull)
              Simulation.textStatus
              (("workflow", VStr "wf_7") :: Simulation.sampleStaticData)
              (Simulation.startWorld tt) eq_refl) as (_ & Hclean & _).
  destruct (Hclean [("workflow", VStr "wf_7")] eq_refl) as (H1 & H2 & H3).
  split; [reflexivity|]. split; [exact H1|]. split; [exact H2|].
  apply H3; discriminate.
Defined.

(** Witness for X25: the API answers a registration with an [id]. *)
Lemma create_then_delete_witness :
  exists data cred,
    SendSevenHooks.create
      (Simulation.constantApi true
         (VObj [("id", VStr "wh_9"); ("secret_key", VStr "k")]))
      "https://n8n.example/webhook" "message.received" "wf_7" []
      (Simulation.startWorld tt)
    = (Ok (true, data),
       snd (GenericFunctions.sendSevenApiRequest
              (Simulation.constantApi true
                 (VObj [("id", VStr "wh_9"); ("secret_key", VStr "k")]))
              "POST" "/webhooks"
              (SendSevenHooks.createBody "https://n8n.example/webhook"
                 "message.received" "wf_7") []
              (Simulation.startWorld tt)))
    /\ requests
         (snd (SendSevenTrigger.delete
                 (Simulation.constantApi true
                    (VObj [("id", VStr "wh_9"); ("secret_key", VStr "k")]))
                 Simulation.textStatus data
                 (snd (GenericFunctions.sendSevenApiRequest
                         (Simulation.constantApi true
                            (VObj [("id", VStr "wh_9");
                                   ("secret_key", VStr "k")]))
                         "POST" "/webhooks"
                         (SendSevenHooks.createBody
                            "https://n8n.example/webhook"
                            "message.received" "wf_7") []
                         (Simulation.startWorld tt))))) =
       (requests
          (snd (GenericFunctions.sendSevenApiRequest
                  (Simulation.constantApi true
                     (VObj [("id", VStr "wh_9"); ("secret_key", VStr "k")]))
                  "POST" "/webhooks"
                  (SendSevenHooks.createBody "https://n8n.example/webhook"
                     "message.received" "wf_7") []
                  (Simulation.startWorld tt))) ++
        [(cred, {| method := "DELETE";
                   url := GenericFunctions.API_BASE_URL ++ "/webhooks/"
                          ++ "wh_9";
                   qs := None;
                   body := None;
                   json := true |})])%list.
Proof.
  apply (create_then_delete
           (Simulation.constantApi true
              (VObj [("id", VStr "wh_9"); ("secret_key", VStr "k")]))
           Simulation.textStatus
           "https://n8n.example/webhook" "message.received" "wf_7" []
           (Simulation.startWorld tt)
           (snd (GenericFunctions.sendSevenApiRequest
                   (Simulation.constantApi true
                      (VObj [("id", VStr "wh_9"); ("secret_key", VStr "k")]))
                   "POST" "/webhooks"
                   (SendSevenHooks.createBody "https://n8n.example/webhook"
                      "message.received" "wf_7") []
                   (Simulation.startWorld tt)))
           (VObj [("id", VStr "wh_9"); ("secret_key", VStr "k")])
           "wh_9").
  - reflexivity.
  - reflexivity.
  - reflexivity.
  - discriminate.
Defined.

(** Witness for X26: a delivery of an event without a case of its own. *)
Lemma webhook_one_item_per_delivery_witness :
  exists item,
    SendSevenTrigger.webhook Simulation.signedHeaders
      Simulation.sampleDelivery "channel.connected"
      Simulation.sampleStaticData =
      {| SendSevenTrigger.noWebhookResponse := None;
         SendSevenTrigger.workflowData :=
           Some [ [ VObj [ ("json", VObj item) ] ] ] |}
    /\ has_key item "id" = true
    /\ field item "event" = VStr "channel.connected"
    /\ field item "timestamp" = field Simulation.sampleDelivery "timestamp".
Proof.
  apply (webhook_one_item_per_delivery Simulation.signedHeaders
           Simulation.sampleDelivery "channel.connected"
           Simulation.sampleStaticData).
  reflexivity.
Defined.

(** Witness for X27: a created contact, nested and flat. *)
Lemma webhook_contact_nested_or_flat_witness :
  SendSevenTrigger.webhook Simulation.unsignedHeaders
    [ ("event", VStr "contact.created");
      ("data", VObj [("contact", VObj [("id", VStr "c_1")])]);
      ("timestamp", VStr "t") ]
    "contact.created" []
  = SendSevenTrigger.webhook Simulation.unsignedHeaders
      [ ("event", VStr "contact.created");
        ("data", VObj [("id", VStr "c_1")]);
        ("timestamp", VStr "t") ]
      "contact.created" [].
Proof.
  apply (webhook_contact_nested_or_flat Simulation.unsignedHeaders
           [("timestamp", VStr "t")] "contact.created" []
           (VObj [("id", VStr "c_1")])).
  - left. reflexivity.
  - reflexivity.
  - reflexivity.
Defined.

(** The hooks on concrete answers: a listing without the node's URL, and a
    registration the API refuses. *)
Example checkExists_not_listed :
  fst (SendSevenHooks.checkExists
         (Simulation.constantApi true
            (VObj [("items", VArr Doubles.sampleWebhooks)]))
         "https://n8n.example/other" "message.received" []
         (Simulation.startWorld tt))
  = Ok (false, []).
Proof. reflexivity. Qed.

Example create_refused :
  fst (SendSevenHooks.create
         (Simulation.failingApi true Simulation.sampleError)
         "https://n8n.example/webhook" "message.received" "wf_7"
         [("workflow", VStr "wf_7")] (Simulation.startWorld tt))
  = Ok (false, [("workflow", VStr "wf_7")]).
Proof. reflexivity. Qed.
